(** * dlock: the Android lock-screen disabler (package [pkg/dlock])

    A shallow embedding of the Go package: the command executor, the device
    directory, the lock-state inspector, the remediation cascade, the
    reboot/readiness waiter, the per-device orchestrator and the concurrency
    coordinator, followed by the properties established about them.

    Effectful code is embedded as a tree of actions ([Prog]): spawning the
    bridge tool, printing a log line, sleeping, and updating the shared
    [ProcessingStats].  A [World] answers every spawned command; [run]
    executes one tree sequentially, and [run_schedule] interleaves the trees
    of several goroutines over one shared machine. *)

From Stdlib Require Import String Ascii List ZArith Lia Bool Arith.
From Stdlib Require Import DecimalString.
Import ListNotations.
Open Scope string_scope.

Set Implicit Arguments.

(** ** The parts of Go's [strings], [bufio] and [fmt] that the package uses *)

Module GoStrings.

Definition TAB : string := String (ascii_of_nat 9) "".
Definition LF : string := String (ascii_of_nat 10) "".

(** White space as [strings.TrimSpace] sees it on ASCII text (the bridge
    tool's output): tab, line feed, vertical tab, form feed, carriage
    return and space. *)
Definition is_space (c : ascii) : bool :=
  let n := nat_of_ascii c in
  (((9 <=? n) && (n <=? 13)) || (n =? 32))%nat.

Fixpoint TrimLeft (s : string) : string :=
  match s with
  | EmptyString => EmptyString
  | String c s' => if is_space c then TrimLeft s' else s
  end.

Fixpoint TrimRight (s : string) : string :=
  match s with
  | EmptyString => EmptyString
  | String c s' =>
      match TrimRight s' with
      | EmptyString => if is_space c then EmptyString else String c EmptyString
      | t => String c t
      end
  end.

Definition TrimSpace (s : string) : string := TrimRight (TrimLeft s).

Definition lower_ascii (c : ascii) : ascii :=
  let n := nat_of_ascii c in
  if ((65 <=? n) && (n <=? 90))%nat then ascii_of_nat (n + 32) else c.

Fixpoint ToLower (s : string) : string :=
  match s with
  | EmptyString => EmptyString
  | String c s' => String (lower_ascii c) (ToLower s')
  end.

Fixpoint Contains (s substr : string) : bool :=
  if String.prefix substr s then true
  else match s with
       | EmptyString => false
       | String _ s' => Contains s' substr
       end.

(** [strings.Split(s, sep)] for a one-byte separator. *)
Fixpoint Split (s : string) (sep : ascii) : list string :=
  match s with
  | EmptyString => [EmptyString]
  | String c s' =>
      if Ascii.eqb c sep then EmptyString :: Split s' sep
      else match Split s' sep with
           | [] => [String c EmptyString]
           | h :: t => String c h :: t
           end
  end.

Fixpoint dropCR (s : string) : string :=
  match s with
  | EmptyString => EmptyString
  | String c EmptyString =>
      if Ascii.eqb c (ascii_of_nat 13) then EmptyString else s
  | String c s' => String c (dropCR s')
  end.

Fixpoint drop_last_empty (l : list string) : list string :=
  match l with
  | [] => []
  | [EmptyString] => []
  | x :: l' => x :: drop_last_empty l'
  end.

(** The tokens a [bufio.Scanner] with the default [ScanLines] yields: the
    text between line feeds, one trailing carriage return dropped, and no
    token for an empty remainder at the end of the input. *)
Definition ScanLines (s : string) : list string :=
  map dropCR (drop_last_empty (Split s (ascii_of_nat 10))).

Definition Join (l : list string) (sep : string) : string :=
  String.concat sep l.

Fixpoint Repeat (s : string) (n : nat) : string :=
  match n with
  | O => EmptyString
  | S n' => s ++ Repeat s n'
  end.

(** [%d] of [fmt.Sprintf]. *)
Definition Itoa (z : Z) : string := NilZero.string_of_int (Z.to_int z).

End GoStrings.
Import GoStrings.

(** ** Go's [int] (64 bits, two's complement) *)

Definition max_int : Z := 2 ^ 63 - 1.
Definition wrap64 (z : Z) : Z := (z + 2 ^ 63) mod 2 ^ 64 - 2 ^ 63.
Definition len {A} (l : list A) : Z := Z.of_nat (length l).

(** ** types.go *)

Record DeviceInfo := mkDeviceInfo {
  Model : string;
  Manufacturer : string;
  AndroidVersion : string;
  APILevel : string
}.

Record ProcessingStats := mkStats {
  successCount : Z;
  failedDevices : list string;
  totalDevices : Z
}.

Definition IncrementSuccess (ps : ProcessingStats) : ProcessingStats :=
  mkStats (wrap64 (successCount ps + 1)) (failedDevices ps) (totalDevices ps).

Definition AddFailedDevice (deviceSerial : string) (ps : ProcessingStats)
  : ProcessingStats :=
  mkStats (successCount ps) (failedDevices ps ++ [deviceSerial])%list (totalDevices ps).

Definition GetStats (ps : ProcessingStats) : Z * list string * Z :=
  (successCount ps, failedDevices ps, totalDevices ps).

Definition NewProcessingStats (total : Z) : ProcessingStats :=
  mkStats 0 [] total.

(** ** Actions and programs *)

(** What [cmd.CombinedOutput()] and the context leave behind: the captured
    output, the text of [err] when it is not nil ([err.Error()]), whether
    [ctx.Err()] is [context.DeadlineExceeded], and the exit code. *)
Record ProcResult := mkProc {
  combined_output : string;
  proc_err : option string;
  deadline_exceeded : bool;
  exit_code : Z
}.

(** The two mutex-protected updates of the shared statistics. *)
Inductive StatOp : Type :=
| OpIncrementSuccess
| OpAddFailedDevice (deviceSerial : string).

Definition apply_op (op : StatOp) (ps : ProcessingStats) : ProcessingStats :=
  match op with
  | OpIncrementSuccess => IncrementSuccess ps
  | OpAddFailedDevice d => AddFailedDevice d ps
  end.

Inductive Prog (A : Type) : Type :=
| Ret (a : A)
| Exec (fullCommand : string) (k : ProcResult -> Prog A)
| Printf (line : string) (k : Prog A)
| Sleep (seconds : nat) (k : Prog A)
| Stat (op : StatOp) (k : Prog A).

Arguments Ret {A} a.
Arguments Exec {A} fullCommand k.
Arguments Printf {A} line k.
Arguments Sleep {A} seconds k.
Arguments Stat {A} op k.

Fixpoint bind {A B} (m : Prog A) (f : A -> Prog B) : Prog B :=
  match m with
  | Ret a => f a
  | Exec c k => Exec c (fun r => bind (k r) f)
  | Printf s k => Printf s (bind k f)
  | Sleep n k => Sleep n (bind k f)
  | Stat op k => Stat op (bind k f)
  end.

Declare Scope prog_scope.
Delimit Scope prog_scope with prog.
Notation "x <- c1 ;; c2" := (bind c1 (fun x => c2))
  (at level 61, c1 at next level, right associativity) : prog_scope.
Notation "' pat <- c1 ;; c2" :=
  (bind c1 (fun x => match x with pat => c2 end))
  (at level 61, pat pattern, c1 at next level, right associativity) : prog_scope.
Notation "c1 ;; c2" := (bind c1 (fun _ => c2))
  (at level 61, right associativity) : prog_scope.
Open Scope prog_scope.

Definition exec (fullCommand : string) : Prog ProcResult := Exec fullCommand (@Ret _).
Definition printf (line : string) : Prog unit := Printf line (Ret tt).
Definition sleep (seconds : nat) : Prog unit := Sleep seconds (Ret tt).
Definition stat (op : StatOp) : Prog unit := Stat op (Ret tt).

(** ** Sequential execution against a world *)

Inductive Event : Type :=
| EvExec (fullCommand : string) (r : ProcResult)
| EvPrint (line : string)
| EvSleep (seconds : nat)
| EvStat (op : StatOp).

(** The state one run acts on: how many commands have been spawned so far,
    everything that happened (oldest first), and the shared statistics. *)
Record Machine := mkMachine {
  clock : nat;
  trace : list Event;
  stats : ProcessingStats
}.

(** The attached devices and the bridge tool: the answer to the [n]-th
    spawned command line. *)
Definition World := nat -> string -> ProcResult.

Fixpoint run (w : World) {A} (p : Prog A) (m : Machine) : A * Machine :=
  match p with
  | Ret a => (a, m)
  | Exec c k =>
      let r := w (clock m) c in
      run w (k r) (mkMachine (S (clock m)) (trace m ++ [EvExec c r])%list (stats m))
  | Printf s k => run w k (mkMachine (clock m) (trace m ++ [EvPrint s])%list (stats m))
  | Sleep n k => run w k (mkMachine (clock m) (trace m ++ [EvSleep n])%list (stats m))
  | Stat op k =>
      run w k (mkMachine (clock m) (trace m ++ [EvStat op])%list (apply_op op (stats m)))
  end.

Definition boot (ps : ProcessingStats) : Machine := mkMachine 0 [] ps.

(** ** The disabler object (disabler.go) *)

Record AndroidLockScreenDisabler := mkDisabler {
  connectedDevices : list string;
  targetDevices : list string;
  enableLogging : bool
}.

Definition NewAndroidLockScreenDisabler (targets : list string)
  : AndroidLockScreenDisabler :=
  mkDisabler [] targets true.

Definition SetLogging (a : AndroidLockScreenDisabler) (enabled : bool)
  : AndroidLockScreenDisabler :=
  mkDisabler (connectedDevices a) (targetDevices a) enabled.

Definition log (a : AndroidLockScreenDisabler) (message emoji : string)
  : Prog unit :=
  if negb (enableLogging a) then Ret tt
  else
    let emoji := if String.eqb emoji "" then "ℹ️" else emoji in
    printf (emoji ++ " " ++ message ++ LF).

(** ** The command executor *)

Definition fullCommandOf (command deviceSerial : string) : string :=
  if negb (String.eqb deviceSerial "")
  then "adb -s " ++ deviceSerial ++ " " ++ command
  else "adb " ++ command.

Definition command_result (r : ProcResult) : bool * string * string :=
  match proc_err r with
  | Some e =>
      if deadline_exceeded r then (false, "", "Command timed out")
      else (false, "", e)
  | None => (Z.eqb (exit_code r) 0, TrimSpace (combined_output r), "")
  end.

Definition runADBCommand (a : AndroidLockScreenDisabler)
  (command deviceSerial : string) : Prog (bool * string * string) :=
  r <- exec (fullCommandOf command deviceSerial) ;;
  Ret (command_result r).

Definition CheckADBAvailability (a : AndroidLockScreenDisabler) : Prog bool :=
  log a "Checking ADB availability..." "🔍" ;;
  '(success, _, errorMsg) <- runADBCommand a "version" "" ;;
  if (success : bool) then
    log a "ADB is available and working!" "✅" ;;
    Ret true
  else
    log a "ADB is not available or not working properly!" "❌" ;;
    log a ("Error: " ++ errorMsg) "⚠️" ;;
    Ret false.

(** ** The device directory *)

(** The scanner loop of [GetConnectedDevices] over the lines of the listing. *)
Fixpoint scan_devices (lines : list string) (firstLine : bool)
  (allDevices : list string) : list string :=
  match lines with
  | [] => allDevices
  | text :: rest =>
      let line := TrimSpace text in
      if firstLine then scan_devices rest false allDevices
      else if negb (String.eqb line "") && Contains line (TAB ++ "device") then
        let parts := Split line (ascii_of_nat 9) in
        if (0 <? len parts)%Z
        then scan_devices rest false (allDevices ++ [hd "" parts])%list
        else scan_devices rest false allDevices
      else scan_devices rest false allDevices
  end.

(** A Go [map[string]bool]: absent keys read as [false]. *)
Definition StringSet := string -> bool.
Definition empty_map : StringSet := fun _ => false.
Definition map_set (m : StringSet) (key : string) (v : bool) : StringSet :=
  fun k => if String.eqb k key then v else m k.

Definition make_deviceMap (allDevices : list string) : StringSet :=
  fold_left (fun m device => map_set m device true) allDevices empty_map.

(** The loop over [a.targetDevices]. *)
Fixpoint filter_targets (a : AndroidLockScreenDisabler) (targets : list string)
  (deviceMap : StringSet) (devices : list string) : Prog (list string) :=
  match targets with
  | [] => Ret devices
  | targetDevice :: rest =>
      if deviceMap targetDevice then
        filter_targets a rest deviceMap (devices ++ [targetDevice])%list
      else
        log a ("Warning: Device " ++ targetDevice ++ " not found in connected devices") "⚠️" ;;
        filter_targets a rest deviceMap devices
  end.

(** Returns the devices to process and the receiver with its
    [connectedDevices] field assigned. *)
Definition GetConnectedDevices (a : AndroidLockScreenDisabler)
  : Prog (list string * AndroidLockScreenDisabler) :=
  log a "Scanning for connected Android devices..." "📱" ;;
  '(success, output, _) <- runADBCommand a "devices" "" ;;
  if negb success then
    log a "Failed to get device list!" "❌" ;;
    Ret ([], a)
  else
    let allDevices := scan_devices (ScanLines output) true [] in
    devices <-
      (if (0 <? len (targetDevices a))%Z then
         log a ("Filtering devices based on specified UDIDs: "
                ++ Join (targetDevices a) ", ") "🎯" ;;
         filter_targets a (targetDevices a) (make_deviceMap allDevices) []
       else Ret allDevices) ;;
    (if (0 <? len devices)%Z then
       log a ("Found " ++ Itoa (len devices) ++ " device(s) to process: "
              ++ Join devices ", ") "🎯" ;;
       (if (0 <? len (targetDevices a))%Z then
          log a ("Total connected devices: " ++ Itoa (len allDevices)
                 ++ ", Processing: " ++ Itoa (len devices)) "ℹ️"
        else Ret tt)
     else
       (if (0 <? len (targetDevices a))%Z then
          log a "None of the specified devices are connected!" "❌"
        else
          log a "No connected devices found!" "❌")) ;;
    Ret (devices, mkDisabler devices (targetDevices a) (enableLogging a)).

Definition GetDeviceInfo (a : AndroidLockScreenDisabler) (deviceSerial : string)
  : Prog DeviceInfo :=
  let info := mkDeviceInfo "Unknown" "Unknown" "Unknown" "Unknown" in
  '(success, output, _) <- runADBCommand a "shell getprop ro.product.model" deviceSerial ;;
  let info :=
    if success && negb (String.eqb output "")
    then mkDeviceInfo output (Manufacturer info) (AndroidVersion info) (APILevel info)
    else info in
  '(success, output, _) <- runADBCommand a "shell getprop ro.product.manufacturer" deviceSerial ;;
  let info :=
    if success && negb (String.eqb output "")
    then mkDeviceInfo (Model info) output (AndroidVersion info) (APILevel info)
    else info in
  '(success, output, _) <- runADBCommand a "shell getprop ro.build.version.release" deviceSerial ;;
  let info :=
    if success && negb (String.eqb output "")
    then mkDeviceInfo (Model info) (Manufacturer info) output (APILevel info)
    else info in
  '(success, output, _) <- runADBCommand a "shell getprop ro.build.version.sdk" deviceSerial ;;
  let info :=
    if success && negb (String.eqb output "")
    then mkDeviceInfo (Model info) (Manufacturer info) (AndroidVersion info) output
    else info in
  Ret info.

(** ** The reboot/readiness waiter *)

Definition RebootDevice (a : AndroidLockScreenDisabler) (deviceSerial : string)
  : Prog bool :=
  log a ("Rebooting device " ++ deviceSerial ++ "...") "🔄" ;;
  '(success, _, errorMsg) <- runADBCommand a "reboot" deviceSerial ;;
  if (success : bool) then
    log a ("Reboot command sent to device " ++ deviceSerial) "✅" ;;
    Ret true
  else
    log a ("Failed to reboot device " ++ deviceSerial ++ ": " ++ errorMsg) "❌" ;;
    Ret false.

(** The [for attempt < maxAttempts] loop.  [fuel] bounds the unfolding; the
    loop leaves through its guard before the fuel is used up as soon as
    [fuel] exceeds [maxAttempts - attempt] ([WaitForDeviceReady] starts it so). *)
Fixpoint wait_loop (a : AndroidLockScreenDisabler) (deviceSerial : string)
  (maxWaitMinutes maxAttempts : Z) (fuel : nat) (attempt : Z) : Prog bool :=
  match fuel with
  | O => Ret false
  | S fuel' =>
      if (attempt <? maxAttempts)%Z then
        '(success, _, _) <- runADBCommand a "get-state" deviceSerial ;;
        ready <-
          (if (success : bool) then
             log a ("Device " ++ deviceSerial
                    ++ " detected, waiting for system to fully boot...") "⏱️" ;;
             sleep 10 ;;
             '(success, _, _) <- runADBCommand a "shell echo 'test'" deviceSerial ;;
             Ret (success : bool)
           else Ret false) ;;
        if (ready : bool) then
          log a ("Device " ++ deviceSerial ++ " is ready!") "✅" ;;
          Ret true
        else
          let attempt := wrap64 (attempt + 1) in
          (if (Z.rem attempt 6 =? 0)%Z then
             let minutesWaited := Z.quot attempt 12 in
             log a ("Still waiting for device " ++ deviceSerial ++ "... ("
                    ++ Itoa minutesWaited ++ "/" ++ Itoa maxWaitMinutes
                    ++ " minutes)") "⌛"
           else Ret tt) ;;
          sleep 5 ;;
          wait_loop a deviceSerial maxWaitMinutes maxAttempts fuel' attempt
      else
        log a ("Timeout waiting for device " ++ deviceSerial
               ++ " to be ready after " ++ Itoa maxWaitMinutes ++ " minutes") "⏰" ;;
        Ret false
  end.

Definition WaitForDeviceReady (a : AndroidLockScreenDisabler)
  (deviceSerial : string) (maxWaitMinutes : Z) : Prog bool :=
  log a ("Waiting for device " ++ deviceSerial ++ " to be ready after reboot...") "⏳" ;;
  let maxAttempts := wrap64 (maxWaitMinutes * 12) in
  wait_loop a deviceSerial maxWaitMinutes maxAttempts (S (Z.to_nat maxAttempts)) 0.

(** ** The remediation strategies *)

Definition disableLockscreenMethod1 (a : AndroidLockScreenDisabler)
  (deviceSerial : string) : Prog bool :=
  log a ("Trying Method 1 (locksettings) on device " ++ deviceSerial ++ "...") "🔑" ;;
  '(success, _, _) <- runADBCommand a "shell locksettings clear" deviceSerial ;;
  (if (success : bool) then
     log a ("Cleared existing lock settings on " ++ deviceSerial) "🧹"
   else Ret tt) ;;
  '(success, _, errorMsg) <- runADBCommand a "shell locksettings set-disabled true" deviceSerial ;;
  if (success : bool) then
    log a ("Method 1 succeeded on device " ++ deviceSerial ++ "!") "✅" ;;
    Ret true
  else
    log a ("Method 1 failed on device " ++ deviceSerial ++ ": " ++ errorMsg) "❌" ;;
    Ret false.

Definition disableLockscreenMethod2 (a : AndroidLockScreenDisabler)
  (deviceSerial : string) : Prog bool :=
  log a ("Trying Method 2 (settings secure) on device " ++ deviceSerial ++ "...") "⚙️" ;;
  '(success, _, errorMsg) <-
     runADBCommand a "shell settings put secure lockscreen.disabled 1" deviceSerial ;;
  if (success : bool) then
    log a ("Method 2 succeeded on device " ++ deviceSerial ++ "!") "✅" ;;
    Ret true
  else
    log a ("Method 2 failed on device " ++ deviceSerial ++ ": " ++ errorMsg) "❌" ;;
    Ret false.

Definition disableLockscreenMethod3 (a : AndroidLockScreenDisabler)
  (deviceSerial : string) : Prog bool :=
  log a ("Trying Method 3 (system settings) on device " ++ deviceSerial ++ "...") "🔧" ;;
  '(success, _, errorMsg) <-
     runADBCommand a "shell settings put system lockscreen_disabled 1" deviceSerial ;;
  if (success : bool) then
    log a ("Method 3 succeeded on device " ++ deviceSerial ++ "!") "✅" ;;
    Ret true
  else
    log a ("Method 3 failed on device " ++ deviceSerial ++ ": " ++ errorMsg) "❌" ;;
    Ret false.

Definition method4_commands : list string :=
  [ "shell settings put global device_provisioned 1";
    "shell settings put secure user_setup_complete 1" ].

(** The loop of method 4 over its commands, threading [successCount]. *)
Fixpoint method4_loop (a : AndroidLockScreenDisabler) (deviceSerial : string)
  (commands : list string) (successCount : Z) : Prog Z :=
  match commands with
  | [] => Ret successCount
  | cmd :: rest =>
      '(success, _, _) <- runADBCommand a cmd deviceSerial ;;
      method4_loop a deviceSerial rest
        (if (success : bool) then wrap64 (successCount + 1) else successCount)
  end.

Definition disableLockscreenMethod4 (a : AndroidLockScreenDisabler)
  (deviceSerial : string) : Prog bool :=
  log a ("Trying Method 4 (global settings) on device " ++ deviceSerial ++ "...") "🌐" ;;
  successCount <- method4_loop a deviceSerial method4_commands 0 ;;
  if (0 <? successCount)%Z then
    log a ("Method 4 partially succeeded on device " ++ deviceSerial ++ "!") "✅" ;;
    Ret true
  else
    log a ("Method 4 failed on device " ++ deviceSerial) "❌" ;;
    Ret false.

Definition methods (a : AndroidLockScreenDisabler) : list (string -> Prog bool) :=
  [ disableLockscreenMethod1 a;
    disableLockscreenMethod2 a;
    disableLockscreenMethod3 a;
    disableLockscreenMethod4 a ].

(** The loop of [DisableLockScreen]: the [return] after a successful method
    leaves only the function literal that wraps the call, and nothing is
    recorded.  (No strategy above can panic, so the deferred [recover] of the
    literal never fires.) *)
Fixpoint DisableLockScreen_loop (ms : list (string -> Prog bool))
  (deviceSerial : string) : Prog unit :=
  match ms with
  | [] => Ret tt
  | method :: rest =>
      ok <- method deviceSerial ;;
      (if (ok : bool) then Ret tt else sleep 1) ;;
      DisableLockScreen_loop rest deviceSerial
  end.

Definition DisableLockScreen (a : AndroidLockScreenDisabler)
  (deviceSerial : string) : Prog bool :=
  DisableLockScreen_loop (methods a) deviceSerial ;;
  Ret false.

(** ** validation.go: permissions and the lock-state inspector *)

Definition CheckDevicePermissions (a : AndroidLockScreenDisabler)
  (deviceSerial : string) : Prog bool :=
  log a ("Checking permissions for device " ++ deviceSerial ++ "...") "🔐" ;;
  '(success, _, _) <- runADBCommand a "shell echo 'test'" deviceSerial ;;
  if negb success then
    log a ("No shell access to device " ++ deviceSerial) "❌" ;;
    Ret false
  else
    '(success, output, _) <- runADBCommand a "shell settings list secure" deviceSerial ;;
    if negb success || String.eqb output "" then
      log a ("Cannot access settings on device " ++ deviceSerial) "❌" ;;
      Ret false
    else
      log a ("Device " ++ deviceSerial ++ " has necessary permissions") "✅" ;;
      Ret true.

Definition lockMethods : list string :=
  [ "shell settings get secure lock_pattern_enabled";
    "shell settings get secure lockscreen.password_type";
    "shell settings get secure lockscreen.disabled" ].

(** The loop of heuristic 4; [Some] is an early [return] of the function. *)
Fixpoint check_lockMethods (a : AndroidLockScreenDisabler) (deviceSerial : string)
  (lockScreenDisabledLockSettingsMethod : bool) (ms : list string)
  : Prog (option (bool * string)) :=
  match ms with
  | [] => Ret None
  | method :: rest =>
      '(success, output, _) <- runADBCommand a method deviceSerial ;;
      if success && negb (String.eqb output "") && negb (String.eqb output "null") then
        if Contains method "lock_pattern_enabled" && String.eqb output "1" then
          Ret (Some (true, "Device has lock pattern enabled"))
        else if Contains method "password_type" && negb (String.eqb output "0") then
          Ret (Some (true, "Device has password type configured (type: " ++ output ++ ")"))
        else if Contains method "lockscreen.disabled" && String.eqb output "0"
                && negb lockScreenDisabledLockSettingsMethod then
          Ret (Some (true, "Lock screen is explicitly enabled in settings"))
        else check_lockMethods a deviceSerial lockScreenDisabledLockSettingsMethod rest
      else check_lockMethods a deviceSerial lockScreenDisabledLockSettingsMethod rest
  end.

Definition CheckExistingLockScreen (a : AndroidLockScreenDisabler)
  (deviceSerial : string) : Prog (bool * string) :=
  log a ("Checking if device " ++ deviceSerial
         ++ " has existing lock screen configured...") "🔍" ;;
  '(success, output, _) <- runADBCommand a "shell dumpsys trust" deviceSerial ;;
  if success && negb (String.eqb output "")
     && (Contains (ToLower output) "isdevicesecure=true"
         || Contains (ToLower output) "iskeyguardsecure=true")
  then Ret (true, "Device has secure lock screen (detected via trust manager)")
  else
  '(success, output, _) <- runADBCommand a "shell locksettings get-disabled" deviceSerial ;;
  let lockScreenDisabledLockSettingsMethod :=
    if (success : bool) then Contains (ToLower output) "true" else false in
  if success && negb lockScreenDisabledLockSettingsMethod
  then Ret (true, "Device has lock configured (detected via locksettings)")
  else
  '(success, output, _) <-
     runADBCommand a "shell dumpsys activity services KeyguardService" deviceSerial ;;
  if success && negb (String.eqb output "")
     && (Contains (ToLower output) "secure=true"
         || Contains (ToLower output) "enabled=true")
  then Ret (true, "Device has keyguard enabled (detected via KeyguardService)")
  else
  early <- check_lockMethods a deviceSerial lockScreenDisabledLockSettingsMethod lockMethods ;;
  match early with
  | Some answer => Ret answer
  | None =>
  '(success, output, _) <- runADBCommand a "shell dumpsys device_policy" deviceSerial ;;
  if success && negb (String.eqb output "")
     && (Contains (ToLower output) "passwordquality"
         || Contains (ToLower output) "minimumpasswordlength")
  then Ret (true, "Device has admin-enforced password policy")
  else Ret (false, "No lock screen detected")
  end.

(** The three line scans of [CheckLockScreenStatus]: whether some line makes
    the loop return. *)
Definition window_shows_lock (output : string) : bool :=
  existsb (fun line =>
    let lowerLine := ToLower line in
    (Contains lowerLine "mdreaminglockscreen"
     || Contains lowerLine "mshowingleckscreen"
     || Contains lowerLine "keyguardcontroller")
    && (Contains lowerLine "mshowingleckscreen=true"
        || Contains lowerLine "mdreaminglockscreen=true"
        || Contains lowerLine "keyguardshowing=true"))
    (Split output (ascii_of_nat 10)).

Definition power_shows_asleep (output : string) : bool :=
  existsb (fun line =>
    let lowerLine := ToLower line in
    (Contains lowerLine "mwakefulness" || Contains lowerLine "display power")
    && (Contains lowerLine "asleep" || Contains lowerLine "dozing"))
    (Split output (ascii_of_nat 10)).

Definition activity_shows_unlocked (output : string) : bool :=
  existsb (fun line =>
    let lowerLine := ToLower line in
    (Contains lowerLine "mresumedactivity" || Contains lowerLine "mfocusedactivity")
    && (negb (Contains lowerLine "keyguard")
        && negb (Contains lowerLine "lockscreen")
        && negb (Contains lowerLine "bouncer")))
    (Split output (ascii_of_nat 10)).

(** The result is [(locked, err)]; [err] is [Some] text when the status is
    indeterminate. *)
Definition CheckLockScreenStatus (a : AndroidLockScreenDisabler)
  (deviceSerial : string) : Prog (bool * option string) :=
  log a ("Checking lock screen status on device " ++ deviceSerial ++ "...") "🔍" ;;
  '(success, output, _) <- runADBCommand a "shell dumpsys window" deviceSerial ;;
  if success && negb (String.eqb output "") && window_shows_lock output
  then Ret (true, None)
  else
  '(success, output, _) <- runADBCommand a "shell dumpsys power" deviceSerial ;;
  if success && negb (String.eqb output "") && power_shows_asleep output
  then Ret (true, None)
  else
  '(success, output, _) <- runADBCommand a "shell dumpsys activity activities" deviceSerial ;;
  if success && negb (String.eqb output "") && activity_shows_unlocked output
  then Ret (false, None)
  else
  '(success, output, _) <-
     runADBCommand a "shell settings get secure lockscreen.disabled" deviceSerial ;;
  if success && String.eqb output "1"
  then Ret (false, None)
  else
  '(success, output, _) <- runADBCommand a "shell locksettings get-disabled" deviceSerial ;;
  if success && Contains (ToLower output) "true"
  then Ret (false, None)
  else Ret (true, Some "unable to determine lock screen status definitively").

Definition ValidateLockScreenRemoval (a : AndroidLockScreenDisabler)
  (deviceSerial : string) : Prog bool :=
  log a ("Validating lock screen removal on device " ++ deviceSerial ++ "...") "🔍" ;;
  sleep 3 ;;
  '(isLocked, err) <- CheckLockScreenStatus a deviceSerial ;;
  checked <-
    match err with
    | Some e =>
        log a ("Warning: Could not definitively determine lock screen status on device "
               ++ deviceSerial ++ ": " ++ e) "⚠️" ;;
        runADBCommand a "shell input keyevent KEYCODE_WAKEUP" deviceSerial ;;
        sleep 2 ;;
        '(isLocked, err) <- CheckLockScreenStatus a deviceSerial ;;
        match err with
        | Some _ =>
            log a ("Still unable to determine lock screen status on device "
                   ++ deviceSerial) "⚠️" ;;
            Ret None
        | None => Ret (Some isLocked)
        end
    | None => Ret (Some isLocked)
    end ;;
  match checked with
  | None => Ret false
  | Some isLocked =>
      if negb isLocked then
        log a ("✅ Lock screen successfully removed on device " ++ deviceSerial ++ "!") "🎉" ;;
        Ret true
      else
        log a ("❌ Lock screen is still present on device " ++ deviceSerial) "😞" ;;
        Ret false
  end.

(** ** The per-device orchestrator *)

(** The loop over [methods] inside [DisableLockscreenOnDeviceAsync]; the
    result is the value of [success] when the loop is left. *)
Fixpoint cascade_loop (ms : list (string -> Prog bool)) (deviceSerial : string)
  : Prog bool :=
  match ms with
  | [] => Ret false
  | method :: rest =>
      ok <- method deviceSerial ;;
      if (ok : bool) then Ret true
      else
        sleep 1 ;;
        cascade_loop rest deviceSerial
  end.

(** The [stats] argument is the statistics object of the machine the
    program runs on; [wg.Done()] is the program reaching its end. *)
Definition DisableLockscreenOnDeviceAsync (a : AndroidLockScreenDisabler)
  (deviceSerial : string) : Prog unit :=
  let deviceTag := "[" ++ deviceSerial ++ "]" in
  log a (deviceTag ++ " Starting lock screen disable process") "🚀" ;;
  deviceInfo <- GetDeviceInfo a deviceSerial ;;
  log a (deviceTag ++ " Device: " ++ Manufacturer deviceInfo ++ " " ++ Model deviceInfo
         ++ " (Android " ++ AndroidVersion deviceInfo ++ ", API "
         ++ APILevel deviceInfo ++ ")") "📋" ;;
  permitted <- CheckDevicePermissions a deviceSerial ;;
  if negb permitted then
    log a (deviceTag ++ " Insufficient permissions. "
           ++ "Make sure USB debugging is enabled and device is authorized.") "❌" ;;
    stat (OpAddFailedDevice deviceSerial)
  else
  '(hasLock, lockType) <- CheckExistingLockScreen a deviceSerial ;;
  if negb hasLock then
    log a (deviceTag ++ " No lock screen detected on device. Skipping lock screen disable process.") "ℹ️" ;;
    log a (deviceTag ++ " Device is already unlocked or has no lock configured") "✅" ;;
    stat OpIncrementSuccess
  else
  log a (deviceTag ++ " Lock screen detected: " ++ lockType) "🔒" ;;
  log a (deviceTag ++ " Proceeding with lock screen disable process...") "🚀" ;;
  success <- cascade_loop (methods a) deviceSerial ;;
  if negb success then
    log a (deviceTag ++ " All methods failed") "😞" ;;
    stat (OpAddFailedDevice deviceSerial)
  else
  sleep 2 ;;
  log a (deviceTag ++ " Rebooting device to apply lock screen changes...") "🔄" ;;
  rebooted <- RebootDevice a deviceSerial ;;
  if negb rebooted then
    log a (deviceTag ++ " Failed to reboot device, but lock screen settings were applied") "⚠️" ;;
    stat OpIncrementSuccess
  else
  log a (deviceTag ++ " Waiting for device to be ready after reboot (up to 5 minutes)...") "⏳" ;;
  ready <- WaitForDeviceReady a deviceSerial 5 ;;
  if negb ready then
    log a (deviceTag ++ " Device did not become ready within 5 minutes after reboot") "⏰" ;;
    stat (OpAddFailedDevice deviceSerial)
  else
  validated <- ValidateLockScreenRemoval a deviceSerial ;;
  if (validated : bool) then
    log a (deviceTag ++ " Successfully disabled and validated lock screen removal! 🎉") "🎊" ;;
    stat OpIncrementSuccess
  else
    log a (deviceTag ++ " Lock screen settings were applied, but validation failed after reboot") "⚠️" ;;
    stat OpIncrementSuccess.

(** ** The concurrency coordinator *)

(** One action of one goroutine on the shared machine. *)
Definition step (w : World) {A} (p : Prog A) (m : Machine) : Prog A * Machine :=
  match p with
  | Ret _ => (p, m)
  | Exec c k =>
      let r := w (clock m) c in
      (k r, mkMachine (S (clock m)) (trace m ++ [EvExec c r])%list (stats m))
  | Printf s k => (k, mkMachine (clock m) (trace m ++ [EvPrint s])%list (stats m))
  | Sleep n k => (k, mkMachine (clock m) (trace m ++ [EvSleep n])%list (stats m))
  | Stat op k =>
      (k, mkMachine (clock m) (trace m ++ [EvStat op])%list (apply_op op (stats m)))
  end.

Definition finished {A} (p : Prog A) : bool :=
  match p with
  | Ret _ => true
  | _ => false
  end.

Fixpoint set_nth {A} (i : nat) (x : A) (l : list A) : list A :=
  match l, i with
  | [], _ => []
  | _ :: l', O => x :: l'
  | y :: l', S i' => y :: set_nth i' x l'
  end.

(** A schedule names, action by action, the goroutine that moves next; an
    entry that names no goroutine, or one that has ended, is passed over. *)
Fixpoint run_schedule (w : World) (sched : list nat) (pool : list (Prog unit))
  (m : Machine) : list (Prog unit) * Machine :=
  match sched with
  | [] => (pool, m)
  | i :: rest =>
      match nth_error pool i with
      | Some p =>
          let (p', m') := step w p m in
          run_schedule w rest (set_nth i p' pool) m'
      | None => run_schedule w rest pool m
      end
  end.

(** The goroutines alive while [ProcessDevices] waits: the caller's own
    remaining output before [wg.Wait()], and one orchestration per element
    of [devices]. *)
Definition goroutines (a : AndroidLockScreenDisabler) (devices : list string)
  : list (Prog unit) :=
  log a "Waiting for all devices to complete processing..." "⏳"
  :: map (DisableLockscreenOnDeviceAsync a) devices.

(** [ProcessDevices] under a schedule: [None] when the schedule ends before
    every goroutine has ([wg.Wait()] has not returned). *)
Definition ProcessDevices (a : AndroidLockScreenDisabler) (devices : list string)
  (sched : list nat) (w : World) (m : Machine)
  : option ((Z * list string * Z) * Machine) :=
  if (len devices =? 0)%Z then Some ((0%Z, [], 0%Z), m)
  else
    let m0 := mkMachine (clock m) (trace m) (NewProcessingStats (len devices)) in
    let (_, m1) :=
      run w (log a ("Processing " ++ Itoa (len devices) ++ " device(s) concurrently...") "🚀" ;;
             log a (Repeat "-" 50) "") m0 in
    let (pool, m2) := run_schedule w sched (goroutines a devices) m1 in
    if forallb finished pool then Some (GetStats (stats m2), m2) else None.


(** [ProcessSingleDevice] under a schedule for the goroutines of
    [ProcessDevices]. *)
Definition ProcessSingleDevice (a : AndroidLockScreenDisabler) (deviceSerial : string)
  (sched : list nat) (w : World) (m : Machine) : option (bool * Machine) :=
  let devices := [deviceSerial] in
  match ProcessDevices a devices sched w m with
  | Some ((successCount, _, _), m') => Some ((0 <? successCount)%Z, m')
  | None => None
  end.

(** The summary [Run] prints once [ProcessDevices] has returned. *)
Definition Run_summary (a : AndroidLockScreenDisabler) (successCount : Z)
  (failedDevices : list string) (totalDevices : Z) : Prog unit :=
  log a (LF ++ Repeat "=" 50) "" ;;
  log a "EXECUTION SUMMARY" "📊" ;;
  log a (Repeat "=" 50) "" ;;
  log a ("Total devices processed: " ++ Itoa totalDevices) "📱" ;;
  log a ("Successfully disabled: " ++ Itoa successCount) "✅" ;;
  log a ("Failed: " ++ Itoa (len failedDevices)) "❌" ;;
  (if (0 <? len failedDevices)%Z then
     log a ("Failed devices: " ++ Join failedDevices ", ") "⚠️" ;;
     log a (LF ++ "Troubleshooting tips for failed devices:") "💡" ;;
     log a "• Ensure USB debugging is enabled" "" ;;
     log a "• Check if device requires authorization" "" ;;
     log a "• Try enabling 'Settings > Developer Options > Disable permission monitoring'" "" ;;
     log a "• Some devices may have policy restrictions" ""
   else Ret tt) ;;
  (if (0 <? successCount)%Z then
     log a (LF ++ "🎉 Successfully processed " ++ Itoa successCount ++ " device(s)!") "🎊"
   else Ret tt) ;;
  log a (LF ++ "Script completed!") "🏁".

(** [Run] under a schedule for the goroutines of [ProcessDevices]; the
    result carries the receiver, whose [connectedDevices] the listing sets. *)
Definition Run (a : AndroidLockScreenDisabler) (sched : list nat) (w : World)
  (m : Machine) : option (AndroidLockScreenDisabler * Machine) :=
  let (_, m1) :=
    run w (log a "Android Lock Screen Disabler Starting..." "🚀" ;;
           log a (Repeat "=" 50) "") m in
  let (available, m2) := run w (CheckADBAvailability a) m1 in
  if negb available then
    Some (a, snd (run w (log a "Please install ADB and ensure it's in your PATH." "💡") m2))
  else
    let '(devices, a', m3) := run w (GetConnectedDevices a) m2 in
    if (len devices =? 0)%Z then
      Some (a', snd (run w (log a' "Please connect at least one Android device with USB debugging enabled." "💡") m3))
    else
      match ProcessDevices a' devices sched w m3 with
      | Some ((successCount, failedDevices, totalDevices), m4) =>
          Some (a', snd (run w (Run_summary a' successCount failedDevices totalDevices) m4))
      | None => None
      end.

(** ** cmd/dlock/main.go: the targets named on the command line *)

(** [strings.Fields] on ASCII text: the maximal runs of characters that are
    not white space.  [field] is the run being read. *)
Fixpoint Fields_from (field s : string) : list string :=
  match s with
  | EmptyString => if String.eqb field "" then [] else [field]
  | String c s' =>
      if is_space c then
        if String.eqb field "" then Fields_from "" s' else field :: Fields_from "" s'
      else Fields_from (field ++ String c "") s'
  end.

Definition Fields (s : string) : list string := Fields_from "" s.

(** What [main] passes to [NewAndroidLockScreenDisabler] for the value of
    its [-devices] flag. *)
Definition targetDevices_of (devicesFlag : string) : list string :=
  if negb (String.eqb devicesFlag "") then Fields devicesFlag else [].
(** * Vocabulary of the properties *)

(** [StatOps n p]: along every path through [p], whatever the commands
    answer, the statistics are updated exactly [n] times. *)
Inductive StatOps {A} : nat -> Prog A -> Prop :=
| SO_Ret (x : A) : StatOps 0 (Ret x)
| SO_Exec n c k : (forall r, StatOps n (k r)) -> StatOps n (Exec c k)
| SO_Printf n s k : StatOps n k -> StatOps n (Printf s k)
| SO_Sleep n t k : StatOps n k -> StatOps n (Sleep t k)
| SO_Stat n op k : StatOps n k -> StatOps (S n) (Stat op k).

Definition is_stat (e : Event) : bool :=
  match e with
  | EvStat _ => true
  | _ => false
  end.

(** The number of statistics updates recorded in a trace. *)
Definition stat_updates (t : list Event) : nat := length (filter is_stat t).

(** The devices accounted for so far: successes plus failures. *)
Definition settled (ps : ProcessingStats) : Z :=
  (successCount ps + len (failedDevices ps))%Z.

(** The statistics agree with what the goroutines still owe: [ns] counts,
    goroutine by goroutine, the updates yet to come. *)
Definition pool_inv (total : Z) (ns : list nat) (pool : list (Prog unit))
  (m : Machine) : Prop :=
  Forall2 StatOps ns pool
  /\ (0 <= successCount (stats m))%Z
  /\ (settled (stats m) + Z.of_nat (list_sum ns) = total)%Z
  /\ totalDevices (stats m) = total
  /\ (total <= max_int)%Z.

(** ** Sample answers and devices *)

Definition answers (out : string) : ProcResult := mkProc out None false 0.
Definition exits_with (e : string) : ProcResult := mkProc "" (Some e) false 1.
Definition killed_at_deadline : ProcResult :=
  mkProc "" (Some "signal: killed") true (-1).

Definition quiet : AndroidLockScreenDisabler :=
  SetLogging (NewAndroidLockScreenDisabler []) false.

(** Device D1 reports a secure lock through the trust manager and lists its
    secure settings; every other command, to any device, succeeds with no
    output. *)
Definition secured_D1 : World := fun _ c =>
  if String.eqb c "adb -s D1 shell dumpsys trust" then answers "mIsDeviceSecure=true"
  else if String.eqb c "adb -s D1 shell settings list secure" then answers "x=1"
  else answers "".

(** As [secured_D1], but the reboot command hangs until it is killed at
    the deadline. *)
Definition secured_D1_stalls : World := fun n c =>
  if String.eqb c "adb -s D1 reboot" then killed_at_deadline else secured_D1 n c.

(** Goroutine 1 runs to its end, then goroutine 2, then the caller prints. *)
Definition one_after_the_other : list nat :=
  (repeat 1 40 ++ repeat 2 40 ++ [0])%nat%list.

(** ** Reading a run *)

Definition result (w : World) {A} (p : Prog A) (m : Machine) : A := fst (run w p m).
Definition after (w : World) {A} (p : Prog A) (m : Machine) : Machine := snd (run w p m).

(** The command lines spawned in a trace, oldest first. *)
Fixpoint commands (t : list Event) : list string :=
  match t with
  | [] => []
  | EvExec c _ :: t' => c :: commands t'
  | _ :: t' => commands t'
  end.

(** The lines printed in a trace, oldest first. *)
Fixpoint printed (t : list Event) : list string :=
  match t with
  | [] => []
  | EvPrint s :: t' => s :: printed t'
  | _ :: t' => printed t'
  end.

(** What happened from machine [m] on, given a later trace. *)
Definition since (m : Machine) (t : list Event) : list Event :=
  skipn (length (trace m)) t.

(** Whether a command succeeded, as [runADBCommand] reports it. *)
Definition succeeded (r : ProcResult) : bool := fst (fst (command_result r)).
Definition output_of (r : ProcResult) : string := snd (fst (command_result r)).
Definition error_of (r : ProcResult) : string := snd (command_result r).

(** The command ran into the 30-second deadline: [err] is not nil and the
    context reports [DeadlineExceeded]. *)
Definition timed_out (r : ProcResult) : bool :=
  match proc_err r with
  | Some _ => deadline_exceeded r
  | None => false
  end.

(** The events one call of [log] leaves in the trace. *)
Definition log_events (a : AndroidLockScreenDisabler) (message emoji : string)
  : list Event :=
  if negb (enableLogging a) then []
  else [EvPrint ((if String.eqb emoji "" then "ℹ️" else emoji) ++ " " ++ message ++ LF)].

Definition record (evs : list Event) (m : Machine) : Machine :=
  mkMachine (clock m) (trace m ++ evs)%list (stats m).

Definition spawned (c : string) (r : ProcResult) (m : Machine) : Machine :=
  mkMachine (S (clock m)) (trace m ++ [EvExec c r])%list (stats m).

(** As [secured_D1], but the first provisioning flag cannot be written. *)
Definition provisioning_refused : World := fun n c =>
  if String.eqb c "adb -s D1 shell settings put global device_provisioned 1"
  then exits_with "exit status 255"
  else secured_D1 n c.

(** [ran m m' cs]: machine [m'] is [m] after the command lines [cs] were
    spawned, in that order, and nothing else happened but printing and
    sleeping. *)
Definition ran (m m' : Machine) (cs : list string) : Prop :=
  exists evs,
    trace m' = (trace m ++ evs)%list
    /\ commands evs = cs
    /\ clock m' = (length cs + clock m)%nat
    /\ stats m' = stats m.

(** The command lines of the four strategies for device [d], in the order
    the cascade tries them. *)
Definition strategy_commands (d : string) : list (list string) :=
  [ [ fullCommandOf "shell locksettings clear" d;
      fullCommandOf "shell locksettings set-disabled true" d ];
    [ fullCommandOf "shell settings put secure lockscreen.disabled 1" d ];
    [ fullCommandOf "shell settings put system lockscreen_disabled 1" d ];
    [ fullCommandOf "shell settings put global device_provisioned 1" d;
      fullCommandOf "shell settings put secure user_setup_complete 1" d ] ].

(** The number of readiness polls among command lines: one [get-state] per
    attempt of [WaitForDeviceReady]. *)
Definition polls (d : string) (cs : list string) : nat :=
  count_occ string_dec cs (fullCommandOf "get-state" d).

(** A device that never answers any command. *)
Definition unreachable : World := fun _ _ => exits_with "exit status 1".

(** ** The device listing, read as the directory's contract reads it *)

(** A line of the listing marks a ready device when, trimmed, it is not
    empty and contains a tab followed by "device". *)
Definition ready_line (line : string) : bool :=
  negb (String.eqb line "") && Contains line (TAB ++ "device").

(** The identifier on a line: its text before the first tab. *)
Definition serial_of (line : string) : string := hd "" (Split line (ascii_of_nat 9)).

(** The online devices of a listing, in listing order: the header line is
    skipped, then every ready line gives its identifier. *)
Definition listed_online (output : string) : list string :=
  map serial_of (filter ready_line (tl (map TrimSpace (ScanLines output)))).

Definition member (t : string) (l : list string) : bool := existsb (String.eqb t) l.

(** The line [log] prints to warn that a requested device is absent. *)
Definition warning_line (t : string) : string :=
  "⚠️" ++ " " ++ ("Warning: Device " ++ t ++ " not found in connected devices") ++ LF.

Definition is_warning (line : string) : bool :=
  String.prefix "⚠️ Warning: Device " line.

(** The absent-device warnings printed in a trace, oldest first. *)
Definition warnings (t : list Event) : list string := filter is_warning (printed t).

(** The bridge lists D1 and D2 as ready and D9 as offline. *)
Definition listing_D1_D2 : string :=
  "List of devices attached" ++ LF
  ++ "D1" ++ TAB ++ "device" ++ LF
  ++ "D2" ++ TAB ++ "device" ++ LF
  ++ "D9" ++ TAB ++ "offline" ++ LF ++ LF.

Definition two_online : World := fun _ c =>
  if String.eqb c "adb devices" then answers listing_D1_D2 else answers "".

(** What the loop over the targets leaves behind. *)
Definition target_warnings (a : AndroidLockScreenDisabler) (deviceMap : StringSet)
  (targets : list string) : list Event :=
  flat_map (fun t =>
              if deviceMap t then []
              else log_events a ("Warning: Device " ++ t
                                 ++ " not found in connected devices") "⚠️")
           targets.

(** The directory's contract as the specification words it, for a listing
    that was obtained: with a filter, exactly the filter's online members in
    the filter's order and one warning per absent entry; without one, the
    online devices in listing order. *)
Definition directory_contract (a : AndroidLockScreenDisabler) (w : World)
  (m : Machine) : Prop :=
  let online := listed_online (output_of (w (clock m) "adb devices")) in
  let F := targetDevices a in
  let devices := fst (result w (GetConnectedDevices a) m) in
  let logged := warnings (since m (trace (after w (GetConnectedDevices a) m))) in
  (F <> [] ->
   devices = filter (fun t => member t online) F
   /\ logged = map warning_line (filter (fun t => negb (member t online)) F))
  /\ (F = [] -> devices = online).

(** ** The lock-state inspector, heuristic by heuristic *)

(** The command lines [CheckExistingLockScreen] may spawn for device [d], in
    the order of its five heuristics. *)
Definition inspection_commands (d : string) : list string :=
  [ fullCommandOf "shell dumpsys trust" d;
    fullCommandOf "shell locksettings get-disabled" d;
    fullCommandOf "shell dumpsys activity services KeyguardService" d;
    fullCommandOf "shell settings get secure lock_pattern_enabled" d;
    fullCommandOf "shell settings get secure lockscreen.password_type" d;
    fullCommandOf "shell settings get secure lockscreen.disabled" d;
    fullCommandOf "shell dumpsys device_policy" d ].

(** Heuristic 1 fires: the trust-manager dump reports a secure device. *)
Definition trust_secure (r : ProcResult) : bool :=
  succeeded r && negb (String.eqb (output_of r) "")
  && (Contains (ToLower (output_of r)) "isdevicesecure=true"
      || Contains (ToLower (output_of r)) "iskeyguardsecure=true").

(** Heuristic 2's flag: the command succeeded and printed "true". *)
Definition reports_disabled (r : ProcResult) : bool :=
  succeeded r && Contains (ToLower (output_of r)) "true".

(** Heuristic 3 fires: the keyguard-service dump reports it secure or enabled. *)
Definition keyguard_secure (r : ProcResult) : bool :=
  succeeded r && negb (String.eqb (output_of r) "")
  && (Contains (ToLower (output_of r)) "secure=true"
      || Contains (ToLower (output_of r)) "enabled=true").

(** A secure setting was read: the command succeeded with a value that is
    neither empty nor "null". *)
Definition setting_read (r : ProcResult) : bool :=
  succeeded r && negb (String.eqb (output_of r) "")
  && negb (String.eqb (output_of r) "null").

(** Heuristic 5 fires: the device-policy dump mentions a password policy. *)
Definition policy_enforced (r : ProcResult) : bool :=
  succeeded r && negb (String.eqb (output_of r) "")
  && (Contains (ToLower (output_of r)) "passwordquality"
      || Contains (ToLower (output_of r)) "minimumpasswordlength").

(** D1 has its lock disabled through locksettings, yet its keyguard service
    reports itself enabled. *)
Definition keyguard_enabled_D1 : World := fun _ c =>
  if String.eqb c "adb -s D1 shell locksettings get-disabled" then answers "true"
  else if String.eqb c "adb -s D1 shell dumpsys activity services KeyguardService"
       then answers "mKeyguardEnabled=true"
  else answers "".

(** D1 has its lock disabled through locksettings while the raw secure
    setting [lockscreen.disabled] still reads 0; nothing else is set. *)
Definition disabled_twice_D1 : World := fun _ c =>
  if String.eqb c "adb -s D1 shell locksettings get-disabled" then answers "true"
  else if String.eqb c "adb -s D1 shell settings get secure lockscreen.disabled"
       then answers "0"
  else if String.eqb c "adb -s D1 shell settings list secure" then answers "x=1"
  else answers "".

(** [runs_to w p m x cs]: run from [m] in world [w], program [p] returns [x]
    after spawning exactly the command lines [cs]. *)
Definition runs_to (w : World) {A} (p : Prog A) (m : Machine) (x : A)
  (cs : list string) : Prop :=
  exists m', run w p m = (x, m') /\ ran m m' cs.

(** [Issues allowed p]: every command line [p] can spawn, on any path,
    satisfies [allowed]. *)
Inductive Issues {A} (allowed : string -> Prop) : Prog A -> Prop :=
| Is_Ret (x : A) : Issues allowed (Ret x)
| Is_Exec c k : allowed c -> (forall r, Issues allowed (k r)) -> Issues allowed (Exec c k)
| Is_Printf s k : Issues allowed k -> Issues allowed (Printf s k)
| Is_Sleep t k : Issues allowed k -> Issues allowed (Sleep t k)
| Is_Stat op k : Issues allowed k -> Issues allowed (Stat op k).

(** [advanced allowed m m']: [m'] is [m] after some more events whose
    command lines all satisfy [allowed], with the statistics untouched. *)
Definition advanced (allowed : string -> Prop) (m m' : Machine) : Prop :=
  exists evs,
    trace m' = (trace m ++ evs)%list
    /\ Forall allowed (commands evs)
    /\ stat_updates evs = 0%nat
    /\ stats m' = stats m.

(** The command lines of the orchestration's steps for device [d]. *)
Definition info_commands (d : string) : list string :=
  [ fullCommandOf "shell getprop ro.product.model" d;
    fullCommandOf "shell getprop ro.product.manufacturer" d;
    fullCommandOf "shell getprop ro.build.version.release" d;
    fullCommandOf "shell getprop ro.build.version.sdk" d ].

Definition permission_commands (d : string) : list string :=
  [ fullCommandOf "shell echo 'test'" d;
    fullCommandOf "shell settings list secure" d ].

Definition readiness_commands (d : string) : list string :=
  [ fullCommandOf "reboot" d;
    fullCommandOf "get-state" d;
    fullCommandOf "shell echo 'test'" d ].

Definition validation_commands (d : string) : list string :=
  [ fullCommandOf "shell dumpsys window" d;
    fullCommandOf "shell dumpsys power" d;
    fullCommandOf "shell dumpsys activity activities" d;
    fullCommandOf "shell settings get secure lockscreen.disabled" d;
    fullCommandOf "shell locksettings get-disabled" d;
    fullCommandOf "shell input keyevent KEYCODE_WAKEUP" d ].

(** The steps of the orchestration up to the lock inspection: the device
    information and the permission check, whose result is returned. *)
Definition before_inspection (a : AndroidLockScreenDisabler) (deviceSerial : string)
  : Prog bool :=
  let deviceTag := "[" ++ deviceSerial ++ "]" in
  log a (deviceTag ++ " Starting lock screen disable process") "🚀" ;;
  deviceInfo <- GetDeviceInfo a deviceSerial ;;
  log a (deviceTag ++ " Device: " ++ Manufacturer deviceInfo ++ " " ++ Model deviceInfo
         ++ " (Android " ++ AndroidVersion deviceInfo ++ ", API "
         ++ APILevel deviceInfo ++ ")") "📋" ;;
  CheckDevicePermissions a deviceSerial.

(** Every command line the orchestration can spawn before it validates. *)
Definition pre_validation_commands (d : string) : list string :=
  (info_commands d ++ permission_commands d ++ inspection_commands d
   ++ concat (strategy_commands d) ++ readiness_commands d)%list.

(** The opening of [ValidateLockScreenRemoval], and what it does between
    its two checks when the first one is indeterminate with error [e]. *)
Definition validation_prologue (a : AndroidLockScreenDisabler) (deviceSerial : string)
  : Prog unit :=
  log a ("Validating lock screen removal on device " ++ deviceSerial ++ "...") "🔍" ;;
  sleep 3.

Definition wake_up (a : AndroidLockScreenDisabler) (deviceSerial e : string)
  : Prog unit :=
  log a ("Warning: Could not definitively determine lock screen status on device "
         ++ deviceSerial ++ ": " ++ e) "⚠️" ;;
  runADBCommand a "shell input keyevent KEYCODE_WAKEUP" deviceSerial ;;
  sleep 2.

(** ** Vocabulary of the further properties *)

(** [Silent p]: no path through [p] prints. *)
Inductive Silent {A} : Prog A -> Prop :=
| Si_Ret (x : A) : Silent (Ret x)
| Si_Exec c k : (forall r, Silent (k r)) -> Silent (Exec c k)
| Si_Sleep t k : Silent k -> Silent (Sleep t k)
| Si_Stat op k : Silent k -> Silent (Stat op k).

(** A command line addressed to device [d]: some bridge command wrapped by
    [runADBCommand] for that identifier. *)
Definition addressed_to (d : string) (c : string) : Prop :=
  exists command, c = fullCommandOf command d.

(** The seconds slept in a trace. *)
Fixpoint slept (t : list Event) : nat :=
  match t with
  | [] => 0
  | EvSleep n :: t' => n + slept t'
  | _ :: t' => slept t'
  end.

(** The answers in a trace, oldest first: each spawned command line with
    what came back. *)
Fixpoint answered (t : list Event) : list (string * ProcResult) :=
  match t with
  | [] => []
  | EvExec c r :: t' => (c, r) :: answered t'
  | _ :: t' => answered t'
  end.

(** A device that the bridge sees ([get-state] succeeds) but whose shell
    never answers. *)
Definition shell_down : World := fun _ c =>
  if String.eqb c "adb -s D1 get-state" then answers "device"
  else exits_with "exit status 1".

(** The command lines of the orchestration's steps before the reboot, and of
    its steps after it. *)
Definition before_reboot_commands (d : string) : list string :=
  (info_commands d ++ permission_commands d ++ inspection_commands d
   ++ concat (strategy_commands d))%list.

Definition polling_commands (d : string) : list string :=
  [ fullCommandOf "get-state" d; fullCommandOf "shell echo 'test'" d ].

Definition after_reboot_commands (d : string) : list string :=
  (polling_commands d ++ validation_commands d)%list.

(** Every adb command fails except the remediation's: the lock settings are
    written, but the reboot is refused. *)
Definition reboot_refused : World := fun n c =>
  if String.eqb c "adb -s D1 reboot" then exits_with "exit status 1"
  else secured_D1 n c.

(** The command lines that no step before the reboot spawns: the readiness
    poll and what only the validation asks. *)
Definition only_after_reboot (d : string) : list string :=
  [ fullCommandOf "get-state" d;
    fullCommandOf "shell dumpsys window" d;
    fullCommandOf "shell dumpsys power" d;
    fullCommandOf "shell dumpsys activity activities" d;
    fullCommandOf "shell input keyevent KEYCODE_WAKEUP" d ].

(** What [GetDeviceInfo] keeps of the answer to one property query. *)
Definition reported (r : ProcResult) : string :=
  if succeeded r && negb (String.eqb (output_of r) "") then output_of r else "Unknown".

(** The probes of [CheckLockScreenStatus], read off one answer each: the
    window dump shows the keyguard, the power dump shows the device asleep,
    the activity dump shows a foreground activity that is not the lock
    screen, the raw secure setting reads 1. *)
Definition shows_lock (r : ProcResult) : bool :=
  succeeded r && negb (String.eqb (output_of r) "") && window_shows_lock (output_of r).

Definition shows_asleep (r : ProcResult) : bool :=
  succeeded r && negb (String.eqb (output_of r) "") && power_shows_asleep (output_of r).

Definition shows_unlocked (r : ProcResult) : bool :=
  succeeded r && negb (String.eqb (output_of r) "")
  && activity_shows_unlocked (output_of r).

Definition setting_disabled (r : ProcResult) : bool :=
  succeeded r && String.eqb (output_of r) "1".

Definition indeterminate : option string :=
  Some "unable to determine lock screen status definitively".

(** D1 after a successful remediation: as [secured_D1], and the lock
    settings now report the lock screen disabled. *)
Definition unlocked_D1 : World := fun n c =>
  if String.eqb c "adb -s D1 shell locksettings get-disabled" then answers "true"
  else secured_D1 n c.

(** D1 passes the permission check and then stops answering: every other
    command fails. *)
Definition vanishing_D1 : World := fun _ c =>
  if String.eqb c "adb -s D1 shell echo 'test'" then answers "test"
  else if String.eqb c "adb -s D1 shell settings list secure" then answers "x=1"
  else exits_with "error: device offline".

(** [Updates P p]: every statistics update on any path of [p] satisfies [P]. *)
Inductive Updates {A} (P : StatOp -> Prop) : Prog A -> Prop :=
| Up_Ret (x : A) : Updates P (Ret x)
| Up_Exec c k : (forall r, Updates P (k r)) -> Updates P (Exec c k)
| Up_Printf s k : Updates P k -> Updates P (Printf s k)
| Up_Sleep t k : Updates P k -> Updates P (Sleep t k)
| Up_Stat op k : P op -> Updates P k -> Updates P (Stat op k).

(** A statistics update on behalf of one of [devices]. *)
Definition update_for (devices : list string) (op : StatOp) : Prop :=
  op = OpIncrementSuccess \/ exists d, In d devices /\ op = OpAddFailedDevice d.

(** The failed devices of [m'] are those of [m] and then some of [devices]. *)
Definition failures_among (devices : list string) (m m' : Machine) : Prop :=
  exists more,
    failedDevices (stats m') = (failedDevices (stats m) ++ more)%list
    /\ Forall (fun x => In x devices) more.

(** The machine a scheduled run leaves behind ([m] when the schedule ends
    before the run does). *)
Definition machine_after {A} (r : option (A * Machine)) (m : Machine) : Machine :=
  match r with
  | Some (_, m') => m'
  | None => m
  end.

(** The bridge tool is not installed: [adb version] fails, whatever else
    would answer. *)
Definition no_bridge : World := fun _ c =>
  if String.eqb c "adb version" then exits_with "exit status 127" else answers "".

(** The bridge tool answers and lists no device. *)
Definition nothing_attached : World := fun _ c =>
  if String.eqb c "adb devices" then answers ("List of devices attached" ++ LF)
  else answers "".

(** [SleepsWithin spent b p]: on every path through [p], the seconds already
    [spent] plus the seconds slept on the path stay within [b x], where [x]
    is the value the path returns. *)
Inductive SleepsWithin {A} (b : A -> nat) : nat -> Prog A -> Prop :=
| SW_Ret spent (x : A) : (spent <= b x)%nat -> SleepsWithin b spent (Ret x)
| SW_Exec spent c k :
    (forall r, SleepsWithin b spent (k r)) -> SleepsWithin b spent (Exec c k)
| SW_Printf spent s k : SleepsWithin b spent k -> SleepsWithin b spent (Printf s k)
| SW_Sleep spent t k :
    SleepsWithin b (spent + t) k -> SleepsWithin b spent (Sleep t k)
| SW_Stat spent op k : SleepsWithin b spent k -> SleepsWithin b spent (Stat op k).

(** D1 is secured and lets itself be provisioned (strategy 4) and rebooted,
    but after the reboot its shell never answers again: the commands from
    the sixteenth on fail, except the state query. *)
Definition slow_D1 : World := fun n c =>
  if String.eqb c "adb -s D1 get-state" then answers "device"
  else if String.eqb c "adb -s D1 reboot" then answers ""
  else if (15 <=? n)%nat then exits_with "exit status 1"
  else if String.eqb c "adb -s D1 shell locksettings set-disabled true"
       then exits_with "exit status 255"
  else if String.eqb c "adb -s D1 shell settings put secure lockscreen.disabled 1"
       then exits_with "exit status 255"
  else if String.eqb c "adb -s D1 shell settings put system lockscreen_disabled 1"
       then exits_with "exit status 255"
  else secured_D1 n c.

(** A text made of white space only, and a text without any. *)
Definition blank (s : string) : bool := forallb is_space (list_ascii_of_string s).

Definition spaceless (s : string) : bool :=
  forallb (fun c => negb (is_space c)) (list_ascii_of_string s).

(** D1 has its lock disabled through locksettings while its secure settings
    still report an enabled lock pattern. *)
Definition pattern_enabled_D1 : World := fun _ c =>
  if String.eqb c "adb -s D1 shell locksettings get-disabled" then answers "true"
  else if String.eqb c "adb -s D1 shell settings get secure lock_pattern_enabled"
       then answers "1"
  else answers "".

(** * Properties *)

(** ** Execution of a sequence *)

Lemma run_bind (w : World) {A B} (p : Prog A) (f : A -> Prog B) (m : Machine) :
  run w (bind p f) m = let (x, m') := run w p m in run w (f x) m'.
Proof.
  revert m; induction p as [x | c k IH | s k IH | n k IH | op k IH]; intro m;
    simpl; auto.
Qed.

(** ** Counting the statistics updates of a program *)


Lemma StatOps_bind {A B} (p : Prog A) (f : A -> Prog B) (n n' : nat) :
  StatOps n p -> (forall x, StatOps n' (f x)) -> StatOps (n + n') (bind p f).
Proof.
  intros Hp Hf; induction Hp; simpl; try constructor; auto.
Qed.

Lemma StatOps_seq {A B} (p : Prog A) (f : A -> Prog B) (n : nat) :
  StatOps 0 p -> (forall x, StatOps n (f x)) -> StatOps n (bind p f).
Proof. intros; change n with (0 + n)%nat; apply StatOps_bind; auto. Qed.

Create HintDb statops.

Lemma log_quiet a message emoji : StatOps 0 (log a message emoji).
Proof. unfold log, printf; destruct (negb _); repeat constructor. Qed.

Lemma runADBCommand_quiet a command deviceSerial :
  StatOps 0 (runADBCommand a command deviceSerial).
Proof. unfold runADBCommand, exec; simpl; repeat constructor. Qed.

Lemma sleep_quiet n : StatOps 0 (sleep n).
Proof. repeat constructor. Qed.

#[local] Hint Resolve log_quiet runADBCommand_quiet sleep_quiet : statops.
#[local] Hint Constructors StatOps : statops.

(** One step through a program built from sequences, branches and calls
    whose count is already known. *)
Ltac statops_step :=
  match goal with
  | |- StatOps _ (bind _ _) => apply StatOps_seq; [ | intros ]
  | |- StatOps _ (match ?x with (_, _) => _ end) => destruct x
  | |- StatOps _ (if ?b then _ else _) => destruct b
  | |- StatOps _ (match ?x with Some _ => _ | None => _ end) => destruct x
  | |- StatOps _ (stat _) => unfold stat; repeat constructor
  | |- StatOps _ (Exec _ _) => apply SO_Exec; intros
  | |- StatOps _ (Printf _ _) => apply SO_Printf
  | |- StatOps _ (Sleep _ _) => apply SO_Sleep
  | |- StatOps _ (Ret _) => constructor
  | |- StatOps _ _ => solve [ auto with statops ]
  end.

Ltac statops := cbv zeta; repeat statops_step.

Lemma GetDeviceInfo_quiet a d : StatOps 0 (GetDeviceInfo a d).
Proof. unfold GetDeviceInfo; statops. Qed.

Lemma CheckDevicePermissions_quiet a d : StatOps 0 (CheckDevicePermissions a d).
Proof. unfold CheckDevicePermissions; statops. Qed.

Lemma check_lockMethods_quiet a d flag ms : StatOps 0 (check_lockMethods a d flag ms).
Proof. induction ms; simpl; statops. Qed.

#[local] Hint Resolve check_lockMethods_quiet : statops.

Lemma CheckExistingLockScreen_quiet a d : StatOps 0 (CheckExistingLockScreen a d).
Proof. unfold CheckExistingLockScreen; statops. Qed.

Lemma method1_quiet a d : StatOps 0 (disableLockscreenMethod1 a d).
Proof. unfold disableLockscreenMethod1; statops. Qed.

Lemma method2_quiet a d : StatOps 0 (disableLockscreenMethod2 a d).
Proof. unfold disableLockscreenMethod2; statops. Qed.

Lemma method3_quiet a d : StatOps 0 (disableLockscreenMethod3 a d).
Proof. unfold disableLockscreenMethod3; statops. Qed.

Lemma method4_loop_quiet a d cs n : StatOps 0 (method4_loop a d cs n).
Proof. revert n; induction cs; intro n; simpl; statops. Qed.

#[local] Hint Resolve method4_loop_quiet : statops.

Lemma method4_quiet a d : StatOps 0 (disableLockscreenMethod4 a d).
Proof. unfold disableLockscreenMethod4; statops. Qed.

Lemma cascade_loop_quiet ms d :
  Forall (fun method => forall s, StatOps 0 (method s)) ms ->
  StatOps 0 (cascade_loop ms d).
Proof.
  induction 1 as [| method rest Hm _ IH]; simpl; [ constructor | ].
  apply StatOps_seq; [ apply Hm | intros [ | ]; statops ].
Qed.

Lemma methods_quiet a :
  Forall (fun method => forall s, StatOps 0 (method s)) (methods a).
Proof.
  unfold methods; repeat constructor; intro s;
    auto using method1_quiet, method2_quiet, method3_quiet, method4_quiet.
Qed.

Lemma RebootDevice_quiet a d : StatOps 0 (RebootDevice a d).
Proof. unfold RebootDevice; statops. Qed.

Lemma wait_loop_quiet a d mw ma fuel attempt :
  StatOps 0 (wait_loop a d mw ma fuel attempt).
Proof.
  revert attempt; induction fuel as [| fuel IH]; intro attempt; simpl; statops.
Qed.

#[local] Hint Resolve wait_loop_quiet : statops.

Lemma WaitForDeviceReady_quiet a d mw : StatOps 0 (WaitForDeviceReady a d mw).
Proof. unfold WaitForDeviceReady; statops. Qed.

Lemma CheckLockScreenStatus_quiet a d : StatOps 0 (CheckLockScreenStatus a d).
Proof. unfold CheckLockScreenStatus; statops. Qed.

#[local] Hint Resolve CheckLockScreenStatus_quiet : statops.

Lemma ValidateLockScreenRemoval_quiet a d : StatOps 0 (ValidateLockScreenRemoval a d).
Proof. unfold ValidateLockScreenRemoval; statops. Qed.

#[local] Hint Resolve GetDeviceInfo_quiet CheckDevicePermissions_quiet
  CheckExistingLockScreen_quiet RebootDevice_quiet WaitForDeviceReady_quiet
  ValidateLockScreenRemoval_quiet : statops.

Lemma cascade_methods_quiet a d : StatOps 0 (cascade_loop (methods a) d).
Proof. apply cascade_loop_quiet, methods_quiet. Qed.

#[local] Hint Resolve cascade_methods_quiet : statops.

Lemma orchestration_one_update a d : StatOps 1 (DisableLockscreenOnDeviceAsync a d).
Proof. unfold DisableLockscreenOnDeviceAsync; statops. Qed.

(** ** What a run does to the trace and to the statistics *)


Lemma stat_updates_snoc t e :
  stat_updates (t ++ [e]) = (stat_updates t + if is_stat e then 1 else 0)%nat.
Proof.
  unfold stat_updates; rewrite filter_app, length_app; simpl.
  destruct (is_stat e); reflexivity.
Qed.

Lemma run_stat_updates (w : World) {A} (p : Prog A) (n : nat) :
  StatOps n p ->
  forall m, stat_updates (trace (snd (run w p m))) = (stat_updates (trace m) + n)%nat.
Proof.
  induction 1; intro m; simpl; auto;
    try (rewrite IHStatOps || rewrite H0); simpl;
    rewrite stat_updates_snoc; simpl; lia.
Qed.

Lemma run_quiet_stats (w : World) {A} (p : Prog A) :
  StatOps 0 p -> forall m, stats (snd (run w p m)) = stats m.
Proof.
  intro H; remember 0%nat as n eqn:E; induction H; intro m; simpl; auto;
    try discriminate; try (rewrite IHStatOps by assumption);
    try (rewrite H0 by assumption); reflexivity.
Qed.


Lemma wrap64_small z : (- 2 ^ 63 <= z <= max_int)%Z -> wrap64 z = z.
Proof.
  unfold wrap64, max_int; intro H.
  rewrite Z.mod_small by lia; lia.
Qed.

Lemma apply_op_settled op ps :
  (0 <= successCount ps)%Z -> (settled ps < max_int)%Z ->
  settled (apply_op op ps) = (settled ps + 1)%Z
  /\ (0 <= successCount (apply_op op ps))%Z
  /\ totalDevices (apply_op op ps) = totalDevices ps.
Proof.
  unfold settled, len; intros H0 H1.
  assert (Hl : (0 <= Z.of_nat (length (failedDevices ps)))%Z) by lia.
  destruct op as [| d]; simpl.
  - rewrite wrap64_small by (unfold max_int in *; lia); lia.
  - rewrite length_app; simpl; lia.
Qed.

(** ** The pool of goroutines *)


Lemma Forall2_set_nth {A B} (R : A -> B -> Prop) i x y l l' :
  Forall2 R l l' -> R x y -> Forall2 R (set_nth i x l) (set_nth i y l').
Proof.
  intros H Hxy; revert i; induction H; intros [| i]; simpl; auto.
Qed.

Lemma list_sum_set_nth i n n' ns :
  nth_error ns i = Some n ->
  (list_sum (set_nth i n' ns) + n = list_sum ns + n')%nat.
Proof.
  revert i; induction ns as [| k ns IH]; intros [| i]; simpl; try discriminate.
  - intros [= ->]; lia.
  - intro H; specialize (IH _ H); lia.
Qed.

Lemma Forall2_nth_error_r {A B} (R : A -> B -> Prop) l l' i y :
  Forall2 R l l' -> nth_error l' i = Some y ->
  exists x, nth_error l i = Some x /\ R x y.
Proof.
  intro H; revert i; induction H; intros [| i]; simpl; try discriminate.
  - intros [= ->]; eauto.
  - auto.
Qed.

Lemma step_pool_inv (w : World) total ns pool m i p :
  pool_inv total ns pool m -> nth_error pool i = Some p ->
  exists ns',
    pool_inv total ns' (set_nth i (fst (step w p m)) pool) (snd (step w p m)).
Proof.
  intros (HF & Hs & Hsum & Htot & Hmax) Hi.
  destruct (Forall2_nth_error_r _ HF Hi) as (n & Hn & Hp).
  pose proof (fun n' => @list_sum_set_nth i n n' ns Hn) as Hset.
  destruct Hp as [x | n c k Hk | n s k Hk | n t k Hk | n op k Hk]; simpl.
  - exists (set_nth i 0%nat ns); repeat split; cbn; auto.
    + apply Forall2_set_nth; [ assumption | constructor ].
    + specialize (Hset 0%nat); lia.
  - exists (set_nth i n ns); repeat split; cbn; auto.
    + apply Forall2_set_nth; auto.
    + specialize (Hset n); lia.
  - exists (set_nth i n ns); repeat split; cbn; auto.
    + apply Forall2_set_nth; auto.
    + specialize (Hset n); lia.
  - exists (set_nth i n ns); repeat split; cbn; auto.
    + apply Forall2_set_nth; auto.
    + specialize (Hset n); lia.
  - specialize (Hset n).
    assert (Hlt : (settled (stats m) < max_int)%Z) by lia.
    destruct (apply_op_settled op (stats m) Hs Hlt) as (E1 & E2 & E3).
    exists (set_nth i n ns); repeat split; cbn.
    + apply Forall2_set_nth; auto.
    + assumption.
    + rewrite E1; lia.
    + rewrite E3; assumption.
    + assumption.
Qed.

Lemma run_schedule_inv (w : World) total sched :
  forall ns pool m, pool_inv total ns pool m ->
  exists ns', pool_inv total ns' (fst (run_schedule w sched pool m))
                       (snd (run_schedule w sched pool m)).
Proof.
  induction sched as [| i rest IH]; intros ns pool m Hinv; simpl.
  - eauto.
  - destruct (nth_error pool i) as [p |] eqn:Hi; [ | eauto ].
    destruct (step_pool_inv w i Hinv Hi) as (ns' & Hinv').
    destruct (step w p m) as [p' m']; simpl in *; eauto.
Qed.

Lemma finished_pool_owes_nothing ns (pool : list (Prog unit)) :
  Forall2 StatOps ns pool -> forallb finished pool = true -> list_sum ns = 0%nat.
Proof.
  induction 1 as [| n p ns pool Hp _ IH]; simpl; auto.
  intro H; apply andb_prop in H as [Hfin Hrest].
  rewrite (IH Hrest).
  destruct Hp; simpl in Hfin; try discriminate; reflexivity.
Qed.

Lemma goroutines_owe a devices :
  Forall2 StatOps (0%nat :: map (fun _ => 1%nat) devices) (goroutines a devices).
Proof.
  unfold goroutines; constructor; [ apply log_quiet | ].
  induction devices; simpl; constructor; auto using orchestration_one_update.
Qed.

Lemma list_sum_ones {A} (l : list A) : list_sum (map (fun _ => 1%nat) l) = length l.
Proof. induction l; simpl; auto. Qed.

(** ** Every goroutine can be brought to its end *)

Lemma nth_error_middle {A} (done : list A) x rest :
  nth_error (done ++ x :: rest) (length done) = Some x.
Proof. induction done; simpl; auto. Qed.

Lemma set_nth_middle {A} (done : list A) x y rest :
  set_nth (length done) y (done ++ x :: rest) = (done ++ y :: rest)%list.
Proof. induction done; simpl; congruence. Qed.

Lemma finish_goroutine (w : World) (p : Prog unit) :
  forall done rest m, exists sched m',
    run_schedule w sched (done ++ p :: rest) m = ((done ++ Ret tt :: rest)%list, m').
Proof.
  induction p as [[] | c k IH | s k IH | n k IH | op k IH]; intros done rest m.
  - exists [], m; reflexivity.
  - destruct (IH (w (clock m) c) done rest
                (mkMachine (S (clock m)) (trace m ++ [EvExec c (w (clock m) c)]) (stats m)))
      as (sched & m' & E).
    exists (length done :: sched), m'; simpl.
    rewrite nth_error_middle; simpl; rewrite set_nth_middle; exact E.
  - destruct (IH done rest (mkMachine (clock m) (trace m ++ [EvPrint s]) (stats m)))
      as (sched & m' & E).
    exists (length done :: sched), m'; simpl.
    rewrite nth_error_middle; simpl; rewrite set_nth_middle; exact E.
  - destruct (IH done rest (mkMachine (clock m) (trace m ++ [EvSleep n]) (stats m)))
      as (sched & m' & E).
    exists (length done :: sched), m'; simpl.
    rewrite nth_error_middle; simpl; rewrite set_nth_middle; exact E.
  - destruct (IH done rest
                (mkMachine (clock m) (trace m ++ [EvStat op]) (apply_op op (stats m))))
      as (sched & m' & E).
    exists (length done :: sched), m'; simpl.
    rewrite nth_error_middle; simpl; rewrite set_nth_middle; exact E.
Qed.

Lemma run_schedule_app (w : World) s1 s2 pool m :
  run_schedule w (s1 ++ s2) pool m =
  run_schedule w s2 (fst (run_schedule w s1 pool m)) (snd (run_schedule w s1 pool m)).
Proof.
  revert pool m; induction s1 as [| i s1 IH]; intros pool m; simpl; auto.
  destruct (nth_error pool i); auto.
  destruct (step w p m); auto.
Qed.

Lemma finish_pool (w : World) (rest : list (Prog unit)) :
  forall done m, forallb finished done = true ->
  exists sched, forallb finished (fst (run_schedule w sched (done ++ rest) m)) = true.
Proof.
  induction rest as [| p rest IH]; intros done m Hdone.
  - exists []; simpl; rewrite app_nil_r; assumption.
  - destruct (finish_goroutine w p done rest m) as (s1 & m' & E1).
    destruct (IH (done ++ [Ret tt])%list m') as (s2 & E2).
    + rewrite forallb_app, Hdone; reflexivity.
    + exists (s1 ++ s2)%list.
      rewrite run_schedule_app, E1; simpl.
      rewrite <- app_assoc in E2; exact E2.
Qed.

Lemma run_one_update (w : World) {A} (p : Prog A) :
  StatOps 1 p -> forall m, exists op, stats (snd (run w p m)) = apply_op op (stats m).
Proof.
  intro H; remember 1%nat as n eqn:E.
  induction H as [x | n c k Hk IH | n s k Hk IH | n t k Hk IH | n op k Hk IH];
    intro m; simpl; try discriminate.
  - destruct (IH (w (clock m) c) E
                (mkMachine (S (clock m)) (trace m ++ [EvExec c (w (clock m) c)]) (stats m)))
      as [op Hop]; eauto.
  - destruct (IH E (mkMachine (clock m) (trace m ++ [EvPrint s]) (stats m)))
      as [op Hop]; eauto.
  - destruct (IH E (mkMachine (clock m) (trace m ++ [EvSleep t]) (stats m)))
      as [op Hop]; eauto.
  - injection E as ->; exists op.
    rewrite run_quiet_stats by assumption; reflexivity.
Qed.

Lemma ProcessDevices_totals a devices sched w m s f t m' :
  (len devices <= max_int)%Z ->
  ProcessDevices a devices sched w m = Some ((s, f, t), m') ->
  t = len devices /\ (s + len f)%Z = t.
Proof.
  intros Hlen; unfold ProcessDevices.
  destruct (len devices =? 0)%Z eqn:E0.
  - intros [= <- <- <- _]; apply Z.eqb_eq in E0; rewrite E0; split; reflexivity.
  - set (m0 := mkMachine (clock m) (trace m) (NewProcessingStats (len devices))).
    set (banner := bind _ _).
    assert (Hb : StatOps 0 banner) by (subst banner; statops).
    pose proof (run_quiet_stats w Hb m0) as Hstats.
    destruct (run w banner m0) as [u m1]; simpl in Hstats.
    assert (Hinv : pool_inv (len devices) (0%nat :: map (fun _ => 1%nat) devices)
                            (goroutines a devices) m1).
    { unfold pool_inv; rewrite Hstats; cbn.
      rewrite list_sum_ones; unfold settled, len; cbn.
      repeat split; try lia; [ apply goroutines_owe | exact Hlen ]. }
    destruct (run_schedule_inv w sched Hinv) as (ns' & HF & H0 & Hsum & Ht & _).
    destruct (run_schedule w sched (goroutines a devices) m1) as [pool m2].
    simpl in *.
    destruct (forallb finished pool) eqn:Hfin; [ | discriminate ].
    intros [= <- <- <- _].
    rewrite (finished_pool_owes_nothing HF Hfin) in Hsum.
    unfold settled in Hsum; split; [ exact Ht | simpl in Hsum; lia ].
Qed.

Lemma ProcessDevices_returns a devices w m :
  exists sched r, ProcessDevices a devices sched w m = Some r.
Proof.
  unfold ProcessDevices.
  destruct (len devices =? 0)%Z; [ exists [] ; eauto | ].
  destruct (run w _ _) as [u m1].
  destruct (finish_pool w (goroutines a devices) [] m1 eq_refl) as (sched & Hfin).
  exists sched; simpl in Hfin.
  destruct (run_schedule w sched (goroutines a devices) m1) as [pool m2].
  simpl in Hfin; rewrite Hfin; eauto.
Qed.

(** ** C1: every device is settled exactly once *)

(** C1.  Every execution path of the per-device orchestration, whatever the
    device answers, performs exactly one statistics update (one
    [IncrementSuccess] or one [AddFailedDevice]); hence whenever
    [ProcessDevices] returns, under any interleaving of its goroutines, the
    total it returns is the number of targets and the success count plus the
    number of failed devices equals that total; and for every list of targets
    some interleaving lets it return. *)
Theorem ProcessDevices_settles_every_device :
  (forall a d w m,
      let m' := snd (run w (DisableLockscreenOnDeviceAsync a d) m) in
      stat_updates (trace m') = (stat_updates (trace m) + 1)%nat
      /\ exists op, stats m' = apply_op op (stats m))
  /\ (forall a devices sched w m s f t m',
        (len devices <= max_int)%Z ->
        ProcessDevices a devices sched w m = Some ((s, f, t), m') ->
        t = len devices /\ (s + len f)%Z = t)
  /\ (forall a devices w m,
        exists sched r, ProcessDevices a devices sched w m = Some r).
Proof.
  split; [ | split ].
  - intros a d w m; cbv zeta; split.
    + apply run_stat_updates, orchestration_one_update.
    + apply run_one_update, orchestration_one_update.
  - intros; eapply ProcessDevices_totals; eauto.
  - intros; apply ProcessDevices_returns.
Qed.

Lemma ProcessDevices_settles_every_device_witness :
  (len ["D1"; "D2"] <= max_int)%Z
  /\ option_map fst
       (ProcessDevices quiet ["D1"; "D2"] one_after_the_other secured_D1
          (boot (NewProcessingStats 0)))
     = Some (1%Z, ["D2"], 2%Z)
  /\ (2%Z = len ["D1"; "D2"] /\ (1 + len ["D2"])%Z = 2%Z).
Proof.
  split; [ unfold len, max_int; simpl; lia | ].
  split; [ vm_compute; reflexivity | ].
  eapply (proj1 (proj2 ProcessDevices_settles_every_device)
            quiet ["D1"; "D2"] one_after_the_other secured_D1
            (boot (NewProcessingStats 0))).
  - unfold len, max_int; simpl; lia.
  - lazy; reflexivity.
Defined.

(** ** Stepping through a run *)

Lemma run_split (w : World) {A} (p : Prog A) (m : Machine) :
  run w p m = (result w p m, after w p m).
Proof. unfold result, after; destruct (run w p m); reflexivity. Qed.

Lemma run_seq (w : World) {A B} (p : Prog A) (f : A -> Prog B) (m : Machine) :
  run w (bind p f) m = run w (f (result w p m)) (after w p m).
Proof. rewrite run_bind, run_split; reflexivity. Qed.

Lemma run_assoc (w : World) {A B C} (p : Prog A) (g : A -> Prog B)
  (f : B -> Prog C) (m : Machine) :
  run w (bind (bind p g) f) m = run w (bind p (fun x => bind (g x) f)) m.
Proof.
  rewrite !run_bind; destruct (run w p m) as [x m1].
  rewrite run_bind; reflexivity.
Qed.

Lemma run_log w a message emoji m :
  run w (log a message emoji) m = (tt, record (log_events a message emoji) m).
Proof.
  unfold log, log_events, record; destruct (negb (enableLogging a)); simpl.
  - rewrite app_nil_r; destruct m; reflexivity.
  - reflexivity.
Qed.

Lemma run_log_seq w {B} a message emoji (f : unit -> Prog B) m :
  run w (bind (log a message emoji) f) m
  = run w (f tt) (record (log_events a message emoji) m).
Proof. rewrite run_bind, run_log; reflexivity. Qed.

Lemma run_command w a command d m :
  run w (runADBCommand a command d) m
  = (command_result (w (clock m) (fullCommandOf command d)),
     spawned (fullCommandOf command d) (w (clock m) (fullCommandOf command d)) m).
Proof. reflexivity. Qed.

Lemma run_command_seq w {B} a command d (f : _ -> Prog B) m :
  run w (bind (runADBCommand a command d) f) m
  = run w (f (command_result (w (clock m) (fullCommandOf command d))))
      (spawned (fullCommandOf command d) (w (clock m) (fullCommandOf command d)) m).
Proof. reflexivity. Qed.

Lemma run_sleep_seq w {B} n (f : unit -> Prog B) m :
  run w (bind (sleep n) f) m = run w (f tt) (record [EvSleep n] m).
Proof. reflexivity. Qed.

Lemma commands_app t1 t2 : commands (t1 ++ t2) = (commands t1 ++ commands t2)%list.
Proof.
  induction t1 as [| [ | | | ] t1 IH]; simpl; auto; rewrite IH; reflexivity.
Qed.

Lemma printed_app t1 t2 : printed (t1 ++ t2) = (printed t1 ++ printed t2)%list.
Proof.
  induction t1 as [| [ | | | ] t1 IH]; simpl; auto; rewrite IH; reflexivity.
Qed.

Lemma commands_log_events a message emoji : commands (log_events a message emoji) = [].
Proof. unfold log_events; destruct (negb _); reflexivity. Qed.

Lemma since_app m evs : since m (trace m ++ evs) = evs.
Proof.
  unfold since; rewrite skipn_app, skipn_all, Nat.sub_diag; reflexivity.
Qed.

(** ** C9: the text of a timeout *)

Lemma command_result_timed_out r :
  timed_out r = true -> command_result r = (false, "", "Command timed out").
Proof.
  unfold timed_out, command_result; destruct (proc_err r); [ | discriminate ].
  intros ->; reflexivity.
Qed.

Lemma exit_error_text e :
  String.prefix "exit status " e = true \/ String.prefix "signal: " e = true ->
  e <> "Command timed out".
Proof. intros [H | H] ->; vm_compute in H; discriminate. Qed.

Lemma runADBCommand_error_text a command d w m :
  let r := w (clock m) (fullCommandOf command d) in
  snd (result w (runADBCommand a command d) m) = "Command timed out"
  <-> timed_out r = true \/ proc_err r = Some "Command timed out".
Proof.
  cbv zeta; unfold result; rewrite run_command; cbn [fst].
  unfold timed_out, command_result.
  destruct (proc_err (w (clock m) (fullCommandOf command d))) as [e |].
  - destruct (deadline_exceeded (w (clock m) (fullCommandOf command d))); cbn [snd].
    + split; auto.
    + split; [ intros ->; auto | intros [H | [= ->]]; [ discriminate | reflexivity ] ].
  - cbn [snd]; split; [ discriminate | intros [H | H]; discriminate ].
Qed.

(** C9.  [runADBCommand] returns what the spawned command left behind, case
    by case: when the command ran into the 30-second deadline, failure with
    empty output and the error text "Command timed out"; for any other
    failure, failure with empty output and the text of the process error,
    verbatim; when the process ended without error, no error text at all.
    Hence the error text it returns is "Command timed out" exactly when the
    command timed out (or the process error is that very sentence, which no
    exit status or signal reads): a call that timed out and a call that
    failed otherwise return different texts. *)
Theorem runADBCommand_timeout_text a command d w m :
  let r := w (clock m) (fullCommandOf command d) in
  let res := result w (runADBCommand a command d) m in
  (timed_out r = true -> res = (false, "", "Command timed out"))
  /\ (forall e, timed_out r = false -> proc_err r = Some e -> res = (false, "", e))
  /\ (proc_err r = None ->
      res = ((exit_code r =? 0)%Z, TrimSpace (combined_output r), ""))
  /\ (snd res = "Command timed out"
      <-> timed_out r = true \/ proc_err r = Some "Command timed out")
  /\ (forall e,
        timed_out r = false -> proc_err r = Some e ->
        String.prefix "exit status " e = true \/ String.prefix "signal: " e = true ->
        snd res <> "Command timed out")
  /\ (forall a' command' d' w' m',
        let r' := w' (clock m') (fullCommandOf command' d') in
        let res' := result w' (runADBCommand a' command' d') m' in
        timed_out r = true -> timed_out r' = false ->
        proc_err r' <> Some "Command timed out" ->
        snd res = "Command timed out" /\ snd res' <> snd res /\ res' <> res).
Proof.
  cbv zeta.
  pose proof (runADBCommand_error_text a command d w m) as Hiff; cbv zeta in Hiff.
  assert (Hres : result w (runADBCommand a command d) m
                 = command_result (w (clock m) (fullCommandOf command d)))
    by (unfold result; rewrite run_command; reflexivity).
  split; [ | split; [ | split; [ | split; [ | split ] ] ] ].
  - intro Ht; rewrite Hres; apply command_result_timed_out, Ht.
  - intros e Ht He; rewrite Hres; unfold timed_out, command_result in *.
    rewrite He in *; rewrite Ht; reflexivity.
  - intro He; rewrite Hres; unfold command_result; rewrite He; reflexivity.
  - exact Hiff.
  - intros e Ht He Hp Habs; apply Hiff in Habs as [Habs | Habs].
    + rewrite Ht in Habs; discriminate.
    + rewrite He in Habs; injection Habs as ->.
      exact (exit_error_text Hp eq_refl).
  - intros a' command' d' w' m' Ht Ht' Hne.
    assert (H1 : snd (result w (runADBCommand a command d) m) = "Command timed out")
      by (apply Hiff; left; exact Ht).
    assert (H2 : snd (result w' (runADBCommand a' command' d') m') <> "Command timed out").
    { intro Habs; apply (runADBCommand_error_text a' command' d' w' m') in Habs.
      destruct Habs as [Habs | Habs]; [ rewrite Ht' in Habs; discriminate | ].
      exact (Hne Habs). }
    split; [ exact H1 | split ].
    + rewrite H1; exact H2.
    + intro Habs; apply H2; rewrite Habs; exact H1.
Qed.

Lemma runADBCommand_timeout_text_witness :
  timed_out (secured_D1_stalls 0 (fullCommandOf "reboot" "D1")) = true
  /\ result secured_D1_stalls (runADBCommand quiet "reboot" "D1")
       (boot (NewProcessingStats 1))
     = (false, "", "Command timed out")
  /\ result unreachable (runADBCommand quiet "reboot" "D1") (boot (NewProcessingStats 1))
     = (false, "", "exit status 1")
  /\ snd (result unreachable (runADBCommand quiet "reboot" "D1")
            (boot (NewProcessingStats 1)))
     <> snd (result secured_D1_stalls (runADBCommand quiet "reboot" "D1")
               (boot (NewProcessingStats 1))).
Proof.
  split; [ reflexivity | ].
  split; [ | split ].
  - apply (proj1 (runADBCommand_timeout_text quiet "reboot" "D1" secured_D1_stalls
                    (boot (NewProcessingStats 1)))).
    reflexivity.
  - apply (proj1 (proj2 (runADBCommand_timeout_text quiet "reboot" "D1" unreachable
                           (boot (NewProcessingStats 1))))); reflexivity.
  - apply (proj2 (proj2 (proj2 (proj2 (proj2
             (runADBCommand_timeout_text quiet "reboot" "D1" secured_D1_stalls
                (boot (NewProcessingStats 1)))))))
             quiet "reboot" "D1" unreachable (boot (NewProcessingStats 1))).
    + reflexivity.
    + reflexivity.
    + discriminate.
Defined.

(** ** Footprints *)

Lemma ran_refl m : ran m m [].
Proof. exists []; rewrite app_nil_r; auto. Qed.

Lemma ran_trans m1 m2 m3 cs cs' :
  ran m1 m2 cs -> ran m2 m3 cs' -> ran m1 m3 (cs ++ cs').
Proof.
  intros (e1 & T1 & C1 & K1 & S1) (e2 & T2 & C2 & K2 & S2).
  exists (e1 ++ e2)%list; repeat split.
  - rewrite T2, T1, app_assoc; reflexivity.
  - rewrite commands_app; congruence.
  - rewrite length_app; lia.
  - congruence.
Qed.

Lemma ran_record m evs : commands evs = [] -> ran m (record evs m) [].
Proof. intro H; exists evs; simpl; rewrite H; auto. Qed.

Lemma ran_log m a message emoji : ran m (record (log_events a message emoji) m) [].
Proof. apply ran_record, commands_log_events. Qed.

Lemma ran_spawned m c r : ran m (spawned c r m) [c].
Proof. exists [EvExec c r]; simpl; repeat split; lia. Qed.

Lemma ran_step m1 m2 m3 cs cs' cs'' :
  ran m1 m2 cs -> ran m2 m3 cs' -> cs'' = (cs ++ cs')%list -> ran m1 m3 cs''.
Proof. intros H1 H2 ->; eapply ran_trans; eauto. Qed.

Lemma ran_commands m m' cs : ran m m' cs -> commands (since m (trace m')) = cs.
Proof. intros (evs & -> & H & _); rewrite since_app; exact H. Qed.

Lemma ran_clock m m' cs : ran m m' cs -> clock m' = (length cs + clock m)%nat.
Proof. intros (evs & _ & _ & H & _); exact H. Qed.

Lemma ran_stats m m' cs : ran m m' cs -> stats m' = stats m.
Proof. intros (evs & _ & _ & _ & H); exact H. Qed.

(** Symbolic execution: [run_steps] runs through logging, sleeping and
    spawning; [answer] splits the answer the run is waiting for; [footprint]
    closes a [ran] goal over a machine built from [record] and [spawned]. *)
Ltac run_steps :=
  repeat first
    [ rewrite run_log_seq
    | rewrite run_command_seq
    | rewrite run_sleep_seq
    | rewrite run_log
    | rewrite run_command
    | progress cbn [clock spawned record bind fst snd]
    | progress cbv beta
    | rewrite run_assoc ].

Ltac answer w :=
  match goal with
  | |- context [run w (match command_result (w ?n ?c) with _ => _ end) _] =>
      destruct (command_result (w n c)) as [[? ?] ?] eqn:?
  | |- context [run w (bind (match command_result (w ?n ?c) with _ => _ end) _) _] =>
      destruct (command_result (w n c)) as [[? ?] ?] eqn:?
  end.

Ltac footprint :=
  unfold ran; cbn [trace clock stats record spawned];
  rewrite <- ?app_assoc;
  eexists; split; [ reflexivity | ];
  rewrite ?commands_app, ?commands_log_events; cbn [commands app length];
  repeat split; try reflexivity; try lia.

Lemma run_method1 a d w m :
  let c1 := fullCommandOf "shell locksettings clear" d in
  let c2 := fullCommandOf "shell locksettings set-disabled true" d in
  result w (disableLockscreenMethod1 a d) m = succeeded (w (S (clock m)) c2)
  /\ ran m (after w (disableLockscreenMethod1 a d) m) [c1; c2].
Proof.
  cbv zeta; unfold result, after, succeeded, disableLockscreenMethod1.
  run_steps; answer w.
  destruct b; run_steps; answer w; destruct b; run_steps; cbn [run fst snd].
  all: split; [ reflexivity | footprint ].
Qed.

Lemma run_method2 a d w m :
  let c := fullCommandOf "shell settings put secure lockscreen.disabled 1" d in
  result w (disableLockscreenMethod2 a d) m = succeeded (w (clock m) c)
  /\ ran m (after w (disableLockscreenMethod2 a d) m) [c].
Proof.
  cbv zeta; unfold result, after, succeeded, disableLockscreenMethod2.
  run_steps; answer w; destruct b; run_steps; cbn [run fst snd].
  all: split; [ reflexivity | footprint ].
Qed.

Lemma run_method3 a d w m :
  let c := fullCommandOf "shell settings put system lockscreen_disabled 1" d in
  result w (disableLockscreenMethod3 a d) m = succeeded (w (clock m) c)
  /\ ran m (after w (disableLockscreenMethod3 a d) m) [c].
Proof.
  cbv zeta; unfold result, after, succeeded, disableLockscreenMethod3.
  run_steps; answer w; destruct b; run_steps; cbn [run fst snd].
  all: split; [ reflexivity | footprint ].
Qed.

Lemma run_method4 a d w m :
  let c1 := fullCommandOf "shell settings put global device_provisioned 1" d in
  let c2 := fullCommandOf "shell settings put secure user_setup_complete 1" d in
  result w (disableLockscreenMethod4 a d) m
  = succeeded (w (clock m) c1) || succeeded (w (S (clock m)) c2)
  /\ ran m (after w (disableLockscreenMethod4 a d) m) [c1; c2].
Proof.
  cbv zeta; unfold result, after, succeeded, disableLockscreenMethod4, method4_commands.
  rewrite run_log_seq, run_seq; unfold result, after.
  cbn [method4_loop]; run_steps; answer w; run_steps; answer w.
  cbn [run fst snd].
  destruct b, b0; cbn [orb];
    match goal with
    | |- context [(0 <? ?z)%Z] =>
        let b := eval vm_compute in (0 <? z)%Z in change (0 <? z)%Z with b
    end;
    cbv iota; run_steps; cbn [run fst snd].
  all: split; [ reflexivity | footprint ].
Qed.

(** ** C6: the partial-success rule of strategy 4 *)

(** C6.  Strategy 4 always issues both of its sub-commands and reports
    success exactly when at least one of them succeeded: a failed first
    sub-command followed by a successful second one is a success, and the
    strategy fails only when both sub-commands fail. *)
Theorem method4_partial_success a d w m :
  let ok1 :=
    succeeded (w (clock m)
                 (fullCommandOf "shell settings put global device_provisioned 1" d)) in
  let ok2 :=
    succeeded (w (S (clock m))
                 (fullCommandOf "shell settings put secure user_setup_complete 1" d)) in
  let res := result w (disableLockscreenMethod4 a d) m in
  res = ok1 || ok2
  /\ (ok1 = false -> ok2 = true -> res = true)
  /\ (res = false <-> ok1 = false /\ ok2 = false).
Proof.
  cbv zeta; destruct (run_method4 a d w m) as [Hres _]; cbv zeta in Hres.
  rewrite Hres; split; [ reflexivity | split ].
  - intros -> ->; reflexivity.
  - apply orb_false_iff.
Qed.

Lemma method4_partial_success_witness :
  succeeded (provisioning_refused 0
               (fullCommandOf "shell settings put global device_provisioned 1" "D1"))
  = false
  /\ succeeded (provisioning_refused 1
                  (fullCommandOf "shell settings put secure user_setup_complete 1" "D1"))
     = true
  /\ result provisioning_refused (disableLockscreenMethod4 quiet "D1")
       (boot (NewProcessingStats 1))
     = true.
Proof.
  split; [ reflexivity | ].
  split; [ reflexivity | ].
  apply (proj1 (proj2 (method4_partial_success quiet "D1" provisioning_refused
                         (boot (NewProcessingStats 1))))); reflexivity.
Defined.

(** ** C3: the cascade inside the orchestrator, and [DisableLockScreen] *)

Lemma methods_footprints a d :
  Forall2 (fun method cs => forall w m, ran m (after w (method d) m) cs)
          (methods a) (strategy_commands d).
Proof.
  unfold methods, strategy_commands; repeat constructor; intros w m.
  - apply run_method1.
  - apply run_method2.
  - apply run_method3.
  - apply run_method4.
Qed.

(** The loop of [DisableLockScreen] runs every method, whatever the earlier
    ones returned. *)
Lemma DisableLockScreen_loop_ran d ms css :
  Forall2 (fun method cs => forall w m, ran m (after w (method d) m) cs) ms css ->
  forall w m, ran m (after w (DisableLockScreen_loop ms d) m) (concat css).
Proof.
  induction 1 as [| method cs ms css Hm _ IH]; intros w m; simpl.
  - apply ran_refl.
  - unfold after; rewrite !run_seq.
    eapply ran_trans; [ apply Hm | ].
    eapply (@ran_step _ _ _ [] (concat css)); [ | apply IH | reflexivity ].
    unfold after; destruct (result w (method d) m); [ apply ran_refl | ].
    apply ran_record; reflexivity.
Qed.

Lemma DisableLockScreen_result a d w m : result w (DisableLockScreen a d) m = false.
Proof. unfold result, DisableLockScreen; rewrite run_seq; reflexivity. Qed.

Lemma DisableLockScreen_ran a d w m :
  ran m (after w (DisableLockScreen a d) m) (concat (strategy_commands d)).
Proof.
  unfold after, DisableLockScreen; rewrite run_seq; cbn [run snd].
  apply DisableLockScreen_loop_ran, methods_footprints.
Qed.

(** C3.  [DisableLockScreen] does not behave as the cascade should: on
    every device it runs all four strategies, also after one of them has
    succeeded, and it returns false; on device D1, where strategy 1 succeeds,
    it goes on to spawn the commands of strategies 2, 3 and 4 and reports
    failure. *)
Theorem DisableLockScreen_never_reports_success :
  (forall a d w m,
      result w (DisableLockScreen a d) m = false
      /\ commands (since m (trace (after w (DisableLockScreen a d) m)))
         = concat (strategy_commands d))
  /\ result secured_D1 (disableLockscreenMethod1 quiet "D1") (boot (NewProcessingStats 1))
     = true
  /\ result secured_D1 (DisableLockScreen quiet "D1") (boot (NewProcessingStats 1))
     = false
  /\ commands (trace (after secured_D1 (DisableLockScreen quiet "D1")
                        (boot (NewProcessingStats 1))))
     = [ "adb -s D1 shell locksettings clear";
         "adb -s D1 shell locksettings set-disabled true";
         "adb -s D1 shell settings put secure lockscreen.disabled 1";
         "adb -s D1 shell settings put system lockscreen_disabled 1";
         "adb -s D1 shell settings put global device_provisioned 1";
         "adb -s D1 shell settings put secure user_setup_complete 1" ].
Proof.
  split; [ | repeat split; vm_compute; reflexivity ].
  intros a d w m; split.
  - apply DisableLockScreen_result.
  - apply ran_commands, DisableLockScreen_ran.
Qed.

(** The loop inside [DisableLockscreenOnDeviceAsync]: the strategies run in
    their order, none runs after one has succeeded, and the loop leaves with
    [success] set exactly when one of them succeeded. *)
Lemma run_cascade_loop a d w m :
  let c11 := fullCommandOf "shell locksettings clear" d in
  let c12 := fullCommandOf "shell locksettings set-disabled true" d in
  let c2 := fullCommandOf "shell settings put secure lockscreen.disabled 1" d in
  let c3 := fullCommandOf "shell settings put system lockscreen_disabled 1" d in
  let c41 := fullCommandOf "shell settings put global device_provisioned 1" d in
  let c42 := fullCommandOf "shell settings put secure user_setup_complete 1" d in
  let n := clock m in
  let s1 := succeeded (w (1 + n) c12) in
  let s2 := succeeded (w (2 + n) c2) in
  let s3 := succeeded (w (3 + n) c3) in
  let s4 := succeeded (w (4 + n) c41) || succeeded (w (5 + n) c42) in
  result w (cascade_loop (methods a) d) m = s1 || (s2 || (s3 || s4))
  /\ ran m (after w (cascade_loop (methods a) d) m)
       (if s1 then [c11; c12]
        else if s2 then [c11; c12; c2]
        else if s3 then [c11; c12; c2; c3]
        else [c11; c12; c2; c3; c41; c42]).
Proof.
  cbv zeta; unfold result, after, methods; cbn [cascade_loop].
  rewrite run_seq.
  destruct (run_method1 a d w m) as [R1 F1]; cbv zeta in R1, F1.
  pose proof (ran_clock F1) as K1; cbn [length Nat.add] in K1.
  rewrite R1; cbn [Nat.add].
  destruct (succeeded (w (S (clock m)) _)); [ split; [ reflexivity | exact F1 ] | ].
  rewrite run_sleep_seq, run_seq.
  set (m1 := record [EvSleep 1] (after w (disableLockscreenMethod1 a d) m)).
  assert (G1 : ran m m1 [fullCommandOf "shell locksettings clear" d;
                         fullCommandOf "shell locksettings set-disabled true" d]).
  { eapply ran_step; [ exact F1 | apply ran_record; reflexivity | reflexivity ]. }
  assert (C1 : clock m1 = S (S (clock m))) by exact K1.
  destruct (run_method2 a d w m1) as [R2 F2]; cbv zeta in R2, F2.
  pose proof (ran_clock F2) as K2; cbn [length Nat.add] in K2.
  rewrite R2, C1 in *; cbn [orb].
  destruct (succeeded (w (S (S (clock m))) _)).
  { split; [ reflexivity | eapply ran_step; [ exact G1 | exact F2 | reflexivity ] ]. }
  rewrite run_sleep_seq, run_seq.
  set (m2 := record [EvSleep 1] (after w (disableLockscreenMethod2 a d) m1)).
  assert (G2 : ran m m2 [fullCommandOf "shell locksettings clear" d;
                         fullCommandOf "shell locksettings set-disabled true" d;
                         fullCommandOf "shell settings put secure lockscreen.disabled 1" d]).
  { eapply ran_step; [ exact G1 | | reflexivity ].
    eapply ran_step; [ exact F2 | apply ran_record; reflexivity | reflexivity ]. }
  assert (C2 : clock m2 = S (S (S (clock m)))) by exact K2.
  destruct (run_method3 a d w m2) as [R3 F3]; cbv zeta in R3, F3.
  pose proof (ran_clock F3) as K3; cbn [length Nat.add] in K3.
  rewrite R3, C2 in *; cbn [orb].
  destruct (succeeded (w (S (S (S (clock m)))) _)).
  { split; [ reflexivity | eapply ran_step; [ exact G2 | exact F3 | reflexivity ] ]. }
  rewrite run_sleep_seq, run_seq.
  set (m3 := record [EvSleep 1] (after w (disableLockscreenMethod3 a d) m2)).
  assert (G3 : ran m m3 [fullCommandOf "shell locksettings clear" d;
                         fullCommandOf "shell locksettings set-disabled true" d;
                         fullCommandOf "shell settings put secure lockscreen.disabled 1" d;
                         fullCommandOf "shell settings put system lockscreen_disabled 1" d]).
  { eapply ran_step; [ exact G2 | | reflexivity ].
    eapply ran_step; [ exact F3 | apply ran_record; reflexivity | reflexivity ]. }
  assert (C3 : clock m3 = S (S (S (S (clock m))))) by exact K3.
  destruct (run_method4 a d w m3) as [R4 F4]; cbv zeta in R4, F4.
  rewrite R4, C3 in *; cbn [orb].
  assert (G4 : ran m (after w (disableLockscreenMethod4 a d) m3)
                 [fullCommandOf "shell locksettings clear" d;
                  fullCommandOf "shell locksettings set-disabled true" d;
                  fullCommandOf "shell settings put secure lockscreen.disabled 1" d;
                  fullCommandOf "shell settings put system lockscreen_disabled 1" d;
                  fullCommandOf "shell settings put global device_provisioned 1" d;
                  fullCommandOf "shell settings put secure user_setup_complete 1" d]).
  { eapply ran_step; [ exact G3 | exact F4 | reflexivity ]. }
  destruct (_ || _).
  - split; [ reflexivity | exact G4 ].
  - rewrite run_sleep_seq; cbn [run fst snd]; split; [ reflexivity | ].
    eapply ran_step; [ exact G4 | apply ran_record; reflexivity | reflexivity ].
Qed.

(** ** C8: the readiness wait is bounded *)

Lemma append_inj_l (s x y : string) : s ++ x = s ++ y -> x = y.
Proof. induction s; simpl; intro H; [ assumption | injection H; auto ]. Qed.

Lemma fullCommandOf_inj c c' d : fullCommandOf c d = fullCommandOf c' d -> c = c'.
Proof.
  unfold fullCommandOf; destruct (negb (d =? "")); intro H.
  - apply append_inj_l in H; apply append_inj_l in H; apply append_inj_l in H.
    exact H.
  - apply append_inj_l in H; exact H.
Qed.

Lemma wrap64_le z : (0 <= z)%Z -> (wrap64 z <= z)%Z.
Proof.
  intro H; unfold wrap64.
  assert (((z + 2 ^ 63) mod 2 ^ 64 <= z + 2 ^ 63)%Z) by (apply Z.mod_le; lia).
  lia.
Qed.

Lemma wrap64_max z : (wrap64 z <= max_int)%Z.
Proof.
  unfold wrap64, max_int.
  assert ((0 <= (z + 2 ^ 63) mod 2 ^ 64 < 2 ^ 64)%Z) by (apply Z.mod_pos_bound; lia).
  lia.
Qed.

Lemma wait_loop_run a d mw M w :
  (M <= max_int)%Z ->
  forall fuel attempt m,
    (0 <= attempt)%Z -> (Z.to_nat (M - attempt) < fuel)%nat ->
    exists cs,
      ran m (after w (wait_loop a d mw M fuel attempt) m) cs
      /\ (polls d cs <= Z.to_nat (M - attempt))%nat
      /\ ((forall n, succeeded (w n (fullCommandOf "get-state" d))
                     && succeeded (w (S n) (fullCommandOf "shell echo 'test'" d)) = false) ->
          result w (wait_loop a d mw M fuel attempt) m = false
          /\ polls d cs = Z.to_nat (M - attempt)).
Proof.
  intro HM; induction fuel as [| fuel IH]; intros attempt m Ha Hfuel; [ lia | ].
  unfold result, after, polls in *; cbn [wait_loop].
  destruct (attempt <? M)%Z eqn:Hlt.
  - apply Z.ltb_lt in Hlt.
    assert (Hw : wrap64 (attempt + 1) = (attempt + 1)%Z)
      by (apply wrap64_small; unfold max_int in *; lia).
    assert (Hk : Z.to_nat (M - attempt) = S (Z.to_nat (M - (attempt + 1)))) by lia.
    rewrite Hw, Hk.
    assert (Hne : fullCommandOf "shell echo 'test'" d <> fullCommandOf "get-state" d)
      by (intro E; apply fullCommandOf_inj in E; discriminate).
    unfold succeeded in *.
    run_steps; answer w; destruct b.
    + run_steps; answer w; destruct b.
      * run_steps; cbn [run fst snd].
        exists [fullCommandOf "get-state" d; fullCommandOf "shell echo 'test'" d].
        split; [ footprint | ].
        rewrite count_occ_cons_eq, count_occ_cons_neq by auto; simpl.
        split; [ lia | ].
        intro Hnever; specialize (Hnever (clock m)).
        rewrite Heqp, Heqp0 in Hnever; discriminate.
      * destruct (Z.rem (attempt + 1) 6 =? 0)%Z; run_steps;
          match goal with
          | |- context [run w (wait_loop a d mw M fuel ?att) ?M'] =>
              destruct (IH att M') as (cs' & F & Hle & Hnever'); [ lia | lia | ]
          end;
          (exists ([fullCommandOf "get-state" d;
                    fullCommandOf "shell echo 'test'" d] ++ cs')%list);
          (split; [ eapply ran_step; [ | exact F | reflexivity ]; footprint | ]);
          cbn [app]; rewrite count_occ_cons_eq, count_occ_cons_neq by auto;
          (split; [ lia | ]);
          intro Hnever; destruct (Hnever' Hnever) as [-> ->]; auto.
    + destruct (Z.rem (attempt + 1) 6 =? 0)%Z; run_steps;
        match goal with
        | |- context [run w (wait_loop a d mw M fuel ?att) ?M'] =>
            destruct (IH att M') as (cs' & F & Hle & Hnever'); [ lia | lia | ]
        end;
        (exists ([fullCommandOf "get-state" d] ++ cs')%list);
        (split; [ eapply ran_step; [ | exact F | reflexivity ]; footprint | ]);
        cbn [app]; rewrite count_occ_cons_eq by auto;
        (split; [ lia | ]);
        intro Hnever; destruct (Hnever' Hnever) as [-> ->]; auto.
  - apply Z.ltb_ge in Hlt.
    run_steps; cbn [run fst snd].
    exists []; split; [ footprint | ].
    replace (Z.to_nat (M - attempt)) with 0%nat by lia.
    simpl; auto.
Qed.
(** C8.  [WaitForDeviceReady] called with a non-negative number of minutes
    polls the device at most [maxWaitMinutes * 12] times (at most 12 times for
    one minute), whatever the device answers; when the device never becomes
    responsive it uses up its attempts and returns false as its result. *)
Theorem WaitForDeviceReady_gives_up a d minutes w m :
  (0 <= minutes)%Z ->
  let m' := after w (WaitForDeviceReady a d minutes) m in
  let polled := polls d (commands (since m (trace m'))) in
  (Z.of_nat polled <= minutes * 12)%Z
  /\ (minutes = 1%Z -> (polled <= 12)%nat)
  /\ ((forall n, succeeded (w n (fullCommandOf "get-state" d))
                 && succeeded (w (S n) (fullCommandOf "shell echo 'test'" d)) = false) ->
      result w (WaitForDeviceReady a d minutes) m = false
      /\ ((minutes * 12 <= max_int)%Z -> Z.of_nat polled = (minutes * 12)%Z)).
Proof.
  intros Hmin; cbv zeta; unfold result, after, WaitForDeviceReady.
  rewrite run_log_seq; cbv zeta.
  set (M := wrap64 (minutes * 12)).
  set (m1 := record _ m).
  destruct (@wait_loop_run a d minutes M w (wrap64_max _) (S (Z.to_nat M)) 0%Z m1)
    as (cs & F & Hle & Hnever); [ lia | rewrite Z.sub_0_r; lia | ].
  rewrite Z.sub_0_r in *.
  assert (G : ran m (after w (wait_loop a d minutes M (S (Z.to_nat M)) 0) m1) cs).
  { eapply ran_step; [ apply ran_log | exact F | reflexivity ]. }
  unfold after in G; rewrite (ran_commands G).
  assert (HM : (M <= minutes * 12)%Z) by (apply wrap64_le; lia).
  split; [ lia | split ].
  - intros ->; change M with 12%Z in Hle; simpl in Hle; exact Hle.
  - intro Hn; destruct (Hnever Hn) as [Hres Hcount]; split; [ exact Hres | ].
    intro Hsmall; rewrite Hcount.
    unfold M; rewrite wrap64_small by (unfold max_int in *; lia); lia.
Qed.

Lemma WaitForDeviceReady_gives_up_witness :
  (0 <= 1)%Z
  /\ result unreachable (WaitForDeviceReady quiet "D1" 1) (boot (NewProcessingStats 1))
     = false
  /\ polls "D1"
       (commands (trace (after unreachable (WaitForDeviceReady quiet "D1" 1)
                           (boot (NewProcessingStats 1)))))
     = 12%nat.
Proof.
  split; [ lia | ].
  split; [ | vm_compute; reflexivity ].
  apply (proj2 (proj2 (@WaitForDeviceReady_gives_up quiet "D1" 1 unreachable
                         (boot (NewProcessingStats 1)) ltac:(lia)))).
  intro n; reflexivity.
Defined.
(** ** C5 and C10: the device directory *)

Lemma Split_nonempty s sep : Split s sep <> [].
Proof.
  induction s as [| c s IH]; simpl; [ discriminate | ].
  destruct (Ascii.eqb c sep); [ discriminate | ].
  destruct (Split s sep); [ contradiction | discriminate ].
Qed.

Lemma scan_devices_rest lines acc :
  scan_devices lines false acc
  = (acc ++ map serial_of (filter ready_line (map TrimSpace lines)))%list.
Proof.
  revert acc; induction lines as [| text rest IH]; intro acc;
    cbn [scan_devices map filter].
  - rewrite app_nil_r; reflexivity.
  - change (negb (TrimSpace text =? "") && Contains (TrimSpace text) (TAB ++ "device"))
      with (ready_line (TrimSpace text)).
    destruct (ready_line (TrimSpace text)).
    + destruct (Split (TrimSpace text) (ascii_of_nat 9)) as [| p ps] eqn:E.
      * exfalso; exact (Split_nonempty _ _ E).
      * replace (0 <? len (p :: ps))%Z with true
          by (symmetry; apply Z.ltb_lt; unfold len; simpl; lia).
        rewrite IH; cbn [map hd]; unfold serial_of at 2; rewrite E; cbn [hd].
        rewrite <- app_assoc; reflexivity.
    + apply IH.
Qed.

Lemma scan_devices_listed output :
  scan_devices (ScanLines output) true [] = listed_online output.
Proof.
  unfold listed_online; destruct (ScanLines output) as [| header rest]; simpl.
  - reflexivity.
  - apply scan_devices_rest.
Qed.

Lemma make_deviceMap_from l : forall m0 t,
  fold_left (fun m device => map_set m device true) l m0 t = member t l || m0 t.
Proof.
  induction l as [| x l IH]; intros m0 t; simpl; [ reflexivity | ].
  rewrite IH; unfold map_set.
  destruct (t =? x); simpl; [ apply orb_true_r | reflexivity ].
Qed.

Lemma make_deviceMap_member l t : make_deviceMap l t = member t l.
Proof. unfold make_deviceMap; rewrite make_deviceMap_from; apply orb_false_r. Qed.

Lemma run_filter_targets w a deviceMap targets : forall devices m,
  run w (filter_targets a targets deviceMap devices) m
  = ((devices ++ filter deviceMap targets)%list,
     record (target_warnings a deviceMap targets) m).
Proof.
  induction targets as [| t rest IH]; intros devices m; simpl.
  - rewrite app_nil_r; unfold record; rewrite app_nil_r; destruct m; reflexivity.
  - destruct (deviceMap t); simpl.
    + rewrite IH, <- app_assoc; reflexivity.
    + rewrite run_log_seq, IH; unfold record; simpl.
      rewrite <- app_assoc; reflexivity.
Qed.

Lemma warnings_app t1 t2 : warnings (t1 ++ t2) = (warnings t1 ++ warnings t2)%list.
Proof. unfold warnings; rewrite printed_app, filter_app; reflexivity. Qed.

Lemma printed_log_events_quiet a message emoji :
  enableLogging a = false -> log_events a message emoji = [].
Proof. unfold log_events; intros ->; reflexivity. Qed.

Lemma prefix_append s x : String.prefix s (s ++ x) = true.
Proof.
  induction s as [| c s IH]; simpl; [ destruct x; reflexivity | ].
  destruct (ascii_dec c c); [ exact IH | contradiction ].
Qed.

Lemma is_warning_line t : is_warning (warning_line t) = true.
Proof.
  unfold is_warning.
  change (warning_line t)
    with ("⚠️ Warning: Device " ++ ((t ++ " not found in connected devices") ++ LF)).
  apply prefix_append.
Qed.

Lemma log_events_warning a t :
  enableLogging a = true ->
  log_events a ("Warning: Device " ++ t ++ " not found in connected devices") "⚠️"
  = [EvPrint (warning_line t)].
Proof. unfold log_events; intros ->; reflexivity. Qed.

Lemma target_warnings_logged a deviceMap targets :
  enableLogging a = true ->
  warnings (target_warnings a deviceMap targets)
  = map warning_line (filter (fun t => negb (deviceMap t)) targets).
Proof.
  intro Hlog; unfold target_warnings.
  induction targets as [| t rest IH]; cbn [flat_map filter]; [ reflexivity | ].
  destruct (deviceMap t); cbn [negb app map]; [ exact IH | ].
  rewrite warnings_app, IH, log_events_warning by assumption.
  unfold warnings; cbn [printed filter]; rewrite is_warning_line; reflexivity.
Qed.

Lemma target_warnings_quiet a deviceMap targets :
  enableLogging a = false -> target_warnings a deviceMap targets = [].
Proof.
  intro Hlog; unfold target_warnings.
  induction targets as [| t rest IH]; cbn [flat_map]; [ reflexivity | ].
  rewrite IH; destruct (deviceMap t); [ reflexivity | ].
  rewrite printed_log_events_quiet by assumption; reflexivity.
Qed.

Lemma warnings_log_other a message emoji :
  emoji = "📱" \/ emoji = "❌" \/ emoji = "🎯" \/ emoji = "ℹ️" ->
  warnings (log_events a message emoji) = [].
Proof.
  intros [-> | [-> | [-> | ->]]]; unfold log_events;
    destruct (negb (enableLogging a)); reflexivity.
Qed.

Lemma run_GetConnectedDevices a w m :
  let r := w (clock m) "adb devices" in
  let online := listed_online (output_of r) in
  let F := targetDevices a in
  let devices :=
    if (0 <? len F)%Z then filter (fun t => member t online) F else online in
  let new := since m (trace (after w (GetConnectedDevices a) m)) in
  succeeded r = true ->
  result w (GetConnectedDevices a) m
  = (devices, mkDisabler devices F (enableLogging a))
  /\ warnings new
     = (if (0 <? len F)%Z
        then warnings (target_warnings a (fun t => member t online) F)
        else [])
  /\ (enableLogging a = false -> printed new = []).
Proof.
  cbv zeta; unfold succeeded, output_of, result, after, GetConnectedDevices.
  change (fullCommandOf "devices" "") with "adb devices".
  intro Hok; run_steps.
  change (fullCommandOf "devices" "") with "adb devices".
  destruct (command_result (w (clock m) "adb devices")) as [[ok out] err].
  cbn [fst snd] in *; subst ok; cbn [negb]; cbv iota.
  rewrite scan_devices_listed.
  set (online := listed_online out).
  set (F := targetDevices a).
  assert (Hfilter : filter (make_deviceMap online) F
                    = filter (fun t => member t online) F)
    by (apply filter_ext; intro t; apply make_deviceMap_member).
  assert (Hwarn : target_warnings a (make_deviceMap online) F
                  = target_warnings a (fun t => member t online) F).
  { unfold target_warnings; apply flat_map_ext; intro t.
    rewrite make_deviceMap_member; reflexivity. }
  assert (Hexec : forall c r, warnings [EvExec c r] = []) by reflexivity.
  assert (Hexec' : forall c r, printed [EvExec c r] = []) by reflexivity.
  rewrite run_seq; unfold result, after.
  destruct (0 <? len F)%Z.
  - run_steps; rewrite run_filter_targets; cbn [fst snd app].
    rewrite Hfilter, Hwarn.
    set (devices := filter _ F).
    destruct (0 <? len devices)%Z; run_steps; cbn [run fst snd].
    all: split; [ reflexivity | ].
    all: cbn [trace record spawned]; rewrite <- !app_assoc, since_app.
    all: split;
      [ rewrite !warnings_app, Hexec, !warnings_log_other by auto;
        cbn [app]; rewrite ?app_nil_r; reflexivity
      | intro Hlog;
        rewrite !printed_app, Hexec', target_warnings_quiet,
          !printed_log_events_quiet by assumption;
        reflexivity ].
  - cbn [run fst snd].
    destruct (0 <? len online)%Z; run_steps; cbn [run fst snd].
    all: split; [ reflexivity | ].
    all: cbn [trace record spawned]; rewrite <- !app_assoc, since_app.
    all: split;
      [ rewrite !warnings_app, Hexec, !warnings_log_other by auto; reflexivity
      | intro Hlog;
        rewrite !printed_app, Hexec', !printed_log_events_quiet by assumption;
        reflexivity ].
Qed.
(** C5, as amended.  When the listing command succeeds, [GetConnectedDevices]
    with a non-empty filter returns exactly the filter's entries that are
    online, in the filter's order and with their repetitions, and, when
    logging is enabled, prints one warning per filter entry that is not
    online, in the filter's order; with logging disabled it prints nothing.
    With an empty filter it returns the online devices in listing order: the
    header line is skipped, and so is every line not marked as ready. *)
Theorem GetConnectedDevices_filters a w m :
  succeeded (w (clock m) "adb devices") = true ->
  let online := listed_online (output_of (w (clock m) "adb devices")) in
  let F := targetDevices a in
  let devices := fst (result w (GetConnectedDevices a) m) in
  let new := since m (trace (after w (GetConnectedDevices a) m)) in
  (F <> [] -> devices = filter (fun t => member t online) F)
  /\ (F <> [] -> enableLogging a = true ->
      warnings new = map warning_line (filter (fun t => negb (member t online)) F))
  /\ (F = [] -> devices = online)
  /\ (enableLogging a = false -> printed new = []).
Proof.
  intro Hok; cbv zeta.
  destruct (run_GetConnectedDevices a w m Hok) as (Hres & Hwarn & Hquiet).
  rewrite Hres, Hwarn; cbn [fst].
  assert (Hlen : forall l : list string, l <> [] -> (0 <? len l)%Z = true).
  { intros [| x l] Hl; [ contradiction | ].
    apply Z.ltb_lt; unfold len; simpl; lia. }
  repeat split.
  - intro HF; rewrite (Hlen _ HF); reflexivity.
  - intros HF Hlog; rewrite (Hlen _ HF).
    apply target_warnings_logged, Hlog.
  - intros ->; reflexivity.
  - exact Hquiet.
Qed.

Lemma GetConnectedDevices_filters_witness :
  succeeded (two_online 0 "adb devices") = true
  /\ fst (result two_online (GetConnectedDevices (NewAndroidLockScreenDisabler ["D1"; "D3"]))
            (boot (NewProcessingStats 0)))
     = ["D1"]
  /\ warnings (trace (after two_online
                        (GetConnectedDevices (NewAndroidLockScreenDisabler ["D1"; "D3"]))
                        (boot (NewProcessingStats 0))))
     = [warning_line "D3"].
Proof.
  split; [ reflexivity | ].
  pose proof (@GetConnectedDevices_filters (NewAndroidLockScreenDisabler ["D1"; "D3"])
                two_online (boot (NewProcessingStats 0)) eq_refl) as H.
  cbv zeta in H; destruct H as (H1 & H2 & _).
  split.
  - rewrite H1 by discriminate; vm_compute; reflexivity.
  - change (trace (after two_online
                     (GetConnectedDevices (NewAndroidLockScreenDisabler ["D1"; "D3"]))
                     (boot (NewProcessingStats 0))))
      with (since (boot (NewProcessingStats 0))
              (trace (after two_online
                        (GetConnectedDevices (NewAndroidLockScreenDisabler ["D1"; "D3"]))
                        (boot (NewProcessingStats 0))))).
    rewrite H2 by (discriminate || reflexivity); vm_compute; reflexivity.
Defined.

(** With logging switched off, as [SetLogging(false)] does, the absent entry
    D3 of the filter draws no warning: the directory's contract as worded
    does not hold there. *)
Lemma GetConnectedDevices_silent_when_logging_disabled :
  fst (result two_online
         (GetConnectedDevices (SetLogging (NewAndroidLockScreenDisabler ["D1"; "D3"]) false))
         (boot (NewProcessingStats 0)))
  = ["D1"]
  /\ filter (fun t => negb (member t (listed_online (output_of (two_online 0 "adb devices")))))
       ["D1"; "D3"]
     = ["D3"]
  /\ printed (trace (after two_online
                       (GetConnectedDevices
                          (SetLogging (NewAndroidLockScreenDisabler ["D1"; "D3"]) false))
                       (boot (NewProcessingStats 0))))
     = []
  /\ ~ directory_contract (SetLogging (NewAndroidLockScreenDisabler ["D1"; "D3"]) false)
         two_online (boot (NewProcessingStats 0)).
Proof.
  repeat split; try (vm_compute; reflexivity).
  intros [H _].
  destruct H as [_ H]; [ discriminate | ].
  vm_compute in H; discriminate.
Qed.
Lemma count_occ_filter_kept (p : string -> bool) (l : list string) (d : string) :
  p d = true -> count_occ string_dec (filter p l) d = count_occ string_dec l d.
Proof.
  intro Hp; induction l as [| x l IH]; simpl; [ reflexivity | ].
  destruct (string_dec x d) as [-> | Hne].
  - rewrite Hp; simpl; destruct (string_dec d d); [ | contradiction ].
    rewrite IH; reflexivity.
  - destruct (p x); simpl; [ | exact IH ].
    destruct (string_dec x d); [ contradiction | exact IH ].
Qed.

(** C10.  The filter is not deduplicated: when the listing succeeds, an
    online identifier that occurs k times in the target list occurs k times
    in the list [GetConnectedDevices] returns; and [ProcessDevices] starts one
    orchestration per element of the list it is given, so it counts and
    orchestrates such a device k times. *)
Theorem GetConnectedDevices_keeps_repetitions a w m d :
  succeeded (w (clock m) "adb devices") = true ->
  member d (listed_online (output_of (w (clock m) "adb devices"))) = true ->
  In d (targetDevices a) ->
  let devices := fst (result w (GetConnectedDevices a) m) in
  count_occ string_dec devices d = count_occ string_dec (targetDevices a) d
  /\ (forall a', tl (goroutines a' devices) = map (DisableLockscreenOnDeviceAsync a') devices)
  /\ (forall a' sched w' m' s f t m'',
        (len devices <= max_int)%Z ->
        ProcessDevices a' devices sched w' m' = Some ((s, f, t), m'') ->
        (Z.of_nat (count_occ string_dec (targetDevices a) d) <= t)%Z).
Proof.
  intros Hok Hon Hin; cbv zeta.
  destruct (run_GetConnectedDevices a w m Hok) as (Hres & _); cbv zeta in Hres.
  rewrite Hres; cbn [fst].
  assert (Hlen : (0 <? len (targetDevices a))%Z = true).
  { destruct (targetDevices a); [ contradiction | ].
    apply Z.ltb_lt; unfold len; simpl; lia. }
  rewrite Hlen.
  assert (Hcount : count_occ string_dec
                     (filter (fun t => member t (listed_online
                                (output_of (w (clock m) "adb devices"))))
                        (targetDevices a)) d
                   = count_occ string_dec (targetDevices a) d)
    by (apply count_occ_filter_kept; exact Hon).
  split; [ exact Hcount | split; [ reflexivity | ] ].
  intros a' sched w' m' s f t m'' Hmax Hrun.
  destruct (ProcessDevices_totals _ _ _ _ _ Hmax Hrun) as [-> _].
  rewrite <- Hcount; unfold len.
  apply inj_le, count_occ_bound.
Qed.

Lemma GetConnectedDevices_keeps_repetitions_witness :
  succeeded (two_online 0 "adb devices") = true
  /\ member "D1" (listed_online (output_of (two_online 0 "adb devices"))) = true
  /\ In "D1" ["D1"; "D3"; "D1"]
  /\ fst (result two_online
            (GetConnectedDevices (SetLogging (NewAndroidLockScreenDisabler ["D1"; "D3"; "D1"]) false))
            (boot (NewProcessingStats 0)))
     = ["D1"; "D1"]
  /\ count_occ string_dec
       (fst (result two_online
               (GetConnectedDevices
                  (SetLogging (NewAndroidLockScreenDisabler ["D1"; "D3"; "D1"]) false))
               (boot (NewProcessingStats 0))))
       "D1"
     = count_occ string_dec ["D1"; "D3"; "D1"] "D1".
Proof.
  split; [ reflexivity | ].
  split; [ reflexivity | ].
  split; [ simpl; auto | ].
  split; [ vm_compute; reflexivity | ].
  apply (proj1 (@GetConnectedDevices_keeps_repetitions
                  (SetLogging (NewAndroidLockScreenDisabler ["D1"; "D3"; "D1"]) false)
                  two_online (boot (NewProcessingStats 0)) "D1"
                  eq_refl eq_refl (or_introl eq_refl))).
Defined.
(** ** C4 and C7: the lock inspection *)

Ltac branch w :=
  match goal with
  | |- context [run w (if ?b then _ else _) _] => destruct b eqn:?
  | |- context [run w (bind (if ?b then _ else _) _) _] => destruct b eqn:?
  end.

(** Evaluates [Contains] on two literals. *)
Ltac eval_contains :=
  repeat match goal with
         | |- context [Contains ?s ?t] =>
             let b := eval vm_compute in (Contains s t) in
             lazymatch b with
             | true => change (Contains s t) with true
             | false => change (Contains s t) with false
             end
         end;
  cbn [andb orb negb].

Lemma runs_to_result w {A} (p : Prog A) m x cs :
  runs_to w p m x cs -> result w p m = x /\ ran m (after w p m) cs.
Proof. intros (m' & E & R); unfold result, after; rewrite E; auto. Qed.

Ltac leaf := run_steps; cbn [run]; eexists; split; [ reflexivity | footprint ].

Lemma run_CheckExistingLockScreen_flagged a d w m :
  let n := clock m in
  let r1 := w n (fullCommandOf "shell dumpsys trust" d) in
  let r2 := w (S n) (fullCommandOf "shell locksettings get-disabled" d) in
  let r3 := w (S (S n)) (fullCommandOf "shell dumpsys activity services KeyguardService" d) in
  let r4 := w (S (S (S n))) (fullCommandOf "shell settings get secure lock_pattern_enabled" d) in
  let r5 := w (S (S (S (S n)))) (fullCommandOf "shell settings get secure lockscreen.password_type" d) in
  let r7 := w (S (S (S (S (S (S n)))))) (fullCommandOf "shell dumpsys device_policy" d) in
  trust_secure r1 = false ->
  reports_disabled r2 = true ->
  runs_to w (CheckExistingLockScreen a d) m
    (if keyguard_secure r3
     then (true, "Device has keyguard enabled (detected via KeyguardService)")
     else if setting_read r4 && String.eqb (output_of r4) "1"
     then (true, "Device has lock pattern enabled")
     else if setting_read r5 && negb (String.eqb (output_of r5) "0")
     then (true, "Device has password type configured (type: " ++ output_of r5 ++ ")")
     else if policy_enforced r7
     then (true, "Device has admin-enforced password policy")
     else (false, "No lock screen detected"))
    (if keyguard_secure r3 then firstn 3 (inspection_commands d)
     else if setting_read r4 && String.eqb (output_of r4) "1"
     then firstn 4 (inspection_commands d)
     else if setting_read r5 && negb (String.eqb (output_of r5) "0")
     then firstn 5 (inspection_commands d)
     else inspection_commands d).
Proof.
  cbv zeta.
  unfold trust_secure, reports_disabled, keyguard_secure, setting_read, policy_enforced,
    succeeded, output_of, runs_to, CheckExistingLockScreen, lockMethods,
    inspection_commands.
  cbn [check_lockMethods firstn].
  run_steps; answer w; cbn [fst snd]; branch w; [ intros; discriminate | ].
  run_steps; answer w; cbn [fst snd].
  match goal with
  | |- context [Contains (ToLower ?s) "true"] =>
      destruct b0; destruct (Contains (ToLower s) "true");
      cbn [andb negb]; try (intros; discriminate)
  end.
  cbv iota; intros _ _.
  run_steps; answer w; cbn [fst snd]; branch w; [ leaf | ].
  run_steps; eval_contains; answer w; cbn [fst snd andb]; branch w; cbn [andb];
    [ branch w; [ leaf | ] | ].
  all: cbv iota.
  all: run_steps; eval_contains; cbv iota; answer w; cbn [fst snd andb]; branch w;
    cbn [andb]; [ branch w; [ leaf | ] | ].
  all: cbv iota.
  all: run_steps; eval_contains; cbv iota; answer w; cbn [fst snd andb];
    rewrite ?andb_false_r; cbv iota.
  all: try branch w; cbv iota.
  all: run_steps; answer w; cbn [fst snd]; branch w; leaf.
Qed.
(** C4, as amended.  When the trust-manager dump does not report a secure
    device and [locksettings get-disabled] succeeds with "true" in its output,
    [CheckExistingLockScreen] does not return at that heuristic: it goes on to
    consult the keyguard-service dump, the secure settings and the
    device-policy dump, and returns true as soon as one of them fires, in this
    order: the keyguard reported secure or enabled, [lock_pattern_enabled]
    read as 1, [lockscreen.password_type] read as something other than 0, a
    password policy in the device-policy dump.  The flag only keeps the raw
    [lockscreen.disabled] value from counting: the result does not depend on
    what that setting reads, and when none of the other heuristics fires it
    is (false, "No lock screen detected"), after all seven commands. *)
Theorem lock_settings_flag_suppresses_only_raw_check a d w m :
  let n := clock m in
  let r1 := w n (fullCommandOf "shell dumpsys trust" d) in
  let r2 := w (S n) (fullCommandOf "shell locksettings get-disabled" d) in
  let r3 := w (S (S n)) (fullCommandOf "shell dumpsys activity services KeyguardService" d) in
  let r4 := w (S (S (S n))) (fullCommandOf "shell settings get secure lock_pattern_enabled" d) in
  let r5 := w (S (S (S (S n)))) (fullCommandOf "shell settings get secure lockscreen.password_type" d) in
  let r7 := w (S (S (S (S (S (S n)))))) (fullCommandOf "shell dumpsys device_policy" d) in
  let pattern := setting_read r4 && String.eqb (output_of r4) "1" in
  let password := setting_read r5 && negb (String.eqb (output_of r5) "0") in
  let new := commands (since m (trace (after w (CheckExistingLockScreen a d) m))) in
  trust_secure r1 = false ->
  reports_disabled r2 = true ->
  In (fullCommandOf "shell dumpsys activity services KeyguardService" d) new
  /\ (keyguard_secure r3 = true ->
      result w (CheckExistingLockScreen a d) m
      = (true, "Device has keyguard enabled (detected via KeyguardService)"))
  /\ (keyguard_secure r3 = false ->
      pattern = false ->
      password = false ->
      policy_enforced r7 = false ->
      result w (CheckExistingLockScreen a d) m = (false, "No lock screen detected")
      /\ new = inspection_commands d)
  /\ (keyguard_secure r3 = false -> pattern = true ->
      result w (CheckExistingLockScreen a d) m = (true, "Device has lock pattern enabled")
      /\ new = firstn 4 (inspection_commands d))
  /\ (keyguard_secure r3 = false -> pattern = false -> password = true ->
      result w (CheckExistingLockScreen a d) m
      = (true, "Device has password type configured (type: " ++ output_of r5 ++ ")")
      /\ new = firstn 5 (inspection_commands d))
  /\ (keyguard_secure r3 = false -> pattern = false -> password = false ->
      policy_enforced r7 = true ->
      result w (CheckExistingLockScreen a d) m
      = (true, "Device has admin-enforced password policy")
      /\ new = inspection_commands d)
  /\ (fst (result w (CheckExistingLockScreen a d) m)
      = keyguard_secure r3 || pattern || password || policy_enforced r7).
Proof.
  cbv zeta; intros H1 H2.
  destruct (runs_to_result (run_CheckExistingLockScreen_flagged a d w m H1 H2))
    as [Hres Hran].
  cbv zeta in Hres, Hran.
  rewrite Hres, (ran_commands Hran).
  split; [ | split; [ | split; [ | split; [ | split; [ | split ] ] ] ] ].
  - unfold inspection_commands.
    repeat match goal with |- context [if ?b then _ else _] => destruct b end;
      simpl; auto.
  - intros ->; reflexivity.
  - intros -> -> -> ->; split; reflexivity.
  - intros -> ->; split; reflexivity.
  - intros -> -> ->; split; reflexivity.
  - intros -> -> -> ->; split; reflexivity.
  - repeat match goal with |- context [if ?b then _ else _] => destruct b end;
      reflexivity.
Qed.

Lemma lock_settings_flag_suppresses_only_raw_check_witness :
  trust_secure (disabled_twice_D1 0 (fullCommandOf "shell dumpsys trust" "D1")) = false
  /\ reports_disabled
       (disabled_twice_D1 1 (fullCommandOf "shell locksettings get-disabled" "D1")) = true
  /\ output_of (disabled_twice_D1 5
                  (fullCommandOf "shell settings get secure lockscreen.disabled" "D1"))
     = "0"
  /\ result disabled_twice_D1 (CheckExistingLockScreen quiet "D1")
       (boot (NewProcessingStats 1))
     = (false, "No lock screen detected")
  /\ result pattern_enabled_D1 (CheckExistingLockScreen quiet "D1")
       (boot (NewProcessingStats 1))
     = (true, "Device has lock pattern enabled").
Proof.
  split; [ reflexivity | ].
  split; [ reflexivity | ].
  split; [ reflexivity | ].
  split.
  - apply (proj1 (proj2 (proj2 (@lock_settings_flag_suppresses_only_raw_check
                                   quiet "D1" disabled_twice_D1
                                   (boot (NewProcessingStats 1)) eq_refl eq_refl))));
      reflexivity.
  - apply (proj1 (proj2 (proj2 (proj2 (@lock_settings_flag_suppresses_only_raw_check
                                          quiet "D1" pattern_enabled_D1
                                          (boot (NewProcessingStats 1))
                                          eq_refl eq_refl)))));
      reflexivity.
Defined.

(** On D1 the lock is disabled through locksettings ([get-disabled] prints
    "true"), and yet the inspection goes on to the keyguard-service dump and
    reports a lock. *)
Lemma flagged_device_still_reported_locked :
  succeeded (keyguard_enabled_D1 1 (fullCommandOf "shell locksettings get-disabled" "D1"))
  = true
  /\ output_of (keyguard_enabled_D1 1 (fullCommandOf "shell locksettings get-disabled" "D1"))
     = "true"
  /\ result keyguard_enabled_D1 (CheckExistingLockScreen quiet "D1")
       (boot (NewProcessingStats 1))
     = (true, "Device has keyguard enabled (detected via KeyguardService)")
  /\ commands (trace (after keyguard_enabled_D1 (CheckExistingLockScreen quiet "D1")
                        (boot (NewProcessingStats 1))))
     = [ "adb -s D1 shell dumpsys trust";
         "adb -s D1 shell locksettings get-disabled";
         "adb -s D1 shell dumpsys activity services KeyguardService" ].
Proof. repeat split; vm_compute; reflexivity. Qed.
(** ** Which commands a program can spawn *)

Lemma Issues_bind {A B} (P : string -> Prop) (p : Prog A) (f : A -> Prog B) :
  Issues P p -> (forall x, Issues P (f x)) -> Issues P (bind p f).
Proof. intros Hp Hf; induction Hp; simpl; try constructor; auto. Qed.

Lemma Issues_weaken {A} (P Q : string -> Prop) (p : Prog A) :
  (forall c, P c -> Q c) -> Issues P p -> Issues Q p.
Proof. intros HPQ Hp; induction Hp; constructor; auto. Qed.

Lemma log_issues P a message emoji : Issues P (log a message emoji).
Proof. unfold log, printf; destruct (negb _); repeat constructor. Qed.

Lemma runADBCommand_issues (P : string -> Prop) a command d :
  P (fullCommandOf command d) -> Issues P (runADBCommand a command d).
Proof. intro H; unfold runADBCommand, exec; simpl; repeat constructor; exact H. Qed.

Lemma sleep_issues P n : Issues P (sleep n).
Proof. repeat constructor. Qed.

Lemma stat_issues P op : Issues P (stat op).
Proof. repeat constructor. Qed.

Create HintDb issues.
#[local] Hint Resolve log_issues sleep_issues stat_issues : issues.
#[local] Hint Constructors Issues : issues.

Ltac in_list := simpl; repeat first [ left; reflexivity | right ].

Ltac issues_step :=
  match goal with
  | |- Issues _ (runADBCommand _ _ _) => apply runADBCommand_issues; in_list
  | |- Issues _ _ => solve [ auto with issues ]
  | |- Issues _ (bind _ _) => apply Issues_bind; [ | intros ]
  | |- Issues _ (match ?x with (_, _) => _ end) => destruct x
  | |- Issues _ (if ?b then _ else _) => destruct b
  | |- Issues _ (match ?x with Some _ => _ | None => _ end) => destruct x
  | |- Issues _ (Ret _) => constructor
  end.

Ltac issues := cbv zeta; repeat issues_step.

Lemma advanced_refl P m : advanced P m m.
Proof. exists []; rewrite app_nil_r; repeat split; constructor. Qed.

Lemma advanced_trans P m1 m2 m3 :
  advanced P m1 m2 -> advanced P m2 m3 -> advanced P m1 m3.
Proof.
  intros (e1 & T1 & F1 & U1 & S1) (e2 & T2 & F2 & U2 & S2).
  exists (e1 ++ e2)%list; repeat split.
  - rewrite T2, T1, app_assoc; reflexivity.
  - rewrite commands_app; apply Forall_app; auto.
  - unfold stat_updates in *; rewrite filter_app, length_app; lia.
  - congruence.
Qed.

Lemma advanced_weaken (P Q : string -> Prop) m m' :
  (forall c, P c -> Q c) -> advanced P m m' -> advanced Q m m'.
Proof.
  intros HPQ (e & T & F & U & S); exists e; repeat split; auto.
  eapply Forall_impl; eauto.
Qed.

Lemma advanced_record P evs m :
  commands evs = [] -> stat_updates evs = 0%nat -> advanced P m (record evs m).
Proof. intros H U; exists evs; simpl; rewrite H; repeat split; auto. Qed.

Lemma advanced_log P a message emoji m :
  advanced P m (record (log_events a message emoji) m).
Proof.
  apply advanced_record; unfold log_events; destruct (negb _); reflexivity.
Qed.

Lemma run_advanced (w : World) {A} (P : string -> Prop) (p : Prog A) :
  Issues P p -> StatOps 0 p -> forall m, advanced P m (after w p m).
Proof.
  unfold after.
  induction p as [x | c k IH | s k IH | t k IH | op k IH]; intros Hi Hs m; simpl.
  - apply advanced_refl.
  - inversion Hi; subst; inversion Hs; subst.
    eapply advanced_trans; [ | apply IH; auto ].
    exists [EvExec c (w (clock m) c)]; simpl; repeat split; auto.
  - inversion Hi; subst; inversion Hs; subst.
    eapply advanced_trans; [ | apply IH; auto ].
    apply (@advanced_record P [EvPrint s] m); reflexivity.
  - inversion Hi; subst; inversion Hs; subst.
    eapply advanced_trans; [ | apply IH; auto ].
    apply (@advanced_record P [EvSleep t] m); reflexivity.
  - inversion Hs.
Qed.
Lemma GetDeviceInfo_issues a d :
  Issues (fun c => In c (info_commands d)) (GetDeviceInfo a d).
Proof. unfold GetDeviceInfo, info_commands; issues. Qed.

Lemma CheckDevicePermissions_issues a d :
  Issues (fun c => In c (permission_commands d)) (CheckDevicePermissions a d).
Proof. unfold CheckDevicePermissions, permission_commands; issues. Qed.

Lemma CheckExistingLockScreen_issues a d :
  Issues (fun c => In c (inspection_commands d)) (CheckExistingLockScreen a d).
Proof.
  unfold CheckExistingLockScreen, inspection_commands, lockMethods.
  cbn [check_lockMethods]; issues.
Qed.

Lemma cascade_loop_issues a d :
  Issues (fun c => In c (concat (strategy_commands d))) (cascade_loop (methods a) d).
Proof.
  unfold methods, strategy_commands; cbn [cascade_loop concat app].
  unfold disableLockscreenMethod1, disableLockscreenMethod2, disableLockscreenMethod3,
    disableLockscreenMethod4, method4_commands; cbn [method4_loop]; issues.
Qed.

Lemma RebootDevice_issues a d :
  Issues (fun c => In c (readiness_commands d)) (RebootDevice a d).
Proof. unfold RebootDevice, readiness_commands; issues. Qed.

Lemma wait_loop_issues a d mw M fuel attempt :
  Issues (fun c => In c (readiness_commands d)) (wait_loop a d mw M fuel attempt).
Proof.
  revert attempt; induction fuel as [| fuel IH]; intro attempt;
    cbn [wait_loop]; unfold readiness_commands; issues; apply IH.
Qed.

Lemma WaitForDeviceReady_issues a d mw :
  Issues (fun c => In c (readiness_commands d)) (WaitForDeviceReady a d mw).
Proof.
  unfold WaitForDeviceReady; cbv zeta.
  apply Issues_bind; [ apply log_issues | intros; apply wait_loop_issues ].
Qed.

Lemma CheckLockScreenStatus_issues a d :
  Issues (fun c => In c (validation_commands d)) (CheckLockScreenStatus a d).
Proof. unfold CheckLockScreenStatus, validation_commands; issues. Qed.

#[local] Hint Resolve CheckLockScreenStatus_issues : issues.

Lemma ValidateLockScreenRemoval_issues a d :
  Issues (fun c => In c (validation_commands d)) (ValidateLockScreenRemoval a d).
Proof. unfold ValidateLockScreenRemoval; issues. Qed.
(** ** C7: nothing to do when no lock is present *)

Lemma In_firstn {A} (x : A) k l : In x (firstn k l) -> In x l.
Proof.
  revert l; induction k as [| k IH]; intros [| y l]; simpl; try tauto.
  intros [-> | H]; auto.
Qed.

(** None of the commands of the information, permission and inspection steps
    is a command of a remediation strategy, nor the reboot command. *)
Lemma inspection_is_not_remediation d c :
  In c (info_commands d ++ permission_commands d ++ inspection_commands d) ->
  ~ In c (concat (strategy_commands d)) /\ c <> fullCommandOf "reboot" d.
Proof.
  intro Hin; split.
  - intro Hs; simpl in Hin, Hs.
    repeat match goal with
           | H : _ \/ _ |- _ => destruct H
           | H : False |- _ => contradiction
           end; subst;
      match goal with
      | H : fullCommandOf _ d = fullCommandOf _ d |- _ =>
          apply fullCommandOf_inj in H; discriminate
      end.
  - intros ->; simpl in Hin.
    repeat match goal with
           | H : _ \/ _ |- _ => destruct H
           | H : False |- _ => contradiction
           end;
      match goal with
      | H : fullCommandOf _ d = fullCommandOf _ d |- _ =>
          apply fullCommandOf_inj in H; discriminate
      end.
Qed.

Lemma before_inspection_advanced a d w m :
  advanced (fun c => In c (info_commands d ++ permission_commands d ++ inspection_commands d))
    m (after w (before_inspection a d) m).
Proof.
  apply run_advanced.
  - unfold before_inspection; cbv zeta.
    apply Issues_bind; [ apply log_issues | intros _ ].
    apply Issues_bind; [ | intros info ].
    { eapply Issues_weaken; [ | apply GetDeviceInfo_issues ].
      intros c Hc; apply in_or_app; auto. }
    apply Issues_bind; [ apply log_issues | intros _ ].
    eapply Issues_weaken; [ | apply CheckDevicePermissions_issues ].
    intros c Hc; apply in_or_app; right; apply in_or_app; auto.
  - unfold before_inspection; statops.
Qed.

Lemma CheckExistingLockScreen_advanced a d w m :
  advanced (fun c => In c (info_commands d ++ permission_commands d ++ inspection_commands d))
    m (after w (CheckExistingLockScreen a d) m).
Proof.
  apply run_advanced; [ | apply CheckExistingLockScreen_quiet ].
  eapply Issues_weaken; [ | apply CheckExistingLockScreen_issues ].
  intros c Hc; apply in_or_app; right; apply in_or_app; auto.
Qed.

Lemma filter_is_stat_log_events a message emoji :
  filter is_stat (log_events a message emoji) = [].
Proof. unfold log_events; destruct (negb _); reflexivity. Qed.

Lemma advanced_since P m m' :
  advanced P m m' ->
  Forall P (commands (since m (trace m')))
  /\ filter is_stat (since m (trace m')) = []
  /\ stats m' = stats m
  /\ trace m' = (trace m ++ since m (trace m'))%list.
Proof.
  intros (evs & T & F & U & S); rewrite T, since_app; repeat split; auto.
  unfold stat_updates in U; destruct (filter is_stat evs); [ reflexivity | discriminate ].
Qed.

(** C7.  When the permission check has passed and the lock inspection
    reports no lock, the orchestration ends at once as a success: after the
    inspection it only logs and performs one [IncrementSuccess], which is its
    only statistics update; and none of the commands it has spawned is a
    command of a remediation strategy or the reboot command. *)
Theorem no_lock_is_success_without_remediation a d w m :
  let m1 := after w (before_inspection a d) m in
  let m2 := after w (CheckExistingLockScreen a d) m1 in
  let m' := after w (DisableLockscreenOnDeviceAsync a d) m in
  result w (before_inspection a d) m = true ->
  fst (result w (CheckExistingLockScreen a d) m1) = false ->
  stats m' = IncrementSuccess (stats m)
  /\ commands (since m2 (trace m')) = []
  /\ filter is_stat (since m (trace m')) = [EvStat OpIncrementSuccess]
  /\ Forall (fun c => ~ In c (concat (strategy_commands d))
                      /\ c <> fullCommandOf "reboot" d)
       (commands (since m (trace m'))).
Proof.
  cbv zeta; intros Hperm Hlock.
  pose proof (before_inspection_advanced a d w m) as A1.
  pose proof (CheckExistingLockScreen_advanced a d w (after w (before_inspection a d) m))
    as A2.
  pose proof (advanced_trans A1 A2) as A12.
  destruct (advanced_since A12) as (F12 & U12 & S12 & T12).
  set (m2 := after w (CheckExistingLockScreen a d) (after w (before_inspection a d) m))
    in *.
  assert (Hrun : after w (DisableLockscreenOnDeviceAsync a d) m
                 = mkMachine (clock m2)
                     (trace m2
                      ++ (log_events a (("[" ++ d ++ "]") ++ " No lock screen detected on device. Skipping lock screen disable process.") "ℹ️"
                          ++ log_events a (("[" ++ d ++ "]") ++ " Device is already unlocked or has no lock configured") "✅"
                          ++ [EvStat OpIncrementSuccess]))
                     (IncrementSuccess (stats m2))).
  { subst m2; revert Hperm Hlock.
    unfold result, after, before_inspection, DisableLockscreenOnDeviceAsync; cbv zeta.
    match goal with
    | |- context [bind (CheckDevicePermissions a d) ?f] => set (REST := f)
    end.
    rewrite !run_log_seq, !(run_bind w (GetDeviceInfo a d)).
    destruct (run w (GetDeviceInfo a d) _) as [info mi].
    rewrite !run_log_seq, (run_bind w (CheckDevicePermissions a d)).
    destruct (run w (CheckDevicePermissions a d) _) as [perm mp]; cbn [fst snd].
    intros -> Hlock; subst REST; cbn [negb]; cbv iota beta.
    rewrite (run_bind w (CheckExistingLockScreen a d)).
    destruct (run w (CheckExistingLockScreen a d) mp) as [[hasLock lockType] ml].
    cbn [fst snd] in *; subst hasLock; cbn [negb]; cbv iota.
    rewrite !run_log_seq; unfold stat; cbn [run snd record trace clock stats apply_op].
    rewrite <- !app_assoc; reflexivity. }
  rewrite Hrun; cbn [stats trace].
  rewrite S12; split; [ reflexivity | ].
  split; [ | split ].
  - rewrite since_app, !commands_app, !commands_log_events; reflexivity.
  - rewrite T12, <- app_assoc, since_app, !filter_app, U12,
      !filter_is_stat_log_events; reflexivity.
  - rewrite T12, <- app_assoc, since_app, !commands_app, !commands_log_events.
    cbn [commands app]; rewrite app_nil_r.
    eapply Forall_impl; [ | exact F12 ].
    intros c Hc; apply inspection_is_not_remediation, Hc.
Qed.
Lemma no_lock_is_success_without_remediation_witness :
  result disabled_twice_D1 (before_inspection quiet "D1") (boot (NewProcessingStats 1))
  = true
  /\ fst (result disabled_twice_D1 (CheckExistingLockScreen quiet "D1")
            (after disabled_twice_D1 (before_inspection quiet "D1")
               (boot (NewProcessingStats 1))))
     = false
  /\ stats (after disabled_twice_D1 (DisableLockscreenOnDeviceAsync quiet "D1")
              (boot (NewProcessingStats 1)))
     = IncrementSuccess (NewProcessingStats 1).
Proof.
  split; [ vm_compute; reflexivity | ].
  split; [ vm_compute; reflexivity | ].
  apply (@no_lock_is_success_without_remediation quiet "D1" disabled_twice_D1
           (boot (NewProcessingStats 1))); vm_compute; reflexivity.
Defined.

(** ** C2: what validation decides, and what the orchestrator records *)

Lemma advanced_phase (L big : list string) {A} (p : Prog A) :
  Issues (fun c => In c L) p -> StatOps 0 p -> incl L big ->
  forall w m, advanced (fun c => In c big) m (after w p m).
Proof.
  intros Hi Hs Hincl w m; apply run_advanced; [ | exact Hs ].
  eapply Issues_weaken; [ | exact Hi ]; exact Hincl.
Qed.

Lemma exit_outcome (P : string -> Prop) w a message emoji op m M :
  advanced P m M ->
  let m' := after w (log a message emoji ;; stat op) M in
  stats m' = apply_op op (stats m)
  /\ filter is_stat (since m (trace m')) = [EvStat op]
  /\ Forall P (commands (since m (trace m'))).
Proof.
  intros Acc; cbv zeta; unfold after; rewrite run_log_seq; unfold stat.
  cbn [run snd record trace clock stats].
  destruct (advanced_since Acc) as (F & U & S & T).
  rewrite S; split; [ reflexivity | ].
  rewrite T, <- !app_assoc, since_app, !filter_app, U, filter_is_stat_log_events,
    !commands_app, commands_log_events.
  split; [ reflexivity | ].
  cbn [commands app]; rewrite app_nil_r; exact F.
Qed.

Lemma incl_pre_validation d :
  incl (info_commands d) (pre_validation_commands d)
  /\ incl (permission_commands d) (pre_validation_commands d)
  /\ incl (inspection_commands d) (pre_validation_commands d)
  /\ incl (concat (strategy_commands d)) (pre_validation_commands d)
  /\ incl (readiness_commands d) (pre_validation_commands d).
Proof.
  unfold pre_validation_commands; repeat split; intros c Hc;
    repeat (apply in_or_app; first [ left; exact Hc | right ]); exact Hc.
Qed.
(** Runs the next phase [p] of the orchestration, whose footprint is [H],
    and extends the accumulated footprint [Acc]. *)
Ltac next_phase w p H Acc :=
  rewrite (run_bind w p);
  match goal with
  | |- context [run w p ?M] =>
      let A := fresh "A" in
      pose proof (H w M) as A; unfold after in A;
      pose proof (advanced_trans Acc A) as Acc';
      clear A; clear Acc; rename Acc' into Acc;
      revert Acc; destruct (run w p M) as [? ?]; cbn [fst snd]; intro Acc
  end.

Ltac next_log Acc :=
  rewrite run_log_seq;
  match goal with
  | |- context [record (log_events ?a ?msg ?e) ?M] =>
      pose proof (advanced_trans Acc (advanced_log _ a msg e M)) as Acc';
      clear Acc; rename Acc' into Acc;
      revert Acc; generalize (record (log_events a msg e) M); intros ? Acc
  end.

Ltac next_sleep Acc :=
  rewrite run_sleep_seq;
  match goal with
  | |- context [record [EvSleep ?n] ?M] =>
      pose proof (advanced_trans Acc
                    (@advanced_record _ [EvSleep n] M eq_refl eq_refl)) as Acc';
      clear Acc; rename Acc' into Acc;
      revert Acc; generalize (record [EvSleep n] M); intros ? Acc
  end.

Ltac exit_success Acc :=
  match goal with
  | |- context [run ?w (bind (log ?a ?msg ?e) (fun _ => stat ?op)) ?M] =>
      let S := fresh "S" in
      let U := fresh "U" in
      destruct (exit_outcome w a msg e op Acc) as (S & U & _);
      left; split; assumption
  end.

Lemma orchestration_outcome_from a d w m M :
  advanced (fun c => In c (pre_validation_commands d)) m M ->
  let m' := snd (run w (DisableLockscreenOnDeviceAsync a d) M) in
  (stats m' = IncrementSuccess (stats m)
   /\ filter is_stat (since m (trace m')) = [EvStat OpIncrementSuccess])
  \/ (stats m' = AddFailedDevice d (stats m)
      /\ filter is_stat (since m (trace m')) = [EvStat (OpAddFailedDevice d)]
      /\ Forall (fun c => In c (pre_validation_commands d))
           (commands (since m (trace m')))).
Proof.
  intro Acc; cbv zeta.
  destruct (incl_pre_validation d) as (I1 & I2 & I3 & I4 & I5).
  pose proof (fun w m => advanced_phase (GetDeviceInfo_issues a d)
                           (GetDeviceInfo_quiet a d) I1 w m) as P1.
  pose proof (fun w m => advanced_phase (CheckDevicePermissions_issues a d)
                           (CheckDevicePermissions_quiet a d) I2 w m) as P2.
  pose proof (fun w m => advanced_phase (CheckExistingLockScreen_issues a d)
                           (CheckExistingLockScreen_quiet a d) I3 w m) as P3.
  pose proof (fun w m => advanced_phase (cascade_loop_issues a d)
                           (cascade_methods_quiet a d) I4 w m) as P4.
  pose proof (fun w m => advanced_phase (RebootDevice_issues a d)
                           (RebootDevice_quiet a d) I5 w m) as P5.
  pose proof (fun w m => advanced_phase (WaitForDeviceReady_issues a d 5)
                           (WaitForDeviceReady_quiet a d 5) I5 w m) as P6.
  assert (P7 : forall w m, advanced (fun _ : string => True) m
                             (after w (ValidateLockScreenRemoval a d) m)).
  { intros w0 m0; apply run_advanced; [ | apply ValidateLockScreenRemoval_quiet ].
    eapply Issues_weaken; [ | apply ValidateLockScreenRemoval_issues ]; auto. }
  unfold DisableLockscreenOnDeviceAsync; cbv zeta.
  next_log Acc.
  next_phase w (GetDeviceInfo a d) P1 Acc.
  next_log Acc.
  next_phase w (CheckDevicePermissions a d) P2 Acc.
  destruct b; cbn [negb]; [ | right; exact (exit_outcome w a _ _ _ Acc) ].
  next_phase w (CheckExistingLockScreen a d) P3 Acc.
  destruct p as [hasLock lockType]; destruct hasLock; cbn [negb].
  2: { next_log Acc; exit_success Acc. }
  next_log Acc; next_log Acc.
  next_phase w (cascade_loop (methods a) d) P4 Acc.
  destruct b; cbn [negb]; [ | right; exact (exit_outcome w a _ _ _ Acc) ].
  next_sleep Acc; next_log Acc.
  next_phase w (RebootDevice a d) P5 Acc.
  destruct b; cbn [negb].
  2: { exit_success Acc. }
  next_log Acc.
  next_phase w (WaitForDeviceReady a d 5) P6 Acc.
  destruct b; cbn [negb]; [ | right; exact (exit_outcome w a _ _ _ Acc) ].
  apply (@advanced_weaken _ (fun _ : string => True)) in Acc; [ | auto ].
  next_phase w (ValidateLockScreenRemoval a d) P7 Acc.
  destruct b; exit_success Acc.
Qed.
Lemma wake_up_not_before_validation d :
  ~ In (fullCommandOf "shell input keyevent KEYCODE_WAKEUP" d) (pre_validation_commands d).
Proof.
  unfold pre_validation_commands; simpl; intro H.
  repeat match goal with
         | H : _ \/ _ |- _ => destruct H
         | H : False |- _ => contradiction
         end;
    match goal with
    | H : fullCommandOf _ d = fullCommandOf _ d |- _ =>
        apply fullCommandOf_inj in H; discriminate
    end.
Qed.

Lemma run_sleep w n m : run w (sleep n) m = (tt, record [EvSleep n] m).
Proof. reflexivity. Qed.

Lemma run_ValidateLockScreenRemoval a d w m :
  let m1 := after w (validation_prologue a d) m in
  let first := result w (CheckLockScreenStatus a d) m1 in
  let m2 := after w (CheckLockScreenStatus a d) m1 in
  forall e, snd first = Some e ->
  let m3 := after w (wake_up a d e) m2 in
  let second := result w (CheckLockScreenStatus a d) m3 in
  let m4 := after w (CheckLockScreenStatus a d) m3 in
  let m' := after w (ValidateLockScreenRemoval a d) m in
  commands (since m2 (trace m3))
  = [fullCommandOf "shell input keyevent KEYCODE_WAKEUP" d]
  /\ commands (since m4 (trace m')) = []
  /\ (forall e', snd second = Some e' ->
      result w (ValidateLockScreenRemoval a d) m = false)
  /\ (snd second = None ->
      result w (ValidateLockScreenRemoval a d) m = negb (fst second)).
Proof.
  cbv zeta; unfold result, after, ValidateLockScreenRemoval, validation_prologue, wake_up.
  rewrite !run_log_seq, !run_sleep_seq, !run_sleep.
  rewrite (run_bind w (CheckLockScreenStatus a d)).
  cbn [snd].
  match goal with
  | |- context [run w (CheckLockScreenStatus a d) ?M] => generalize M; intro m1
  end.
  destruct (run w (CheckLockScreenStatus a d) m1) as [[locked1 err1] m2]; cbn [fst snd].
  intros e ->.
  rewrite run_assoc, !run_log_seq, run_assoc, !run_command_seq, ?run_assoc,
    !run_sleep_seq, !run_sleep.
  cbn [snd].
  rewrite run_assoc, (run_bind w (CheckLockScreenStatus a d)).
  match goal with
  | |- context [run w (CheckLockScreenStatus a d) ?M] => set (m3 := M)
  end.
  split.
  { subst m3; cbn [trace record spawned]; rewrite <- !app_assoc, since_app.
    rewrite !commands_app, commands_log_events; reflexivity. }
  destruct (run w (CheckLockScreenStatus a d) m3) as [[locked2 err2] m4]; cbn [fst snd].
  destruct err2 as [e2 |].
  - rewrite run_assoc, run_log_seq; cbn [bind run fst snd trace record].
    rewrite since_app, commands_log_events.
    repeat split; auto; discriminate.
  - cbn [bind]; destruct locked2; cbn [negb]; rewrite run_log_seq;
      cbn [run fst snd trace record]; rewrite since_app, commands_log_events;
      repeat split; auto; discriminate.
Qed.
(** C2, as amended.  In the validation step, when the first lock-state check
    is indeterminate, exactly one wake input event is sent and the check is
    run once more, after which nothing further is spawned; when the recheck is
    indeterminate too, [ValidateLockScreenRemoval] returns false (otherwise it
    returns whether the recheck found the device unlocked).  The orchestrator
    records a success whatever the validation returned: every orchestration
    that sent the wake event ends with exactly one [IncrementSuccess], and
    the device is not added to the failed devices. *)
Theorem indeterminate_validation_is_recorded_as_success a d w :
  (forall m,
      let m1 := after w (validation_prologue a d) m in
      let first := result w (CheckLockScreenStatus a d) m1 in
      let m2 := after w (CheckLockScreenStatus a d) m1 in
      forall e, snd first = Some e ->
      let m3 := after w (wake_up a d e) m2 in
      let second := result w (CheckLockScreenStatus a d) m3 in
      let m4 := after w (CheckLockScreenStatus a d) m3 in
      let m' := after w (ValidateLockScreenRemoval a d) m in
      commands (since m2 (trace m3))
      = [fullCommandOf "shell input keyevent KEYCODE_WAKEUP" d]
      /\ commands (since m4 (trace m')) = []
      /\ (forall e', snd second = Some e' ->
          result w (ValidateLockScreenRemoval a d) m = false)
      /\ (snd second = None ->
          result w (ValidateLockScreenRemoval a d) m = negb (fst second)))
  /\ (forall m,
        let m' := after w (DisableLockscreenOnDeviceAsync a d) m in
        In (fullCommandOf "shell input keyevent KEYCODE_WAKEUP" d)
           (commands (since m (trace m'))) ->
        stats m' = IncrementSuccess (stats m)
        /\ filter is_stat (since m (trace m')) = [EvStat OpIncrementSuccess]).
Proof.
  split.
  - intro m; apply run_ValidateLockScreenRemoval.
  - intros m; cbv zeta; intro Hwake.
    destruct (@orchestration_outcome_from a d w m m (advanced_refl _ m))
      as [Hok | (_ & _ & Hfail)]; [ exact Hok | ].
    exfalso; apply (@wake_up_not_before_validation d).
    rewrite Forall_forall in Hfail; apply Hfail, Hwake.
Qed.

Lemma indeterminate_validation_is_recorded_as_success_witness :
  In (fullCommandOf "shell input keyevent KEYCODE_WAKEUP" "D1")
     (commands (since (boot (NewProcessingStats 1))
                  (trace (after secured_D1 (DisableLockscreenOnDeviceAsync quiet "D1")
                            (boot (NewProcessingStats 1))))))
  /\ stats (after secured_D1 (DisableLockscreenOnDeviceAsync quiet "D1")
              (boot (NewProcessingStats 1)))
     = IncrementSuccess (NewProcessingStats 1).
Proof.
  assert (H : In (fullCommandOf "shell input keyevent KEYCODE_WAKEUP" "D1")
                (commands (since (boot (NewProcessingStats 1))
                             (trace (after secured_D1
                                       (DisableLockscreenOnDeviceAsync quiet "D1")
                                       (boot (NewProcessingStats 1)))))))
    by (vm_compute; tauto).
  split; [ exact H | ].
  apply (proj2 (indeterminate_validation_is_recorded_as_success quiet "D1" secured_D1)
           (boot (NewProcessingStats 1)) H).
Defined.

(** On D1 both lock-state checks of the validation are indeterminate and the
    wake event is sent, yet the device ends among the successes and the list
    of failed devices stays empty. *)
Lemma indeterminate_validation_not_recorded_as_failed :
  result secured_D1 (CheckLockScreenStatus quiet "D1") (boot (NewProcessingStats 1))
  = (true, Some "unable to determine lock screen status definitively")
  /\ result secured_D1 (ValidateLockScreenRemoval quiet "D1") (boot (NewProcessingStats 1))
     = false
  /\ commands (trace (after secured_D1 (ValidateLockScreenRemoval quiet "D1")
                        (boot (NewProcessingStats 1))))
     = [ "adb -s D1 shell dumpsys window";
         "adb -s D1 shell dumpsys power";
         "adb -s D1 shell dumpsys activity activities";
         "adb -s D1 shell settings get secure lockscreen.disabled";
         "adb -s D1 shell locksettings get-disabled";
         "adb -s D1 shell input keyevent KEYCODE_WAKEUP";
         "adb -s D1 shell dumpsys window";
         "adb -s D1 shell dumpsys power";
         "adb -s D1 shell dumpsys activity activities";
         "adb -s D1 shell settings get secure lockscreen.disabled";
         "adb -s D1 shell locksettings get-disabled" ]
  /\ stats (after secured_D1 (DisableLockscreenOnDeviceAsync quiet "D1")
              (boot (NewProcessingStats 1)))
     = mkStats 1 [] 1
  /\ ~ In "D1" (failedDevices
                  (stats (after secured_D1 (DisableLockscreenOnDeviceAsync quiet "D1")
                            (boot (NewProcessingStats 1))))).
Proof.
  repeat split; try (vm_compute; reflexivity).
  vm_compute; tauto.
Qed.
(** * Further properties *)

(** ** The cascade inside the orchestrator *)

(** X1.  The loop over the strategies inside [DisableLockscreenOnDeviceAsync]
    tries them in their fixed order, spawns no command of a later strategy
    once one has succeeded, and leaves with [success] true exactly when one of
    the strategies it tried succeeded. *)
Theorem cascade_loop_short_circuits a d w m :
  let c11 := fullCommandOf "shell locksettings clear" d in
  let c12 := fullCommandOf "shell locksettings set-disabled true" d in
  let c2 := fullCommandOf "shell settings put secure lockscreen.disabled 1" d in
  let c3 := fullCommandOf "shell settings put system lockscreen_disabled 1" d in
  let c41 := fullCommandOf "shell settings put global device_provisioned 1" d in
  let c42 := fullCommandOf "shell settings put secure user_setup_complete 1" d in
  let n := clock m in
  let s1 := succeeded (w (1 + n) c12) in
  let s2 := succeeded (w (2 + n) c2) in
  let s3 := succeeded (w (3 + n) c3) in
  let s4 := succeeded (w (4 + n) c41) || succeeded (w (5 + n) c42) in
  result w (cascade_loop (methods a) d) m = s1 || (s2 || (s3 || s4))
  /\ commands (since m (trace (after w (cascade_loop (methods a) d) m)))
     = (if s1 then [c11; c12]
        else if s2 then [c11; c12; c2]
        else if s3 then [c11; c12; c2; c3]
        else [c11; c12; c2; c3; c41; c42]).
Proof.
  cbv zeta; destruct (run_cascade_loop a d w m) as [Hres Hran]; cbv zeta in Hres, Hran.
  split; [ exact Hres | exact (ran_commands Hran) ].
Qed.

(** ** How an orchestration ends *)

(** X2.  Every orchestration ends with exactly one statistics update, which
    is either [IncrementSuccess] or [AddFailedDevice] of its own device; and
    when it records a failure it has not started validating: every command it
    spawned belongs to the information, permission, inspection, remediation
    or reboot/readiness steps. *)
Theorem orchestration_records_own_device a d w m :
  let m' := after w (DisableLockscreenOnDeviceAsync a d) m in
  (stats m' = IncrementSuccess (stats m)
   /\ filter is_stat (since m (trace m')) = [EvStat OpIncrementSuccess])
  \/ (stats m' = AddFailedDevice d (stats m)
      /\ filter is_stat (since m (trace m')) = [EvStat (OpAddFailedDevice d)]
      /\ Forall (fun c => In c (pre_validation_commands d))
           (commands (since m (trace m')))).
Proof.
  exact (@orchestration_outcome_from a d w m m (advanced_refl _ m)).
Qed.
(** ** Which devices an orchestration talks to *)

Lemma run_issues (w : World) {A} (P : string -> Prop) (p : Prog A) :
  Issues P p -> forall m, Forall P (commands (since m (trace (after w p m)))).
Proof.
  unfold after; intro Hi.
  assert (G : forall m, exists evs, trace (snd (run w p m)) = (trace m ++ evs)%list
                                    /\ Forall P (commands evs)).
  { induction Hi as [x | c k Hc Hk IH | s k Hk IH | t k Hk IH | op k Hk IH];
      intro m; simpl.
    - exists []; rewrite app_nil_r; auto.
    - destruct (IH (w (clock m) c)
                  (mkMachine (S (clock m)) (trace m ++ [EvExec c (w (clock m) c)]) (stats m)))
        as (evs & T & F).
      exists (EvExec c (w (clock m) c) :: evs); split.
      + rewrite T; simpl; rewrite <- app_assoc; reflexivity.
      + simpl; constructor; assumption.
    - destruct (IH (mkMachine (clock m) (trace m ++ [EvPrint s]) (stats m)))
        as (evs & T & F).
      exists (EvPrint s :: evs); split; [ | exact F ].
      rewrite T; simpl; rewrite <- app_assoc; reflexivity.
    - destruct (IH (mkMachine (clock m) (trace m ++ [EvSleep t]) (stats m)))
        as (evs & T & F).
      exists (EvSleep t :: evs); split; [ | exact F ].
      rewrite T; simpl; rewrite <- app_assoc; reflexivity.
    - destruct (IH (mkMachine (clock m) (trace m ++ [EvStat op])
                      (apply_op op (stats m))))
        as (evs & T & F).
      exists (EvStat op :: evs); split; [ | exact F ].
      rewrite T; simpl; rewrite <- app_assoc; reflexivity. }
  intro m; destruct (G m) as (evs & T & F); rewrite T, since_app; exact F.
Qed.

Lemma Issues_incl (L big : list string) {A} (p : Prog A) :
  incl L big -> Issues (fun c => In c L) p -> Issues (fun c => In c big) p.
Proof. intros Hincl; apply Issues_weaken; exact Hincl. Qed.

Lemma orchestration_issues a d :
  Issues (fun c => In c (pre_validation_commands d ++ validation_commands d))
    (DisableLockscreenOnDeviceAsync a d).
Proof.
  destruct (incl_pre_validation d) as (I1 & I2 & I3 & I4 & I5).
  assert (J : forall L, incl L (pre_validation_commands d) ->
                        incl L (pre_validation_commands d ++ validation_commands d))
    by (intros L HL c Hc; apply in_or_app; left; apply HL, Hc).
  pose proof (Issues_incl (J _ I1) (GetDeviceInfo_issues a d)) as H1.
  pose proof (Issues_incl (J _ I2) (CheckDevicePermissions_issues a d)) as H2.
  pose proof (Issues_incl (J _ I3) (CheckExistingLockScreen_issues a d)) as H3.
  pose proof (Issues_incl (J _ I4) (cascade_loop_issues a d)) as H4.
  pose proof (Issues_incl (J _ I5) (RebootDevice_issues a d)) as H5.
  pose proof (Issues_incl (J _ I5) (WaitForDeviceReady_issues a d 5)) as H6.
  assert (H7 : Issues (fun c => In c (pre_validation_commands d ++ validation_commands d))
                 (ValidateLockScreenRemoval a d)).
  { eapply Issues_incl; [ | apply ValidateLockScreenRemoval_issues ].
    intros c Hc; apply in_or_app; right; exact Hc. }
  unfold DisableLockscreenOnDeviceAsync; cbv zeta.
  repeat first
    [ assumption
    | apply log_issues | apply sleep_issues | apply stat_issues
    | match goal with
      | |- Issues _ (match ?x with (_, _) => _ end) => destruct x
      | |- Issues _ (if ?b then _ else _) => destruct b
      end
    | apply Issues_bind; [ | intros ] ].
Qed.

Lemma known_commands_addressed d c :
  In c (pre_validation_commands d ++ validation_commands d) -> addressed_to d c.
Proof.
  unfold pre_validation_commands; simpl; intro H.
  repeat match goal with
         | H : _ \/ _ |- _ => destruct H
         | H : False |- _ => contradiction
         end; subst; eexists; reflexivity.
Qed.

(** X3.  Whatever the devices answer, every command an orchestration spawns
    is a bridge command addressed to its own device, taken from the fixed
    lists of its steps. *)
Theorem orchestration_talks_to_own_device a d w m :
  Forall (fun c => In c (pre_validation_commands d ++ validation_commands d)
                   /\ addressed_to d c)
    (commands (since m (trace (after w (DisableLockscreenOnDeviceAsync a d) m)))).
Proof.
  eapply Forall_impl; [ | apply run_issues, orchestration_issues ].
  intros c Hc; split; [ exact Hc | apply known_commands_addressed, Hc ].
Qed.
(** ** Invariants of a pool of goroutines *)

Section PoolInvariant.

Variable w : World.
Variable Good : Prog unit -> Prop.
Variable R : Machine -> Machine -> Prop.
Hypothesis R_refl : forall m, R m m.
Hypothesis R_trans : forall m1 m2 m3, R m1 m2 -> R m2 m3 -> R m1 m3.
Hypothesis step_good :
  forall p m, Good p -> Good (fst (step w p m)) /\ R m (snd (step w p m)).

Lemma Forall_set_nth i (p : Prog unit) pool :
  Forall Good pool -> Good p -> Forall Good (set_nth i p pool).
Proof.
  intros H Hp; revert i; induction H; intros [| i]; simpl; auto.
Qed.

Lemma Forall_nth_error i (p : Prog unit) pool :
  Forall Good pool -> nth_error pool i = Some p -> Good p.
Proof.
  intros H; revert i; induction H; intros [| i]; simpl; try discriminate; eauto.
  intros [= ->]; assumption.
Qed.

Lemma run_schedule_good sched : forall pool m,
  Forall Good pool ->
  Forall Good (fst (run_schedule w sched pool m))
  /\ R m (snd (run_schedule w sched pool m)).
Proof.
  induction sched as [| i rest IH]; intros pool m Hpool; simpl; [ auto | ].
  destruct (nth_error pool i) as [p |] eqn:Hi; [ | auto ].
  destruct (step_good m (Forall_nth_error i Hpool Hi)) as [Hp Hm].
  destruct (step w p m) as [p' m1]; simpl in *.
  destruct (IH (set_nth i p' pool) m1 (Forall_set_nth i Hpool Hp)) as [H1 H2].
  split; [ exact H1 | eapply R_trans; eauto ].
Qed.

End PoolInvariant.

Lemma step_issues w (P : string -> Prop) (p : Prog unit) m :
  Issues P p ->
  Issues P (fst (step w p m))
  /\ exists evs, trace (snd (step w p m)) = (trace m ++ evs)%list
                 /\ Forall P (commands evs).
Proof.
  intros [x | c k Hc Hk | s k Hk | t k Hk | op k Hk]; simpl.
  - split; [ constructor | exists []; rewrite app_nil_r; auto ].
  - split; [ apply Hk | eexists; split; [ reflexivity | simpl; auto ] ].
  - split; [ exact Hk | eexists; split; [ reflexivity | simpl; auto ] ].
  - split; [ exact Hk | eexists; split; [ reflexivity | simpl; auto ] ].
  - split; [ exact Hk | eexists; split; [ reflexivity | simpl; auto ] ].
Qed.

Lemma run_schedule_issues w (P : string -> Prop) sched pool m :
  Forall (Issues P) pool ->
  exists evs, trace (snd (run_schedule w sched pool m)) = (trace m ++ evs)%list
              /\ Forall P (commands evs).
Proof.
  intro Hpool.
  apply (@run_schedule_good w (Issues P)
           (fun m m' => exists evs, trace m' = (trace m ++ evs)%list
                                    /\ Forall P (commands evs))).
  - intro m0; exists []; rewrite app_nil_r; auto.
  - intros m1 m2 m3 (e1 & T1 & F1) (e2 & T2 & F2).
    exists (e1 ++ e2)%list; split.
    + rewrite T2, T1, app_assoc; reflexivity.
    + rewrite commands_app; apply Forall_app; auto.
  - intros p m0 Hp; apply step_issues, Hp.
  - exact Hpool.
Qed.

Lemma ProcessDevices_events a devices sched w m r m' :
  ProcessDevices a devices sched w m = Some (r, m') ->
  exists evs,
    trace m' = (trace m ++ evs)%list
    /\ Forall (fun c => exists d, In d devices /\ addressed_to d c) (commands evs).
Proof.
  unfold ProcessDevices.
  destruct (len devices =? 0)%Z.
  - intros [= _ <-]; exists []; rewrite app_nil_r; split; [ reflexivity | constructor ].
  - rewrite !run_log_seq, run_log.
    set (m1 := record _ (record _ _)).
    assert (Hpool : Forall (Issues (fun c => exists d, In d devices /\ addressed_to d c))
                      (goroutines a devices)).
    { unfold goroutines; constructor; [ apply log_issues | ].
      apply Forall_forall; intros p Hp; apply in_map_iff in Hp as (d & <- & Hd).
      eapply Issues_weaken; [ | apply orchestration_issues ].
      intros c Hc; exists d; split; [ exact Hd | apply known_commands_addressed, Hc ]. }
    destruct (run_schedule_issues w sched m1 Hpool) as (evs & T & F).
    destruct (run_schedule w sched (goroutines a devices) m1) as [pool m2].
    simpl in T; destruct (forallb finished pool); [ | discriminate ].
    intros [= _ <-]; rewrite T; subst m1; cbn [trace record].
    eexists; split; [ rewrite <- !app_assoc; reflexivity | ].
    rewrite !commands_app, !commands_log_events; exact F.
Qed.

(** X4.  Whatever the interleaving and whatever the devices answer, every
    command spawned while [ProcessDevices] runs is addressed to one of the
    devices it was given. *)
Theorem ProcessDevices_talks_to_listed_devices a devices sched w m r m' :
  ProcessDevices a devices sched w m = Some (r, m') ->
  Forall (fun c => exists d, In d devices /\ addressed_to d c)
    (commands (since m (trace m'))).
Proof.
  intro H; destruct (ProcessDevices_events _ _ _ _ _ H) as (evs & T & F).
  rewrite T, since_app; exact F.
Qed.
(** ** Logging switched off *)

Lemma Silent_bind {A B} (p : Prog A) (f : A -> Prog B) :
  Silent p -> (forall x, Silent (f x)) -> Silent (bind p f).
Proof. intros Hp Hf; induction Hp; simpl; try constructor; auto. Qed.

Lemma run_silent (w : World) {A} (p : Prog A) :
  Silent p -> forall m, printed (trace (after w p m)) = printed (trace m).
Proof.
  unfold after; induction 1 as [x | c k Hk IH | t k Hk IH | op k Hk IH];
    intro m; simpl; auto; rewrite IH; simpl; rewrite printed_app; simpl;
    apply app_nil_r.
Qed.

Lemma step_silent w (p : Prog unit) m :
  Silent p ->
  Silent (fst (step w p m))
  /\ printed (trace (snd (step w p m))) = printed (trace m).
Proof.
  intros [x | c k Hk | t k Hk | op k Hk]; simpl;
    (split; [ first [ constructor | apply Hk | exact Hk ]
            | rewrite ?printed_app; simpl; rewrite ?app_nil_r; reflexivity ]).
Qed.

Section LoggingDisabled.

Variable a : AndroidLockScreenDisabler.
Hypothesis logging_off : enableLogging a = false.

Lemma log_silent message emoji : Silent (log a message emoji).
Proof. unfold log; rewrite logging_off; constructor. Qed.

Lemma runADBCommand_silent command d : Silent (runADBCommand a command d).
Proof. unfold runADBCommand, exec; simpl; repeat constructor. Qed.

Lemma sleep_silent n : Silent (sleep n).
Proof. repeat constructor. Qed.

Lemma stat_silent op : Silent (stat op).
Proof. repeat constructor. Qed.

Ltac silent_step :=
  first
    [ apply log_silent | apply runADBCommand_silent | apply sleep_silent
    | apply stat_silent | assumption
    | match goal with
      | |- Silent (Ret _) => constructor
      | |- Silent (match ?x with (_, _) => _ end) => destruct x
      | |- Silent (if ?b then _ else _) => destruct b
      | |- Silent (match ?x with Some _ => _ | None => _ end) => destruct x
      | |- Silent (bind _ _) => apply Silent_bind; [ | intros ]
      end ].

Ltac silent := cbv zeta; repeat silent_step.

Lemma GetDeviceInfo_silent d : Silent (GetDeviceInfo a d).
Proof. unfold GetDeviceInfo; silent. Qed.

Lemma CheckDevicePermissions_silent d : Silent (CheckDevicePermissions a d).
Proof. unfold CheckDevicePermissions; silent. Qed.

Lemma CheckExistingLockScreen_silent d : Silent (CheckExistingLockScreen a d).
Proof.
  unfold CheckExistingLockScreen, lockMethods; cbn [check_lockMethods]; silent.
Qed.

Lemma cascade_loop_silent d : Silent (cascade_loop (methods a) d).
Proof.
  unfold methods; cbn [cascade_loop].
  unfold disableLockscreenMethod1, disableLockscreenMethod2, disableLockscreenMethod3,
    disableLockscreenMethod4, method4_commands; cbn [method4_loop]; silent.
Qed.

Lemma RebootDevice_silent d : Silent (RebootDevice a d).
Proof. unfold RebootDevice; silent. Qed.

Lemma wait_loop_silent d mw M fuel attempt : Silent (wait_loop a d mw M fuel attempt).
Proof.
  revert attempt; induction fuel as [| fuel IH]; intro attempt; cbn [wait_loop];
    silent; apply IH.
Qed.

Lemma WaitForDeviceReady_silent d mw : Silent (WaitForDeviceReady a d mw).
Proof.
  unfold WaitForDeviceReady; cbv zeta.
  apply Silent_bind; [ apply log_silent | intros; apply wait_loop_silent ].
Qed.

Lemma CheckLockScreenStatus_silent d : Silent (CheckLockScreenStatus a d).
Proof. unfold CheckLockScreenStatus; silent. Qed.

Lemma ValidateLockScreenRemoval_silent d : Silent (ValidateLockScreenRemoval a d).
Proof.
  pose proof (CheckLockScreenStatus_silent d) as H.
  unfold ValidateLockScreenRemoval; silent.
Qed.

Lemma orchestration_silent d : Silent (DisableLockscreenOnDeviceAsync a d).
Proof.
  pose proof (GetDeviceInfo_silent d) as H1.
  pose proof (CheckDevicePermissions_silent d) as H2.
  pose proof (CheckExistingLockScreen_silent d) as H3.
  pose proof (cascade_loop_silent d) as H4.
  pose proof (RebootDevice_silent d) as H5.
  pose proof (WaitForDeviceReady_silent d 5) as H6.
  pose proof (ValidateLockScreenRemoval_silent d) as H7.
  unfold DisableLockscreenOnDeviceAsync; silent.
Qed.

Lemma ProcessDevices_silent devices sched w m r m' :
  ProcessDevices a devices sched w m = Some (r, m') ->
  printed (trace m') = printed (trace m).
Proof.
  unfold ProcessDevices.
  destruct (len devices =? 0)%Z; [ intros [= _ <-]; reflexivity | ].
  rewrite !run_log_seq, run_log.
  set (m1 := record _ (record _ _)).
  assert (H1 : printed (trace m1) = printed (trace m)).
  { subst m1; cbn [trace record]; unfold log_events; rewrite logging_off; simpl.
    rewrite !app_nil_r; reflexivity. }
  assert (Hpool : Forall Silent (goroutines a devices)).
  { unfold goroutines; constructor; [ apply log_silent | ].
    apply Forall_forall; intros p Hp; apply in_map_iff in Hp as (d & <- & Hd).
    apply orchestration_silent. }
  destruct (@run_schedule_good w Silent
              (fun m0 m0' => printed (trace m0') = printed (trace m0))
              (fun m0 => eq_refl)
              (fun m1 m2 m3 H12 H23 => eq_trans H23 H12)
              (fun p m0 Hp => step_silent w m0 Hp)
              sched (goroutines a devices) m1 Hpool) as [_ H2].
  destruct (run_schedule w sched (goroutines a devices) m1) as [pool m2].
  simpl in H2; destruct (forallb finished pool); [ | discriminate ].
  intros [= _ <-]; rewrite H2; exact H1.
Qed.

End LoggingDisabled.

(** X5.  After [SetLogging(false)] nothing is printed: neither by an
    orchestration, whatever the device answers, nor by [ProcessDevices],
    whatever the interleaving of its goroutines. *)
Theorem logging_disabled_prints_nothing a :
  enableLogging a = false ->
  (forall d w m,
      printed (trace (after w (DisableLockscreenOnDeviceAsync a d) m))
      = printed (trace m))
  /\ (forall devices sched w m r m',
        ProcessDevices a devices sched w m = Some (r, m') ->
        printed (trace m') = printed (trace m)).
Proof.
  intro Hoff; split.
  - intros d w m; apply run_silent, orchestration_silent, Hoff.
  - intros devices sched w m r m'; apply ProcessDevices_silent, Hoff.
Qed.

Lemma logging_disabled_prints_nothing_witness :
  enableLogging quiet = false
  /\ printed (trace (after secured_D1 (DisableLockscreenOnDeviceAsync quiet "D1")
                       (boot (NewProcessingStats 1))))
     = printed (trace (boot (NewProcessingStats 1))).
Proof.
  split; [ reflexivity | ].
  apply (proj1 (@logging_disabled_prints_nothing quiet eq_refl)).
Defined.
(** ** The readiness wait: when it reports ready, and how long it sleeps *)

Lemma slept_app t1 t2 : slept (t1 ++ t2) = (slept t1 + slept t2)%nat.
Proof.
  induction t1 as [| [ | | | ] t1 IH]; simpl; auto; rewrite IH; lia.
Qed.

Lemma slept_log_events a message emoji : slept (log_events a message emoji) = 0%nat.
Proof. unfold log_events; destruct (negb _); reflexivity. Qed.

Lemma wait_loop_budget a d mw M w :
  (M <= max_int)%Z ->
  forall fuel attempt m,
    (0 <= attempt)%Z -> (Z.to_nat (M - attempt) < fuel)%nat ->
    exists evs,
      trace (after w (wait_loop a d mw M fuel attempt) m) = (trace m ++ evs)%list
      /\ (slept evs <= 15 * polls d (commands evs))%nat
      /\ (result w (wait_loop a d mw M fuel attempt) m = true ->
          exists n, (clock m <= n)%nat
                    /\ succeeded (w n (fullCommandOf "get-state" d)) = true
                    /\ succeeded (w (S n) (fullCommandOf "shell echo 'test'" d)) = true)
      /\ ((forall n, succeeded (w n (fullCommandOf "get-state" d)) = false) ->
          slept evs = (5 * Z.to_nat (M - attempt))%nat
          /\ commands evs
             = repeat (fullCommandOf "get-state" d) (Z.to_nat (M - attempt))).
Proof.
  intro HM; induction fuel as [| fuel IH]; intros attempt m Ha Hfuel; [ lia | ].
  unfold result, after, polls, succeeded in *; cbn [wait_loop].
  destruct (attempt <? M)%Z eqn:Hlt.
  - apply Z.ltb_lt in Hlt.
    assert (Hw : wrap64 (attempt + 1) = (attempt + 1)%Z)
      by (apply wrap64_small; unfold max_int in *; lia).
    assert (Hk : Z.to_nat (M - attempt) = S (Z.to_nat (M - (attempt + 1)))) by lia.
    rewrite Hw, Hk.
    assert (Hne : fullCommandOf "shell echo 'test'" d <> fullCommandOf "get-state" d)
      by (intro E; apply fullCommandOf_inj in E; discriminate).
    run_steps; answer w; destruct b.
    + run_steps; answer w; destruct b.
      * run_steps; cbn [run fst snd trace record spawned].
        rewrite <- !app_assoc; eexists; split; [ reflexivity | ].
        rewrite !commands_app, !slept_app, !commands_log_events, !slept_log_events.
        cbn [commands slept app].
        rewrite count_occ_cons_eq, count_occ_cons_neq by auto; cbn [count_occ].
        split; [ lia | split ].
        -- intros _; exists (clock m); rewrite Heqp, Heqp0; auto.
        -- intro Hnever; specialize (Hnever (clock m)).
           rewrite Heqp in Hnever; discriminate.
      * destruct (Z.rem (attempt + 1) 6 =? 0)%Z; run_steps;
          match goal with
          | |- context [run w (wait_loop a d mw M fuel ?att) ?M'] =>
              destruct (IH att M') as (evs' & T & Hs & Hr & Hn); [ lia | lia | ]
          end;
          rewrite T; cbn [trace record spawned]; rewrite <- !app_assoc;
          (eexists; split; [ reflexivity | ]);
          rewrite !commands_app, !slept_app, ?commands_log_events, ?slept_log_events;
          cbn [commands slept app];
          rewrite count_occ_cons_eq, count_occ_cons_neq by auto;
          (split; [ lia | split ]);
          [ intro Ht; destruct (Hr Ht) as (n & Hle & Hg & He);
            exists n; cbn [clock record spawned] in Hle; repeat split; auto; lia
          | intro Hnever; specialize (Hnever (clock m));
            rewrite Heqp in Hnever; discriminate
          | intro Ht; destruct (Hr Ht) as (n & Hle & Hg & He);
            exists n; cbn [clock record spawned] in Hle; repeat split; auto; lia
          | intro Hnever; specialize (Hnever (clock m));
            rewrite Heqp in Hnever; discriminate ].
    + destruct (Z.rem (attempt + 1) 6 =? 0)%Z; run_steps;
        match goal with
        | |- context [run w (wait_loop a d mw M fuel ?att) ?M'] =>
            destruct (IH att M') as (evs' & T & Hs & Hr & Hn); [ lia | lia | ]
        end;
        rewrite T; cbn [trace record spawned]; rewrite <- !app_assoc;
        (eexists; split; [ reflexivity | ]);
        rewrite !commands_app, !slept_app, ?commands_log_events, ?slept_log_events;
        cbn [commands slept app];
        rewrite count_occ_cons_eq by auto;
        (split; [ lia | split ]);
        [ intro Ht; destruct (Hr Ht) as (n & Hle & Hg & He);
          exists n; cbn [clock record spawned] in Hle; repeat split; auto; lia
        | intro Hnever; destruct (Hn Hnever) as [E1 E2]; rewrite E1, E2;
          split; [ lia | reflexivity ]
        | intro Ht; destruct (Hr Ht) as (n & Hle & Hg & He);
          exists n; cbn [clock record spawned] in Hle; repeat split; auto; lia
        | intro Hnever; destruct (Hn Hnever) as [E1 E2]; rewrite E1, E2;
          split; [ lia | reflexivity ] ].
  - apply Z.ltb_ge in Hlt.
    run_steps; cbn [run fst snd trace record].
    eexists; split; [ reflexivity | ].
    rewrite commands_log_events, slept_log_events.
    replace (Z.to_nat (M - attempt)) with 0%nat by lia.
    simpl; repeat split; auto; discriminate.
Qed.
(** X6.  [WaitForDeviceReady] reports ready only after the device has
    answered: when it returns true, some poll's [get-state] succeeded and the
    [shell echo] spawned right after it succeeded too. *)
Theorem WaitForDeviceReady_true_after_answers a d minutes w m :
  result w (WaitForDeviceReady a d minutes) m = true ->
  exists n, (clock m <= n)%nat
            /\ succeeded (w n (fullCommandOf "get-state" d)) = true
            /\ succeeded (w (S n) (fullCommandOf "shell echo 'test'" d)) = true.
Proof.
  unfold result, WaitForDeviceReady; rewrite run_log_seq; cbv zeta.
  set (M := wrap64 (minutes * 12)); set (m1 := record _ m).
  destruct (@wait_loop_budget a d minutes M w (wrap64_max _) (S (Z.to_nat M)) 0%Z m1)
    as (evs & _ & _ & Hr & _); [ lia | rewrite Z.sub_0_r; lia | ].
  exact Hr.
Qed.

Lemma WaitForDeviceReady_true_after_answers_witness :
  result secured_D1 (WaitForDeviceReady quiet "D1" 5) (boot (NewProcessingStats 1)) = true
  /\ exists n, (0 <= n)%nat
               /\ succeeded (secured_D1 n (fullCommandOf "get-state" "D1")) = true
               /\ succeeded (secured_D1 (S n) (fullCommandOf "shell echo 'test'" "D1")) = true.
Proof.
  split; [ vm_compute; reflexivity | ].
  apply (@WaitForDeviceReady_true_after_answers quiet "D1" 5 secured_D1
           (boot (NewProcessingStats 1))).
  vm_compute; reflexivity.
Defined.

(** X7.  The minutes given to [WaitForDeviceReady] bound its polls, not its
    time: it sleeps at most 15 seconds per poll, hence at most
    [180 * maxWaitMinutes] seconds; when the device never shows up in
    [get-state] it sleeps exactly [60 * maxWaitMinutes] seconds, over
    [12 * maxWaitMinutes] polls that spawn nothing else. *)
Theorem WaitForDeviceReady_sleep_budget a d minutes w m :
  (0 <= minutes)%Z ->
  let new := since m (trace (after w (WaitForDeviceReady a d minutes) m)) in
  (slept new <= 15 * polls d (commands new))%nat
  /\ (Z.of_nat (slept new) <= 180 * minutes)%Z
  /\ ((forall n, succeeded (w n (fullCommandOf "get-state" d)) = false) ->
      (minutes * 12 <= max_int)%Z ->
      Z.of_nat (slept new) = (60 * minutes)%Z
      /\ commands new
         = repeat (fullCommandOf "get-state" d) (Z.to_nat (12 * minutes))).
Proof.
  intro Hmin; cbv zeta; unfold after, WaitForDeviceReady; rewrite run_log_seq; cbv zeta.
  set (M := wrap64 (minutes * 12)); set (m1 := record _ m).
  destruct (@wait_loop_run a d minutes M w (wrap64_max _) (S (Z.to_nat M)) 0%Z m1)
    as (cs & F & Hle & _); [ lia | rewrite Z.sub_0_r; lia | ].
  destruct (@wait_loop_budget a d minutes M w (wrap64_max _) (S (Z.to_nat M)) 0%Z m1)
    as (evs & T & Hs & _ & Hn); [ lia | rewrite Z.sub_0_r; lia | ].
  rewrite Z.sub_0_r in *.
  unfold after in *.
  destruct F as (evs0 & T0 & C0 & _).
  rewrite T in T0; apply app_inv_head in T0; subst evs0 cs.
  rewrite T.
  subst m1; cbn [trace record]; rewrite <- app_assoc, since_app.
  rewrite slept_app, commands_app, slept_log_events, commands_log_events; cbn [app Nat.add].
  assert (HM : (M <= minutes * 12)%Z) by (apply wrap64_le; lia).
  split; [ exact Hs | split; [ lia | ] ].
  intros Hnever Hsmall; destruct (Hn Hnever) as [E1 E2].
  assert (EM : M = (minutes * 12)%Z)
    by (unfold M; apply wrap64_small; unfold max_int in *; lia).
  rewrite E1, E2, EM; split; [ lia | f_equal; lia ].
Qed.

Lemma WaitForDeviceReady_sleep_budget_witness :
  (0 <= 1)%Z
  /\ slept (trace (after unreachable (WaitForDeviceReady quiet "D1" 1)
                     (boot (NewProcessingStats 1))))
     = 60%nat
  /\ slept (trace (after shell_down (WaitForDeviceReady quiet "D1" 1)
                     (boot (NewProcessingStats 1))))
     = 180%nat
  /\ (Z.of_nat (slept (since (boot (NewProcessingStats 1))
                         (trace (after shell_down (WaitForDeviceReady quiet "D1" 1)
                                   (boot (NewProcessingStats 1))))))
      <= 180 * 1)%Z.
Proof.
  split; [ lia | ].
  split; [ vm_compute; reflexivity | ].
  split; [ vm_compute; reflexivity | ].
  apply (proj1 (proj2 (@WaitForDeviceReady_sleep_budget quiet "D1" 1 shell_down
                         (boot (NewProcessingStats 1)) ltac:(lia)))).
Defined.
(** ** A reboot command that fails *)

Lemma answered_app t1 t2 : answered (t1 ++ t2) = (answered t1 ++ answered t2)%list.
Proof.
  induction t1 as [| [ | | | ] t1 IH]; simpl; auto; rewrite IH; reflexivity.
Qed.

Lemma answered_log_events a message emoji : answered (log_events a message emoji) = [].
Proof. unfold log_events; destruct (negb _); reflexivity. Qed.

Lemma answered_commands c r t : In (c, r) (answered t) -> In c (commands t).
Proof.
  induction t as [| [c' r' | | | ] t IH]; simpl; auto.
  intros [[= -> ->] | H]; auto.
Qed.

Lemma wait_loop_polls_only a d mw M fuel attempt :
  Issues (fun c => In c (polling_commands d)) (wait_loop a d mw M fuel attempt).
Proof.
  revert attempt; induction fuel as [| fuel IH]; intro attempt;
    cbn [wait_loop]; unfold polling_commands; issues; apply IH.
Qed.

Lemma WaitForDeviceReady_polls_only a d mw :
  Issues (fun c => In c (polling_commands d)) (WaitForDeviceReady a d mw).
Proof.
  unfold WaitForDeviceReady; cbv zeta.
  apply Issues_bind; [ apply log_issues | intros; apply wait_loop_polls_only ].
Qed.

Lemma reboot_not_elsewhere d :
  ~ In (fullCommandOf "reboot" d) (before_reboot_commands d)
  /\ ~ In (fullCommandOf "reboot" d) (after_reboot_commands d).
Proof.
  unfold before_reboot_commands, after_reboot_commands; split; simpl; intro H;
    repeat match goal with
           | H : _ \/ _ |- _ => destruct H
           | H : False |- _ => contradiction
           end;
    match goal with
    | H : fullCommandOf _ d = fullCommandOf _ d |- _ =>
        apply fullCommandOf_inj in H; discriminate
    end.
Qed.

Lemma run_RebootDevice a d w m :
  let r := w (clock m) (fullCommandOf "reboot" d) in
  run w (RebootDevice a d) m
  = (succeeded r,
     record (log_events a
               (if succeeded r then "Reboot command sent to device " ++ d
                else "Failed to reboot device " ++ d ++ ": " ++ error_of r)
               (if succeeded r then "✅" else "❌"))
       (spawned (fullCommandOf "reboot" d) r
          (record (log_events a ("Rebooting device " ++ d ++ "...") "🔄") m))).
Proof.
  cbv zeta; unfold RebootDevice, succeeded, error_of.
  rewrite run_log_seq, run_command_seq; cbn [clock record].
  destruct (command_result (w (clock m) (fullCommandOf "reboot" d))) as [[ok out] err].
  cbn [fst snd]; destruct ok; rewrite run_log_seq; reflexivity.
Qed.

Lemma run_extends (w : World) {A} (p : Prog A) m :
  exists evs, trace (after w p m) = (trace m ++ evs)%list.
Proof.
  unfold after; revert m;
    induction p as [x | c k IH | s k IH | t k IH | op k IH]; intro m; simpl.
  - exists []; rewrite app_nil_r; reflexivity.
  - destruct (IH (w (clock m) c)
                (mkMachine (S (clock m)) (trace m ++ [EvExec c (w (clock m) c)]) (stats m)))
      as (evs & T).
    exists (EvExec c (w (clock m) c) :: evs); rewrite T; simpl.
    rewrite <- app_assoc; reflexivity.
  - destruct (IH (mkMachine (clock m) (trace m ++ [EvPrint s]) (stats m))) as (evs & T).
    exists (EvPrint s :: evs); rewrite T; simpl; rewrite <- app_assoc; reflexivity.
  - destruct (IH (mkMachine (clock m) (trace m ++ [EvSleep t]) (stats m))) as (evs & T).
    exists (EvSleep t :: evs); rewrite T; simpl; rewrite <- app_assoc; reflexivity.
  - destruct (IH (mkMachine (clock m) (trace m ++ [EvStat op]) (apply_op op (stats m))))
      as (evs & T).
    exists (EvStat op :: evs); rewrite T; simpl; rewrite <- app_assoc; reflexivity.
Qed.

Lemma run_issues_events (w : World) {A} (P : string -> Prop) (p : Prog A) m :
  Issues P p ->
  exists evs, trace (after w p m) = (trace m ++ evs)%list /\ Forall P (commands evs).
Proof.
  intro Hi; destruct (run_extends w p m) as (evs & T); exists evs; split; [ exact T | ].
  pose proof (run_issues w Hi m) as F; rewrite T, since_app in F; exact F.
Qed.

Lemma incl_before_reboot d :
  incl (info_commands d) (before_reboot_commands d)
  /\ incl (permission_commands d) (before_reboot_commands d)
  /\ incl (inspection_commands d) (before_reboot_commands d)
  /\ incl (concat (strategy_commands d)) (before_reboot_commands d).
Proof.
  unfold before_reboot_commands; repeat split; intros c Hc;
    repeat first [ exact Hc | apply in_or_app; first [ left; exact Hc | right ] ].
Qed.

(** The shape of an orchestration around its reboot command: either the
    command is never spawned, or it is spawned once, after commands of the
    earlier steps only; a refusal ends the run as a success with no further
    command, an acceptance is followed by polling and validation only. *)
Lemma orchestration_around_reboot a d w m :
  let m' := after w (DisableLockscreenOnDeviceAsync a d) m in
  let new := since m (trace m') in
  Forall (fun c => In c (before_reboot_commands d)) (commands new)
  \/ exists evsA r0 evsC,
       new = (evsA ++ [EvExec (fullCommandOf "reboot" d) r0] ++ evsC)%list
       /\ Forall (fun c => In c (before_reboot_commands d)) (commands evsA)
       /\ ((succeeded r0 = false /\ commands evsC = []
            /\ stats m' = IncrementSuccess (stats m))
           \/ (succeeded r0 = true
               /\ Forall (fun c => In c (after_reboot_commands d)) (commands evsC))).
Proof.
  cbv zeta; unfold after.
  pose proof (advanced_refl (fun c => In c (before_reboot_commands d)) m) as Acc.
  revert Acc; generalize m at 2 4 6 7 as M; intros M Acc.
  destruct (incl_before_reboot d) as (I1 & I2 & I3 & I4).
  pose proof (fun w m => advanced_phase (GetDeviceInfo_issues a d)
                           (GetDeviceInfo_quiet a d) I1 w m) as P1.
  pose proof (fun w m => advanced_phase (CheckDevicePermissions_issues a d)
                           (CheckDevicePermissions_quiet a d) I2 w m) as P2.
  pose proof (fun w m => advanced_phase (CheckExistingLockScreen_issues a d)
                           (CheckExistingLockScreen_quiet a d) I3 w m) as P3.
  pose proof (fun w m => advanced_phase (cascade_loop_issues a d)
                           (cascade_methods_quiet a d) I4 w m) as P4.
  unfold DisableLockscreenOnDeviceAsync; cbv zeta.
  next_log Acc.
  next_phase w (GetDeviceInfo a d) P1 Acc.
  next_log Acc.
  next_phase w (CheckDevicePermissions a d) P2 Acc.
  destruct b; cbn [negb];
    [ | left; exact (proj2 (proj2 (exit_outcome w a _ _ _ Acc))) ].
  next_phase w (CheckExistingLockScreen a d) P3 Acc.
  destruct p as [hasLock lockType]; destruct hasLock; cbn [negb].
  2: { next_log Acc; left; exact (proj2 (proj2 (exit_outcome w a _ _ _ Acc))). }
  next_log Acc; next_log Acc.
  next_phase w (cascade_loop (methods a) d) P4 Acc.
  destruct b; cbn [negb];
    [ | left; exact (proj2 (proj2 (exit_outcome w a _ _ _ Acc))) ].
  next_sleep Acc; next_log Acc.
  rewrite (run_bind w (RebootDevice a d)), run_RebootDevice; cbv zeta.
  destruct Acc as (evsA & TA & FA & UA & SA).
  match goal with
  | |- context [succeeded (w (clock ?M) (fullCommandOf "reboot" d))] =>
      set (r0 := w (clock M) (fullCommandOf "reboot" d))
  end.
  right; exists (evsA ++ log_events a ("Rebooting device " ++ d ++ "...") "🔄")%list, r0.
  destruct (succeeded r0) eqn:S0; cbn [negb].
  - match goal with
    | |- context [run w ?p ?M'] =>
        assert (Hi : Issues (fun c => In c (after_reboot_commands d)) p);
        [ | destruct (run_issues_events w M' Hi) as (evsC & TC & FC) ]
    end.
    { pose proof (@Issues_incl (polling_commands d) (after_reboot_commands d) _ _
                    ltac:(intros c Hc; apply in_or_app; left; exact Hc)
                    (WaitForDeviceReady_polls_only a d 5)) as H6.
      pose proof (@Issues_incl (validation_commands d) (after_reboot_commands d) _ _
                    ltac:(intros c Hc; apply in_or_app; right; exact Hc)
                    (ValidateLockScreenRemoval_issues a d)) as H7.
      repeat first
        [ assumption
        | apply log_issues | apply sleep_issues | apply stat_issues
        | match goal with
          | |- Issues _ (match ?x with (_, _) => _ end) => destruct x
          | |- Issues _ (if ?b then _ else _) => destruct b
          end
        | apply Issues_bind; [ | intros ] ]. }
    unfold after in TC; rewrite TC; cbn [trace record spawned].
    eexists; split; [ | split; [ | right; split; [ reflexivity | ] ] ].
    + rewrite TA, <- !app_assoc, since_app; cbn [app]; reflexivity.
    + rewrite commands_app, commands_log_events, app_nil_r; exact FA.
    + rewrite commands_app, commands_log_events; exact FC.
  - rewrite run_log_seq; unfold stat; cbn [run snd trace record spawned clock stats].
    eexists; split; [ | split; [ | left; split; [ reflexivity | split ] ] ].
    + rewrite TA, <- !app_assoc, since_app; cbn [app]; reflexivity.
    + rewrite commands_app, commands_log_events, app_nil_r; exact FA.
    + rewrite !commands_app, !commands_log_events; reflexivity.
    + rewrite SA; reflexivity.
Qed.

Lemma only_after_reboot_not_before d c :
  In c (only_after_reboot d) -> ~ In c (before_reboot_commands d).
Proof.
  unfold only_after_reboot, before_reboot_commands; simpl; intros H H'.
  repeat match goal with
         | H : _ \/ _ |- _ => destruct H
         | H : False |- _ => contradiction
         end; subst;
    match goal with
    | H : fullCommandOf _ d = fullCommandOf _ d |- _ =>
        apply fullCommandOf_inj in H; discriminate
    end.
Qed.

Lemma Forall_commands_answered (P : string -> Prop) t c r :
  Forall P (commands t) -> In (c, r) (answered t) -> P c.
Proof.
  intros F H; apply answered_commands in H.
  rewrite Forall_forall in F; apply F, H.
Qed.

(** X8.  When the reboot command is refused, the orchestration still records
    the device as a success, and the reboot command is the last command it
    spawns: the device is neither polled for readiness nor validated.  All
    commands before it belong to the information, permission, inspection and
    remediation steps. *)
Theorem refused_reboot_is_recorded_as_success a d w m r :
  let m' := after w (DisableLockscreenOnDeviceAsync a d) m in
  let new := since m (trace m') in
  In (fullCommandOf "reboot" d, r) (answered new) ->
  succeeded r = false ->
  stats m' = IncrementSuccess (stats m)
  /\ exists cs, commands new = (cs ++ [fullCommandOf "reboot" d])%list
                /\ Forall (fun c => In c (before_reboot_commands d)) cs.
Proof.
  cbv zeta; intros Hin Hr.
  destruct (reboot_not_elsewhere d) as [NB NA].
  destruct (orchestration_around_reboot a d w m)
    as [F | (evsA & r0 & evsC & E & FA & [(S0 & C0 & St) | (S0 & FC)])];
    cbv zeta in *.
  - exfalso; apply NB; exact (Forall_commands_answered _ _ _ F Hin).
  - split; [ exact St | ].
    exists (commands evsA); split; [ | exact FA ].
    rewrite E, !commands_app, C0; reflexivity.
  - exfalso; rewrite E, !answered_app in Hin.
    apply in_app_or in Hin; destruct Hin as [Hin | Hin].
    + apply NB; exact (Forall_commands_answered _ _ _ FA Hin).
    + apply in_app_or in Hin; destruct Hin as [[Hin | []] | Hin].
      * injection Hin as <-; congruence.
      * apply NA; exact (Forall_commands_answered _ _ _ FC Hin).
Qed.

Lemma refused_reboot_is_recorded_as_success_witness :
  stats (after reboot_refused (DisableLockscreenOnDeviceAsync quiet "D1")
           (boot (NewProcessingStats 1)))
  = IncrementSuccess (NewProcessingStats 1)
  /\ exists cs,
       commands (since (boot (NewProcessingStats 1))
                   (trace (after reboot_refused (DisableLockscreenOnDeviceAsync quiet "D1")
                             (boot (NewProcessingStats 1)))))
       = (cs ++ [fullCommandOf "reboot" "D1"])%list
       /\ Forall (fun c => In c (before_reboot_commands "D1")) cs.
Proof.
  apply (@refused_reboot_is_recorded_as_success quiet "D1" reboot_refused
           (boot (NewProcessingStats 1)) (exits_with "exit status 1")).
  - vm_compute; tauto.
  - vm_compute; reflexivity.
Defined.

(** X9.  A readiness poll or a command that only the validation asks is
    spawned only after a reboot command that was accepted. *)
Theorem polling_and_validation_follow_accepted_reboot a d w m c :
  let new := since m (trace (after w (DisableLockscreenOnDeviceAsync a d) m)) in
  In c (only_after_reboot d) ->
  In c (commands new) ->
  exists r evsA evsC,
    new = (evsA ++ [EvExec (fullCommandOf "reboot" d) r] ++ evsC)%list
    /\ succeeded r = true
    /\ ~ In c (commands evsA)
    /\ In c (commands evsC).
Proof.
  cbv zeta; intros Hc Hin.
  pose proof (only_after_reboot_not_before Hc) as NB.
  assert (NR : c <> fullCommandOf "reboot" d).
  { intros ->; unfold only_after_reboot in Hc; simpl in Hc.
    repeat match goal with
           | H : _ \/ _ |- _ => destruct H
           | H : False |- _ => contradiction
           end;
      match goal with
      | H : fullCommandOf _ d = fullCommandOf _ d |- _ =>
          apply fullCommandOf_inj in H; discriminate
      end. }
  assert (NA : forall evs, Forall (fun c => In c (before_reboot_commands d)) (commands evs) ->
                           ~ In c (commands evs)).
  { intros evs F H; rewrite Forall_forall in F; apply NB, F, H. }
  destruct (orchestration_around_reboot a d w m)
    as [F | (evsA & r0 & evsC & E & FA & [(S0 & C0 & St) | (S0 & FC)])];
    cbv zeta in *.
  - exfalso; exact (NA _ F Hin).
  - exfalso; rewrite E, !commands_app, C0 in Hin.
    apply in_app_or in Hin; destruct Hin as [Hin | [Hin | []]].
    + exact (NA _ FA Hin).
    + apply NR; symmetry; exact Hin.
  - exists r0, evsA, evsC; repeat split; auto.
    rewrite E, !commands_app in Hin.
    apply in_app_or in Hin; destruct Hin as [Hin | Hin]; [ destruct (NA _ FA Hin) | ].
    apply in_app_or in Hin; destruct Hin as [[Hin | []] | Hin]; [ | exact Hin ].
    destruct NR; symmetry; exact Hin.
Qed.

Lemma polling_and_validation_follow_accepted_reboot_witness :
  exists r evsA evsC,
    since (boot (NewProcessingStats 1))
      (trace (after secured_D1 (DisableLockscreenOnDeviceAsync quiet "D1")
                (boot (NewProcessingStats 1))))
    = (evsA ++ [EvExec (fullCommandOf "reboot" "D1") r] ++ evsC)%list
    /\ succeeded r = true
    /\ ~ In (fullCommandOf "shell dumpsys window" "D1") (commands evsA)
    /\ In (fullCommandOf "shell dumpsys window" "D1") (commands evsC).
Proof.
  apply (@polling_and_validation_follow_accepted_reboot quiet "D1" secured_D1
           (boot (NewProcessingStats 1)) (fullCommandOf "shell dumpsys window" "D1")).
  - vm_compute; tauto.
  - vm_compute; tauto.
Defined.
(** ** The device helpers *)

Lemma run_CheckDevicePermissions a d w m :
  let echo := fullCommandOf "shell echo 'test'" d in
  let listing := fullCommandOf "shell settings list secure" d in
  let r1 := w (clock m) echo in
  let r2 := w (S (clock m)) listing in
  runs_to w (CheckDevicePermissions a d) m
    (succeeded r1 && (succeeded r2 && negb (String.eqb (output_of r2) "")))
    (if succeeded r1 then [echo; listing] else [echo]).
Proof.
  cbv zeta; unfold runs_to, succeeded, output_of, CheckDevicePermissions.
  run_steps; answer w; cbn [fst snd].
  destruct b; cbn [negb andb]; [ | leaf ].
  run_steps; answer w; cbn [fst snd].
  destruct b; cbn [negb andb orb]; [ | leaf ].
  destruct (String.eqb s1 ""); cbn [negb]; leaf.
Qed.

(** X10.  [CheckDevicePermissions] grants exactly when the shell answers and
    the secure settings can be listed with a non-empty result; without shell
    access the settings are not asked for at all. *)
Theorem CheckDevicePermissions_needs_shell_and_settings a d w m :
  let echo := fullCommandOf "shell echo 'test'" d in
  let listing := fullCommandOf "shell settings list secure" d in
  let r1 := w (clock m) echo in
  let r2 := w (S (clock m)) listing in
  result w (CheckDevicePermissions a d) m
  = succeeded r1 && (succeeded r2 && negb (String.eqb (output_of r2) ""))
  /\ commands (since m (trace (after w (CheckDevicePermissions a d) m)))
     = (if succeeded r1 then [echo; listing] else [echo]).
Proof.
  cbv zeta.
  destruct (runs_to_result (run_CheckDevicePermissions a d w m)) as [Hres Hran].
  split; [ exact Hres | exact (ran_commands Hran) ].
Qed.

Lemma reported_not_blank r : reported r <> "".
Proof.
  unfold reported; destruct (succeeded r); cbn [andb]; [ | discriminate ].
  destruct (String.eqb (output_of r) "") eqn:E; cbn [negb]; [ discriminate | ].
  intro H; rewrite H in E; discriminate.
Qed.

Lemma run_GetDeviceInfo a d w m :
  let n := clock m in
  runs_to w (GetDeviceInfo a d) m
    (mkDeviceInfo
       (reported (w n (fullCommandOf "shell getprop ro.product.model" d)))
       (reported (w (1 + n)%nat (fullCommandOf "shell getprop ro.product.manufacturer" d)))
       (reported (w (2 + n)%nat (fullCommandOf "shell getprop ro.build.version.release" d)))
       (reported (w (3 + n)%nat (fullCommandOf "shell getprop ro.build.version.sdk" d))))
    (info_commands d).
Proof.
  cbv zeta; unfold runs_to, reported, succeeded, output_of, GetDeviceInfo, info_commands.
  cbv zeta; cbn [Nat.add]; run_steps.
  repeat (answer w; run_steps).
  cbn [Model Manufacturer AndroidVersion APILevel].
  repeat match goal with
         | |- context [if ?b && negb (String.eqb ?s "") then _ else _] =>
             destruct (b && negb (String.eqb s ""))
         end;
    cbn [Model Manufacturer AndroidVersion APILevel run];
    eexists; (split; [ reflexivity | footprint ]).
Qed.

(** X11.  [GetDeviceInfo] always asks for the four properties, in order,
    whatever the earlier ones answered; each field is the trimmed answer when
    its query succeeded with a non-empty output and the text Unknown
    otherwise, so that no field is ever empty. *)
Theorem GetDeviceInfo_defaults_to_unknown a d w m :
  let n := clock m in
  let info := result w (GetDeviceInfo a d) m in
  info
  = mkDeviceInfo
      (reported (w n (fullCommandOf "shell getprop ro.product.model" d)))
      (reported (w (1 + n)%nat (fullCommandOf "shell getprop ro.product.manufacturer" d)))
      (reported (w (2 + n)%nat (fullCommandOf "shell getprop ro.build.version.release" d)))
      (reported (w (3 + n)%nat (fullCommandOf "shell getprop ro.build.version.sdk" d)))
  /\ commands (since m (trace (after w (GetDeviceInfo a d) m))) = info_commands d
  /\ Model info <> "" /\ Manufacturer info <> ""
  /\ AndroidVersion info <> "" /\ APILevel info <> "".
Proof.
  cbv zeta.
  destruct (runs_to_result (run_GetDeviceInfo a d w m)) as [Hres Hran].
  cbv zeta in Hres; rewrite Hres; cbn [Model Manufacturer AndroidVersion APILevel].
  split; [ reflexivity | ].
  split; [ exact (ran_commands Hran) | ].
  repeat split; apply reported_not_blank.
Qed.

(** ** The lock-state check *)

Lemma run_CheckLockScreenStatus a d w m :
  let n := clock m in
  let r1 := w n (fullCommandOf "shell dumpsys window" d) in
  let r2 := w (S n) (fullCommandOf "shell dumpsys power" d) in
  let r3 := w (S (S n)) (fullCommandOf "shell dumpsys activity activities" d) in
  let r4 := w (S (S (S n))) (fullCommandOf "shell settings get secure lockscreen.disabled" d) in
  let r5 := w (S (S (S (S n)))) (fullCommandOf "shell locksettings get-disabled" d) in
  runs_to w (CheckLockScreenStatus a d) m
    (if shows_lock r1 then (true, None)
     else if shows_asleep r2 then (true, None)
     else if shows_unlocked r3 then (false, None)
     else if setting_disabled r4 then (false, None)
     else if reports_disabled r5 then (false, None)
     else (true, indeterminate))
    (if shows_lock r1 then firstn 1 (validation_commands d)
     else if shows_asleep r2 then firstn 2 (validation_commands d)
     else if shows_unlocked r3 then firstn 3 (validation_commands d)
     else if setting_disabled r4 then firstn 4 (validation_commands d)
     else firstn 5 (validation_commands d)).
Proof.
  cbv zeta.
  unfold shows_lock, shows_asleep, shows_unlocked, setting_disabled, reports_disabled,
    indeterminate, succeeded, output_of, runs_to, CheckLockScreenStatus,
    validation_commands.
  cbn [firstn].
  run_steps; answer w; cbn [fst snd]; branch w; [ leaf | ].
  run_steps; answer w; cbn [fst snd]; branch w; [ leaf | ].
  run_steps; answer w; cbn [fst snd]; branch w; [ leaf | ].
  run_steps; answer w; cbn [fst snd]; branch w; [ leaf | ].
  run_steps; answer w; cbn [fst snd]; branch w; leaf.
Qed.

(** X12.  [CheckLockScreenStatus] errs on the side of locked: an
    indeterminate status is always reported as locked; it reports unlocked
    only when one of its last three probes fired; and when every probe
    fails it asks all five and reports locked, indeterminate. *)
Theorem CheckLockScreenStatus_fails_safe a d w m :
  let n := clock m in
  let r3 := w (2 + n)%nat (fullCommandOf "shell dumpsys activity activities" d) in
  let r4 := w (3 + n)%nat (fullCommandOf "shell settings get secure lockscreen.disabled" d) in
  let r5 := w (4 + n)%nat (fullCommandOf "shell locksettings get-disabled" d) in
  let locked := fst (result w (CheckLockScreenStatus a d) m) in
  let err := snd (result w (CheckLockScreenStatus a d) m) in
  let asked := commands (since m (trace (after w (CheckLockScreenStatus a d) m))) in
  (err = None \/ (err = indeterminate /\ locked = true))
  /\ (locked = false ->
      shows_unlocked r3 = true \/ setting_disabled r4 = true \/ reports_disabled r5 = true)
  /\ ((forall c, In c (validation_commands d) -> forall i, succeeded (w i c) = false) ->
      locked = true /\ err = indeterminate
      /\ asked = firstn 5 (validation_commands d)).
Proof.
  cbv zeta; cbn [Nat.add].
  destruct (runs_to_result (run_CheckLockScreenStatus a d w m)) as [Hres Hran].
  cbv zeta in Hres, Hran; apply ran_commands in Hran.
  rewrite Hres, Hran; clear Hres Hran.
  set (r1 := w (clock m) _).
  set (r2 := w (S (clock m)) _).
  set (r3 := w (S (S (clock m))) _).
  set (r4 := w (S (S (S (clock m)))) _).
  set (r5 := w (S (S (S (S (clock m))))) _).
  assert (E : forall r, succeeded r = false ->
                        shows_lock r = false /\ shows_asleep r = false
                        /\ shows_unlocked r = false /\ setting_disabled r = false
                        /\ reports_disabled r = false).
  { intros r Hr; unfold shows_lock, shows_asleep, shows_unlocked, setting_disabled,
      reports_disabled; rewrite Hr; auto. }
  split; [ | split ].
  - destruct (shows_lock r1), (shows_asleep r2), (shows_unlocked r3),
      (setting_disabled r4), (reports_disabled r5); cbn [fst snd]; auto.
  - destruct (shows_lock r1), (shows_asleep r2), (shows_unlocked r3),
      (setting_disabled r4), (reports_disabled r5); cbn [fst snd];
      auto; discriminate.
  - intro Hfail.
    assert (F : forall c i, In c (validation_commands d) -> succeeded (w i c) = false)
      by (intros; apply Hfail; assumption).
    destruct (E r1) as (-> & _); [ apply F; unfold validation_commands; in_list | ].
    destruct (E r2) as (_ & -> & _); [ apply F; unfold validation_commands; in_list | ].
    destruct (E r3) as (_ & _ & -> & _); [ apply F; unfold validation_commands; in_list | ].
    destruct (E r4) as (_ & _ & _ & -> & _);
      [ apply F; unfold validation_commands; in_list | ].
    destruct (E r5) as (_ & _ & _ & _ & ->);
      [ apply F; unfold validation_commands; in_list | ].
    cbn [fst snd]; auto.
Qed.

Lemma CheckLockScreenStatus_fails_safe_witness :
  fst (result unreachable (CheckLockScreenStatus quiet "D1") (boot (NewProcessingStats 1)))
  = true
  /\ snd (result unreachable (CheckLockScreenStatus quiet "D1")
            (boot (NewProcessingStats 1)))
     = indeterminate
  /\ commands (since (boot (NewProcessingStats 1))
                 (trace (after unreachable (CheckLockScreenStatus quiet "D1")
                           (boot (NewProcessingStats 1)))))
     = firstn 5 (validation_commands "D1").
Proof.
  apply (proj2 (proj2 (CheckLockScreenStatus_fails_safe quiet "D1" unreachable
                         (boot (NewProcessingStats 1))))).
  intros c _ i; reflexivity.
Defined.

(** ** The validation when the first check is determinate *)

Lemma run_ValidateLockScreenRemoval_determinate a d w m :
  let m1 := after w (validation_prologue a d) m in
  let first := result w (CheckLockScreenStatus a d) m1 in
  let m2 := after w (CheckLockScreenStatus a d) m1 in
  let m' := after w (ValidateLockScreenRemoval a d) m in
  snd first = None ->
  result w (ValidateLockScreenRemoval a d) m = negb (fst first)
  /\ commands (since m2 (trace m')) = []
  /\ trace m' = (trace m2 ++ since m2 (trace m'))%list.
Proof.
  cbv zeta; unfold result, after, ValidateLockScreenRemoval, validation_prologue.
  rewrite !run_log_seq, !run_sleep_seq, !run_sleep.
  rewrite (run_bind w (CheckLockScreenStatus a d)).
  cbn [snd].
  match goal with
  | |- context [run w (CheckLockScreenStatus a d) ?M] => generalize M; intro m1
  end.
  destruct (run w (CheckLockScreenStatus a d) m1) as [[locked1 err1] m2]; cbn [fst snd].
  intros ->; cbn [bind].
  destruct locked1; cbn [negb]; rewrite run_log_seq; cbn [run fst snd trace record];
    rewrite since_app, commands_log_events; repeat split; reflexivity.
Qed.

(** X13.  When the first lock-state check of the validation is determinate,
    the validation decides on it alone: it returns true exactly when the
    check found the device unlocked, sends no wake event and does not check
    again. *)
Theorem determinate_validation_decides_at_once a d w m :
  let m1 := after w (validation_prologue a d) m in
  let first := result w (CheckLockScreenStatus a d) m1 in
  let m2 := after w (CheckLockScreenStatus a d) m1 in
  let m' := after w (ValidateLockScreenRemoval a d) m in
  snd first = None ->
  result w (ValidateLockScreenRemoval a d) m = negb (fst first)
  /\ commands (since m2 (trace m')) = []
  /\ ~ In (fullCommandOf "shell input keyevent KEYCODE_WAKEUP" d)
         (commands (since m (trace m'))).
Proof.
  cbv zeta; intro Hdet.
  destruct (run_ValidateLockScreenRemoval_determinate a d w m Hdet) as (Hres & Hnone & T3).
  cbv zeta in Hres, Hnone, T3.
  split; [ exact Hres | split; [ exact Hnone | ] ].
  set (m1 := after w (validation_prologue a d) m) in *.
  set (m2 := after w (CheckLockScreenStatus a d) m1) in *.
  set (m' := after w (ValidateLockScreenRemoval a d) m) in *.
  assert (A1 : advanced (fun c => In c (firstn 5 (validation_commands d))) m m1).
  { subst m1; unfold after, validation_prologue.
    rewrite run_log_seq, run_sleep.
    eapply advanced_trans; [ apply advanced_log | ].
    apply (@advanced_record _ [EvSleep 3]); reflexivity. }
  assert (A2 : advanced (fun c => In c (firstn 5 (validation_commands d))) m1 m2).
  { subst m2; apply run_advanced; [ | apply CheckLockScreenStatus_quiet ].
    unfold CheckLockScreenStatus, validation_commands; cbn [firstn]; issues. }
  destruct (advanced_trans A1 A2) as (e12 & T12 & F12 & _).
  revert T3 Hnone; generalize (since m2 (trace m')); intros e3 T3 C3.
  rewrite T3, T12, <- app_assoc, since_app, commands_app, C3, app_nil_r.
  intro Hin; rewrite Forall_forall in F12; apply F12 in Hin.
  unfold validation_commands in Hin; cbn [firstn] in Hin; simpl in Hin.
  repeat match goal with
         | H : _ \/ _ |- _ => destruct H
         | H : False |- _ => contradiction
         end;
    match goal with
    | H : fullCommandOf _ d = fullCommandOf _ d |- _ =>
        apply fullCommandOf_inj in H; discriminate
    end.
Qed.

Lemma determinate_validation_decides_at_once_witness :
  result unlocked_D1 (ValidateLockScreenRemoval quiet "D1") (boot (NewProcessingStats 1))
  = true
  /\ ~ In (fullCommandOf "shell input keyevent KEYCODE_WAKEUP" "D1")
         (commands (since (boot (NewProcessingStats 1))
                      (trace (after unlocked_D1 (ValidateLockScreenRemoval quiet "D1")
                                (boot (NewProcessingStats 1)))))).
Proof.
  destruct (@determinate_validation_decides_at_once quiet "D1" unlocked_D1
              (boot (NewProcessingStats 1)) ltac:(vm_compute; reflexivity))
    as (Hres & _ & Hwake).
  split; [ rewrite Hres; vm_compute; reflexivity | exact Hwake ].
Defined.
(** ** An inspection that gets no answer *)

(** Splits the next answer and closes it as a failure by [Hfail]. *)
Ltac unanswered w Hfail :=
  answer w;
  match goal with
  | H : command_result (w ?n ?c) = (?b, _, _) |- _ =>
      let F := fresh "F" in
      assert (F : b = false);
      [ let G := fresh "G" in
        assert (G : succeeded (w n c) = false) by (apply Hfail; in_list);
        unfold succeeded in G; rewrite H in G; exact G
      | subst b; clear H ]
  end;
  cbn [andb negb fst snd]; cbv iota.

Lemma run_CheckExistingLockScreen_unanswered a d w m :
  (forall c, In c (inspection_commands d) -> forall i, succeeded (w i c) = false) ->
  runs_to w (CheckExistingLockScreen a d) m (false, "No lock screen detected")
    (inspection_commands d).
Proof.
  intro Hfail.
  assert (Hfail' : forall i c, In c (inspection_commands d) -> succeeded (w i c) = false)
    by (intros; apply Hfail; assumption).
  unfold runs_to, CheckExistingLockScreen, lockMethods.
  unfold inspection_commands in *.
  cbn [check_lockMethods].
  run_steps; unanswered w Hfail'.
  run_steps; unanswered w Hfail'.
  run_steps; unanswered w Hfail'.
  run_steps; unanswered w Hfail'.
  run_steps; unanswered w Hfail'.
  run_steps; unanswered w Hfail'.
  run_steps; unanswered w Hfail'.
  leaf.
Qed.

(** X14.  The lock inspection fails open: when none of its commands gets an
    answer, [CheckExistingLockScreen] asks all seven and reports that the
    device has no lock screen. *)
Theorem CheckExistingLockScreen_fails_open a d w m :
  (forall c, In c (inspection_commands d) -> forall i, succeeded (w i c) = false) ->
  result w (CheckExistingLockScreen a d) m = (false, "No lock screen detected")
  /\ commands (since m (trace (after w (CheckExistingLockScreen a d) m)))
     = inspection_commands d.
Proof.
  intro Hfail.
  destruct (runs_to_result (@run_CheckExistingLockScreen_unanswered a d w m Hfail))
    as [Hres Hran].
  split; [ exact Hres | exact (ran_commands Hran) ].
Qed.

Lemma CheckExistingLockScreen_fails_open_witness :
  result unreachable (CheckExistingLockScreen quiet "D1") (boot (NewProcessingStats 1))
  = (false, "No lock screen detected")
  /\ commands (since (boot (NewProcessingStats 1))
                 (trace (after unreachable (CheckExistingLockScreen quiet "D1")
                           (boot (NewProcessingStats 1)))))
     = inspection_commands "D1".
Proof.
  apply (@CheckExistingLockScreen_fails_open quiet "D1" unreachable
           (boot (NewProcessingStats 1))).
  intros c _ i; reflexivity.
Defined.

Lemma ran_then_log m M cs a message emoji :
  ran m M cs -> ran m (record (log_events a message emoji) M) cs.
Proof.
  intro H; eapply ran_step; [ exact H | apply ran_log | ].
  rewrite app_nil_r; reflexivity.
Qed.

(** X15.  A device that passes the permission check and then stops
    answering is recorded as a success: the inspection fails open, so the
    orchestration ends after it with one [IncrementSuccess], having spawned
    the information, permission and inspection commands and nothing else. *)
Theorem vanished_device_is_recorded_as_success a d w m :
  (forall i, succeeded (w i (fullCommandOf "shell echo 'test'" d)) = true) ->
  (forall i, succeeded (w i (fullCommandOf "shell settings list secure" d)) = true
             /\ output_of (w i (fullCommandOf "shell settings list secure" d)) <> "") ->
  (forall c, In c (inspection_commands d) -> forall i, succeeded (w i c) = false) ->
  let m' := after w (DisableLockscreenOnDeviceAsync a d) m in
  stats m' = IncrementSuccess (stats m)
  /\ failedDevices (stats m') = failedDevices (stats m)
  /\ commands (since m (trace m'))
     = (info_commands d ++ permission_commands d ++ inspection_commands d)%list.
Proof.
  intros He Hl Hf; cbv zeta; unfold after, DisableLockscreenOnDeviceAsync; cbv zeta.
  pose proof (ran_refl m) as Acc.
  rewrite run_log_seq.
  match goal with
  | |- context [record (log_events ?a ?msg ?e) m] =>
      apply (@ran_then_log _ _ _ a msg e) in Acc; revert Acc;
      generalize (record (log_events a msg e) m); intros M0 Acc
  end.
  rewrite (run_bind w (GetDeviceInfo a d)).
  destruct (run_GetDeviceInfo a d w M0) as (M1 & -> & R1).
  pose proof (ran_trans Acc R1) as Acc1; clear Acc R1; cbn [app] in Acc1.
  rewrite run_log_seq.
  match goal with
  | |- context [record (log_events ?a ?msg ?e) M1] =>
      apply (@ran_then_log _ _ _ a msg e) in Acc1; revert Acc1;
      generalize (record (log_events a msg e) M1); intros M2 Acc1
  end.
  rewrite (run_bind w (CheckDevicePermissions a d)).
  destruct (run_CheckDevicePermissions a d w M2) as (M3 & E3 & R3).
  cbv zeta in E3, R3; rewrite He in E3, R3.
  destruct (Hl (S (clock M2))) as [Hs Ho]; rewrite Hs in E3.
  apply String.eqb_neq in Ho; rewrite Ho in E3; cbn [andb negb] in E3.
  rewrite E3; clear E3; cbn [negb]; cbv iota.
  pose proof (ran_trans Acc1 R3) as Acc3; clear Acc1 R3.
  rewrite (run_bind w (CheckExistingLockScreen a d)).
  destruct (@run_CheckExistingLockScreen_unanswered a d w M3 Hf) as (M4 & -> & R4).
  pose proof (ran_trans Acc3 R4) as Acc4; clear Acc3 R4.
  cbn [negb]; cbv iota.
  rewrite !run_log_seq; unfold stat; cbn [run snd record trace clock stats apply_op].
  destruct Acc4 as (evs & T & C & _ & S).
  rewrite S, T, <- !app_assoc, since_app, !commands_app, !commands_log_events.
  cbn [commands]; rewrite !app_nil_r, C, <- !app_assoc.
  repeat split; reflexivity.
Qed.

Lemma vanished_device_is_recorded_as_success_witness :
  stats (after vanishing_D1 (DisableLockscreenOnDeviceAsync quiet "D1")
           (boot (NewProcessingStats 1)))
  = IncrementSuccess (NewProcessingStats 1)
  /\ failedDevices (stats (after vanishing_D1 (DisableLockscreenOnDeviceAsync quiet "D1")
                             (boot (NewProcessingStats 1))))
     = []
  /\ commands (since (boot (NewProcessingStats 1))
                 (trace (after vanishing_D1 (DisableLockscreenOnDeviceAsync quiet "D1")
                           (boot (NewProcessingStats 1)))))
     = (info_commands "D1" ++ permission_commands "D1" ++ inspection_commands "D1")%list.
Proof.
  apply (@vanished_device_is_recorded_as_success quiet "D1" vanishing_D1
           (boot (NewProcessingStats 1))).
  - intro i; reflexivity.
  - intro i; split; [ reflexivity | vm_compute; discriminate ].
  - intros c Hc i; simpl in Hc.
    repeat match goal with
           | H : _ \/ _ |- _ => destruct H
           | H : False |- _ => contradiction
           end; subst; reflexivity.
Defined.
(** ** Whom the statistics name *)

Lemma Updates_bind {A B} (P : StatOp -> Prop) (p : Prog A) (f : A -> Prog B) :
  Updates P p -> (forall x, Updates P (f x)) -> Updates P (bind p f).
Proof. intros Hp Hf; induction Hp; simpl; try constructor; auto. Qed.

Lemma Updates_quiet {A} (P : StatOp -> Prop) (p : Prog A) : StatOps 0 p -> Updates P p.
Proof.
  intro H; remember 0%nat as n eqn:E; induction H; try discriminate; constructor; auto.
Qed.

Lemma orchestration_updates a d devices :
  In d devices -> Updates (update_for devices) (DisableLockscreenOnDeviceAsync a d).
Proof.
  intro Hd.
  assert (Hop : forall op, op = OpIncrementSuccess \/ op = OpAddFailedDevice d ->
                           Updates (update_for devices) (stat op)).
  { intros op [-> | ->]; (apply Up_Stat; [ | apply Up_Ret ]);
      [ left; reflexivity | right; exists d; auto ]. }
  unfold DisableLockscreenOnDeviceAsync; cbv zeta.
  repeat first
    [ apply Hop; auto; fail
    | apply Updates_quiet; solve [ auto with statops ]
    | match goal with
      | |- Updates _ (match ?x with (_, _) => _ end) => destruct x
      | |- Updates _ (if ?b then _ else _) => destruct b
      end
    | apply Updates_bind; [ | intros ] ].
Qed.

Lemma failures_among_refl devices m : failures_among devices m m.
Proof. exists []; rewrite app_nil_r; auto. Qed.

Lemma failures_among_trans devices m1 m2 m3 :
  failures_among devices m1 m2 -> failures_among devices m2 m3 ->
  failures_among devices m1 m3.
Proof.
  intros (e1 & T1 & F1) (e2 & T2 & F2); exists (e1 ++ e2)%list; split.
  - rewrite T2, T1, app_assoc; reflexivity.
  - apply Forall_app; auto.
Qed.

Lemma step_updates w devices (p : Prog unit) m :
  Updates (update_for devices) p ->
  Updates (update_for devices) (fst (step w p m))
  /\ failures_among devices m (snd (step w p m)).
Proof.
  assert (Same : forall m0 : Machine, stats m0 = stats m -> failures_among devices m m0).
  { intros m0 E; exists []; rewrite app_nil_r, E; auto. }
  intros [x | c k Hk | s k Hk | t k Hk | op k Hop Hk]; simpl.
  - split; [ constructor | apply Same; reflexivity ].
  - split; [ apply Hk | apply Same; reflexivity ].
  - split; [ exact Hk | apply Same; reflexivity ].
  - split; [ exact Hk | apply Same; reflexivity ].
  - split; [ exact Hk | ].
    destruct Hop as [-> | (d & Hd & ->)].
    + exists []; simpl; rewrite app_nil_r; auto.
    + exists [d]; split; [ reflexivity | constructor; auto ].
Qed.

Lemma ProcessDevices_failures a devices sched w m s f t m' :
  ProcessDevices a devices sched w m = Some ((s, f, t), m') ->
  Forall (fun x => In x devices) f.
Proof.
  unfold ProcessDevices.
  destruct (len devices =? 0)%Z; [ intros [= _ <- _ _]; constructor | ].
  rewrite !run_log_seq, run_log.
  set (m1 := record _ (record _ _)).
  assert (Hpool : Forall (Updates (update_for devices)) (goroutines a devices)).
  { unfold goroutines; constructor; [ apply Updates_quiet, log_quiet | ].
    apply Forall_forall; intros p Hp; apply in_map_iff in Hp as (d & <- & Hd).
    apply orchestration_updates, Hd. }
  destruct (@run_schedule_good w (Updates (update_for devices))
              (failures_among devices)
              (failures_among_refl devices)
              (@failures_among_trans devices)
              (fun p m0 Hp => step_updates w m0 Hp)
              sched (goroutines a devices) m1 Hpool) as [_ (more & T & F)].
  destruct (run_schedule w sched (goroutines a devices) m1) as [pool m2].
  simpl in T; destruct (forallb finished pool); [ | discriminate ].
  intros [= _ <- _ _]; rewrite T; exact F.
Qed.

(** X16.  Whatever the interleaving, the failed devices [ProcessDevices]
    returns are among the devices it was given. *)
Theorem ProcessDevices_fails_only_given_devices a devices sched w m s f t m' :
  ProcessDevices a devices sched w m = Some ((s, f, t), m') ->
  Forall (fun x => In x devices) f.
Proof. apply ProcessDevices_failures. Qed.

Lemma ProcessDevices_fails_only_given_devices_witness :
  option_map fst
    (ProcessDevices quiet ["D1"; "D2"] one_after_the_other secured_D1
       (boot (NewProcessingStats 0)))
  = Some (1%Z, ["D2"], 2%Z)
  /\ Forall (fun x => In x ["D1"; "D2"]) ["D2"].
Proof.
  split; [ vm_compute; reflexivity | ].
  eapply (@ProcessDevices_fails_only_given_devices quiet ["D1"; "D2"]
            one_after_the_other secured_D1 (boot (NewProcessingStats 0)) 1%Z ["D2"] 2%Z).
  lazy; reflexivity.
Defined.

(** ** One device at a time *)

Lemma ProcessDevices_counts a devices sched w m s f t m' :
  (len devices <= max_int)%Z ->
  ProcessDevices a devices sched w m = Some ((s, f, t), m') ->
  (0 <= s)%Z /\ (s + len f)%Z = len devices
  /\ (len devices <> 0%Z -> GetStats (stats m') = (s, f, t)).
Proof.
  intros Hlen; unfold ProcessDevices.
  destruct (len devices =? 0)%Z eqn:E0.
  - intros [= <- <- <- _]; apply Z.eqb_eq in E0; rewrite E0.
    repeat split; try lia; unfold len; simpl; lia.
  - set (m0 := mkMachine (clock m) (trace m) (NewProcessingStats (len devices))).
    set (banner := bind _ _).
    assert (Hb : StatOps 0 banner) by (subst banner; statops).
    pose proof (run_quiet_stats w Hb m0) as Hstats.
    destruct (run w banner m0) as [u m1]; simpl in Hstats.
    assert (Hinv : pool_inv (len devices) (0%nat :: map (fun _ => 1%nat) devices)
                            (goroutines a devices) m1).
    { unfold pool_inv; rewrite Hstats; cbn.
      rewrite list_sum_ones; unfold settled, len; cbn.
      repeat split; try lia; [ apply goroutines_owe | exact Hlen ]. }
    destruct (run_schedule_inv w sched Hinv) as (ns' & HF & H0 & Hsum & Ht & _).
    destruct (run_schedule w sched (goroutines a devices) m1) as [pool m2].
    simpl in *.
    destruct (forallb finished pool) eqn:Hfin; [ | discriminate ].
    intros [= <- <- <- <-].
    rewrite (finished_pool_owes_nothing HF Hfin) in Hsum.
    unfold settled in Hsum; simpl in Hsum.
    repeat split; [ exact H0 | lia ].
Qed.

(** X17.  [ProcessSingleDevice] reports the outcome of its one device: it
    returns true exactly when the device was counted as a success, and then
    no device is listed as failed; it returns false exactly when the device
    itself, and nothing else, is listed as failed. *)
Theorem ProcessSingleDevice_reports_its_device a d sched w m b m' :
  ProcessSingleDevice a d sched w m = Some (b, m') ->
  (b = true /\ GetStats (stats m') = (1%Z, [], 1%Z))
  \/ (b = false /\ GetStats (stats m') = (0%Z, [d], 1%Z)).
Proof.
  unfold ProcessSingleDevice; cbv zeta.
  destruct (ProcessDevices a [d] sched w m) as [[[[s f] t] m1] |] eqn:E; [ | discriminate ].
  intros [= <- <-].
  assert (Hlen : (len [d] <= max_int)%Z) by (unfold len, max_int; simpl; lia).
  destruct (ProcessDevices_totals _ _ _ _ _ Hlen E) as [Ht _].
  destruct (ProcessDevices_counts _ _ _ _ _ Hlen E) as (H0 & Hsum & Hstats).
  pose proof (ProcessDevices_failures _ _ _ _ _ E) as Hf.
  rewrite Hstats by (unfold len; simpl; lia).
  change (len [d]) with 1%Z in *; subst t.
  destruct f as [| x [| y f]].
  - left; unfold len in Hsum; simpl in Hsum.
    assert (s = 1%Z) by lia; subst s; auto.
  - right; unfold len in Hsum; simpl in Hsum.
    assert (s = 0%Z) by lia; subst s.
    inversion Hf as [| ? ? [-> | []] _]; auto.
  - exfalso; unfold len in Hsum; simpl in Hsum; lia.
Qed.

Lemma ProcessSingleDevice_reports_its_device_witness :
  let run1 :=
    ProcessSingleDevice quiet "D2" one_after_the_other secured_D1
      (boot (NewProcessingStats 0)) in
  option_map fst run1 = Some false
  /\ GetStats (stats (machine_after run1 (boot (NewProcessingStats 0))))
     = (0%Z, ["D2"], 1%Z).
Proof.
  split; [ vm_compute; reflexivity | ].
  destruct (@ProcessSingleDevice_reports_its_device quiet "D2" one_after_the_other
              secured_D1 (boot (NewProcessingStats 0)) false
              (machine_after
                 (ProcessSingleDevice quiet "D2" one_after_the_other secured_D1
                    (boot (NewProcessingStats 0)))
                 (boot (NewProcessingStats 0)))
              ltac:(vm_compute; reflexivity)) as [[H _] | [_ H]];
    [ discriminate H | exact H ].
Defined.

Lemma ProcessDevices_talks_to_listed_devices_witness :
  let run2 :=
    ProcessDevices quiet ["D1"; "D2"] one_after_the_other secured_D1
      (boot (NewProcessingStats 0)) in
  option_map fst run2 = Some (1%Z, ["D2"], 2%Z)
  /\ Forall (fun c => exists d, In d ["D1"; "D2"] /\ addressed_to d c)
       (commands (since (boot (NewProcessingStats 0))
                    (trace (machine_after run2 (boot (NewProcessingStats 0)))))).
Proof.
  split; [ vm_compute; reflexivity | ].
  apply (@ProcessDevices_talks_to_listed_devices quiet ["D1"; "D2"] one_after_the_other
           secured_D1 (boot (NewProcessingStats 0)) (1%Z, ["D2"], 2%Z)).
  vm_compute; reflexivity.
Defined.
(** ** The pre-flight checks of [Run] *)

Lemma ran_after_nothing (w : World) {A} (p : Prog A) :
  Issues (fun _ => False) p -> StatOps 0 p -> forall m, ran m (after w p m) [].
Proof.
  unfold after.
  induction p as [x | c k IH | s k IH | t k IH | op k IH]; intros Hi Hs m; simpl.
  - apply ran_refl.
  - inversion Hi; contradiction.
  - inversion Hi; subst; inversion Hs; subst.
    apply (@ran_step m (record [EvPrint s] m) _ [] [] []);
      [ apply ran_record; reflexivity | apply IH; auto | reflexivity ].
  - inversion Hi; subst; inversion Hs; subst.
    apply (@ran_step m (record [EvSleep t] m) _ [] [] []);
      [ apply ran_record; reflexivity | apply IH; auto | reflexivity ].
  - inversion Hs.
Qed.

Lemma filter_targets_nothing a deviceMap targets : forall devices,
  Issues (fun _ => False) (filter_targets a targets deviceMap devices)
  /\ StatOps 0 (filter_targets a targets deviceMap devices).
Proof.
  induction targets as [| t rest IH]; intro devices; simpl.
  - split; constructor.
  - destruct (deviceMap t); [ apply IH | ].
    split; [ apply Issues_bind | apply StatOps_seq ];
      first [ apply log_issues | apply log_quiet | intros; apply IH ].
Qed.

Lemma run_CheckADBAvailability a w m :
  runs_to w (CheckADBAvailability a) m (succeeded (w (clock m) "adb version"))
    ["adb version"].
Proof.
  unfold runs_to, succeeded, CheckADBAvailability.
  run_steps; change (fullCommandOf "version" "") with "adb version".
  answer w; cbn [fst snd]; destruct b; leaf.
Qed.

Lemma GetConnectedDevices_ran a w m :
  ran m (after w (GetConnectedDevices a) m) ["adb devices"].
Proof.
  unfold after, GetConnectedDevices.
  rewrite run_log_seq, run_command_seq.
  change (fullCommandOf "devices" "") with "adb devices".
  cbn [clock record].
  set (M := spawned _ _ _).
  assert (R0 : ran m M ["adb devices"]).
  { subst M; eapply ran_step; [ apply ran_log | apply ran_spawned | reflexivity ]. }
  destruct (command_result (w (clock m) "adb devices")) as [[ok out] err].
  destruct ok; cbn [negb]; cbv iota.
  - match goal with
    | |- ran m (snd (run w ?p M)) _ =>
        eapply ran_step; [ exact R0 | apply (@ran_after_nothing w _ p) | reflexivity ]
    end.
    + destruct (filter_targets_nothing a
                  (make_deviceMap (scan_devices (ScanLines out) true []))
                  (targetDevices a) []) as [Hi _].
      issues; exact Hi.
    + destruct (filter_targets_nothing a
                  (make_deviceMap (scan_devices (ScanLines out) true []))
                  (targetDevices a) []) as [_ Hs].
      statops; exact Hs.
  - rewrite run_log_seq; cbn [run snd].
    eapply ran_step; [ exact R0 | apply ran_log | reflexivity ].
Qed.

(** X18.  [GetConnectedDevices] spawns exactly one command, the listing,
    and leaves the statistics alone; when the listing fails it returns no
    device and does not touch the receiver's list of connected devices. *)
Theorem GetConnectedDevices_asks_once a w m :
  let m' := after w (GetConnectedDevices a) m in
  commands (since m (trace m')) = ["adb devices"]
  /\ stats m' = stats m
  /\ (succeeded (w (clock m) "adb devices") = false ->
      result w (GetConnectedDevices a) m = ([], a)).
Proof.
  cbv zeta; pose proof (GetConnectedDevices_ran a w m) as R.
  split; [ exact (ran_commands R) | split; [ exact (ran_stats R) | ] ].
  unfold result, succeeded, GetConnectedDevices.
  rewrite run_log_seq, run_command_seq.
  change (fullCommandOf "devices" "") with "adb devices"; cbn [clock record].
  destruct (command_result (w (clock m) "adb devices")) as [[ok out] err].
  cbn [fst]; intros ->; cbn [negb]; rewrite run_log_seq; reflexivity.
Qed.

Lemma GetConnectedDevices_asks_once_witness :
  result unreachable (GetConnectedDevices (NewAndroidLockScreenDisabler ["D1"]))
    (boot (NewProcessingStats 0))
  = ([], NewAndroidLockScreenDisabler ["D1"]).
Proof.
  apply (proj2 (proj2 (GetConnectedDevices_asks_once
                         (NewAndroidLockScreenDisabler ["D1"]) unreachable
                         (boot (NewProcessingStats 0))))).
  reflexivity.
Defined.

Lemma len_nil_iff (l : list string) : (len l =? 0)%Z = true <-> l = [].
Proof.
  destruct l as [| x l]; [ split; reflexivity | ].
  split; [ | discriminate ].
  intro H; apply Z.eqb_eq in H; unfold len in H; simpl in H; lia.
Qed.

(** X19.  [Run] does nothing to any device unless the bridge tool works and
    the listing gives at least one device to process: otherwise it returns,
    under any schedule, having spawned only the version check (and the
    listing, when the version check passed), with the statistics untouched. *)
Theorem Run_stops_before_processing a sched w m :
  let r1 := w (clock m) "adb version" in
  let r2 := w (S (clock m)) "adb devices" in
  let online := listed_online (output_of r2) in
  let F := targetDevices a in
  let devices :=
    if (0 <? len F)%Z then filter (fun t => member t online) F else online in
  succeeded r1 = false \/ succeeded r2 = false \/ devices = [] ->
  exists a' m',
    Run a sched w m = Some (a', m')
    /\ stats m' = stats m
    /\ commands (since m (trace m'))
       = (if succeeded r1 then ["adb version"; "adb devices"] else ["adb version"]).
Proof.
  cbv zeta; intro Hstop; unfold Run.
  rewrite run_log_seq, run_log.
  set (m1 := record _ (record _ m)).
  assert (R1 : ran m m1 []).
  { subst m1; apply ran_then_log, ran_log. }
  destruct (run_CheckADBAvailability a w m1) as (m2 & E2 & R2).
  rewrite E2; clear E2.
  change (clock m1) with (clock m).
  pose proof (ran_trans R1 R2) as R12; cbn [app] in R12.
  destruct (succeeded (w (clock m) "adb version")) eqn:S1; cbn [negb].
  - assert (K2 : clock m2 = S (clock m)) by (rewrite (ran_clock R12); reflexivity).
    pose proof (GetConnectedDevices_ran a w m2) as R3.
    assert (Hnone : fst (fst (run w (GetConnectedDevices a) m2)) = []).
    { destruct (succeeded (w (S (clock m)) "adb devices")) eqn:S2.
      - destruct (@run_GetConnectedDevices a w m2) as (Hres & _).
        { rewrite K2; exact S2. }
        unfold result in Hres; rewrite Hres, K2; cbn [fst].
        destruct Hstop as [H | [H | H]]; [ discriminate | discriminate | exact H ].
      - destruct (GetConnectedDevices_asks_once a w m2) as (_ & _ & Hres).
        unfold result in Hres; rewrite Hres by (rewrite K2; exact S2); reflexivity. }
    unfold after in R3.
    destruct (run w (GetConnectedDevices a) m2) as [[devices a'] m3].
    cbn [fst snd] in *; subst devices.
    change (len [] =? 0)%Z with true; cbv iota.
    rewrite run_log; cbn [snd].
    exists a', (record (log_events a' "Please connect at least one Android device with USB debugging enabled." "💡") m3).
    pose proof (ran_then_log a' "Please connect at least one Android device with USB debugging enabled." "💡" (ran_trans R12 R3)) as R.
    split; [ reflexivity | split; [ exact (ran_stats R) | exact (ran_commands R) ] ].
  - rewrite run_log; cbn [snd].
    exists a, (record (log_events a "Please install ADB and ensure it's in your PATH." "💡") m2).
    pose proof (ran_then_log a "Please install ADB and ensure it's in your PATH." "💡" R12) as R.
    split; [ reflexivity | split; [ exact (ran_stats R) | exact (ran_commands R) ] ].
Qed.

Lemma Run_stops_before_processing_witness :
  (exists a' m',
      Run (NewAndroidLockScreenDisabler []) one_after_the_other no_bridge
        (boot (NewProcessingStats 0)) = Some (a', m')
      /\ stats m' = NewProcessingStats 0
      /\ commands (since (boot (NewProcessingStats 0)) (trace m')) = ["adb version"])
  /\ (exists a' m',
         Run (NewAndroidLockScreenDisabler []) one_after_the_other nothing_attached
           (boot (NewProcessingStats 0)) = Some (a', m')
         /\ stats m' = NewProcessingStats 0
         /\ commands (since (boot (NewProcessingStats 0)) (trace m'))
            = ["adb version"; "adb devices"]).
Proof.
  split.
  - apply (@Run_stops_before_processing (NewAndroidLockScreenDisabler [])
             one_after_the_other no_bridge (boot (NewProcessingStats 0))).
    left; reflexivity.
  - apply (@Run_stops_before_processing (NewAndroidLockScreenDisabler [])
             one_after_the_other nothing_attached (boot (NewProcessingStats 0))).
    right; right; vm_compute; reflexivity.
Defined.
(** ** [Run] end to end *)

Lemma Run_summary_nothing a s f t :
  Issues (fun _ => False) (Run_summary a s f t) /\ StatOps 0 (Run_summary a s f t).
Proof. unfold Run_summary; split; [ issues | statops ]. Qed.

(** X20.  When the bridge tool works and the listing gives devices to
    process, a [Run] that returns has processed exactly those devices: the
    receiver's connected devices are the listed ones (filtered by the
    targets, when targets were given), the statistics it ends with account
    for each of them once, the failed devices are among them, and after
    the version check and the listing every command it spawned is addressed
    to one of them. *)
Theorem Run_processes_the_listed_devices a sched w m a' m' :
  let r1 := w (clock m) "adb version" in
  let r2 := w (S (clock m)) "adb devices" in
  let online := listed_online (output_of r2) in
  let F := targetDevices a in
  let devices :=
    if (0 <? len F)%Z then filter (fun t => member t online) F else online in
  succeeded r1 = true ->
  succeeded r2 = true ->
  devices <> [] ->
  (len devices <= max_int)%Z ->
  Run a sched w m = Some (a', m') ->
  connectedDevices a' = devices
  /\ exists s f rest,
       GetStats (stats m') = (s, f, len devices)
       /\ (s + len f)%Z = len devices
       /\ Forall (fun x => In x devices) f
       /\ commands (since m (trace m')) = "adb version" :: "adb devices" :: rest
       /\ Forall (fun c => exists d, In d devices /\ addressed_to d c) rest.
Proof.
  cbv zeta; intros S1 S2 Hsome Hlen; unfold Run.
  rewrite run_log_seq, run_log.
  set (m1 := record _ (record _ m)).
  assert (R1 : ran m m1 []).
  { subst m1; apply ran_then_log, ran_log. }
  destruct (run_CheckADBAvailability a w m1) as (m2 & E2 & R2).
  rewrite E2; clear E2.
  change (clock m1) with (clock m); rewrite S1; cbn [negb].
  pose proof (ran_trans R1 R2) as R12; cbn [app] in R12.
  assert (K2 : clock m2 = S (clock m)) by (rewrite (ran_clock R12); reflexivity).
  pose proof (GetConnectedDevices_ran a w m2) as R3.
  destruct (@run_GetConnectedDevices a w m2) as (Hres & _).
  { rewrite K2; exact S2. }
  unfold result in Hres; unfold after in R3; rewrite K2 in Hres.
  destruct (run w (GetConnectedDevices a) m2) as [[devices a0] m3].
  cbn [fst snd] in *.
  injection Hres as Hd Ha; subst a0.
  revert Hsome Hlen; rewrite <- Hd; intros Hsome Hlen.
  destruct (len devices =? 0)%Z eqn:E0;
    [ apply len_nil_iff in E0; contradiction | ].
  set (a1 := mkDisabler devices (targetDevices a) (enableLogging a)).
  destruct (ProcessDevices a1 devices sched w m3) as [[[[s f] t] m4] |] eqn:EP;
    [ | discriminate ].
  intros [= <- <-]; split; [ reflexivity | ].
  destruct (ProcessDevices_totals _ _ _ _ _ Hlen EP) as [Ht Hsum].
  destruct (ProcessDevices_counts _ _ _ _ _ Hlen EP) as (_ & _ & Hstats).
  pose proof (ProcessDevices_failures _ _ _ _ _ EP) as Hf.
  destruct (ProcessDevices_events _ _ _ _ _ EP) as (evs & T4 & F4).
  destruct (Run_summary_nothing a1 s f t) as [Hi Hq].
  pose proof (ran_after_nothing w Hi Hq m4) as R5; unfold after in R5.
  destruct (ran_trans R12 R3) as (e3 & T3 & C3 & _).
  destruct R5 as (e5 & T5 & C5 & _ & S5).
  exists s, f, (commands evs).
  rewrite S5, T5, T4, T3, <- !app_assoc, since_app, !commands_app, C3, C5, app_nil_r.
  subst t; repeat split; auto.
  apply Hstats; intro H0; rewrite H0 in E0; discriminate.
Qed.

Lemma Run_processes_the_listed_devices_witness :
  let run0 :=
    Run (SetLogging (NewAndroidLockScreenDisabler ["D2"; "D7"]) false)
      one_after_the_other two_online (boot (NewProcessingStats 0)) in
  option_map (fun r => connectedDevices (fst r)) run0 = Some ["D2"]
  /\ exists s f rest,
       GetStats (stats (machine_after run0 (boot (NewProcessingStats 0))))
       = (s, f, len ["D2"])
       /\ (s + len f)%Z = len ["D2"]
       /\ Forall (fun x => In x ["D2"]) f
       /\ commands (since (boot (NewProcessingStats 0))
                      (trace (machine_after run0 (boot (NewProcessingStats 0)))))
          = "adb version" :: "adb devices" :: rest
       /\ Forall (fun c => exists d, In d ["D2"] /\ addressed_to d c) rest.
Proof.
  cbv zeta; split; [ vm_compute; reflexivity | ].
  refine (proj2 (@Run_processes_the_listed_devices
                   (SetLogging (NewAndroidLockScreenDisabler ["D2"; "D7"]) false)
                   one_after_the_other two_online (boot (NewProcessingStats 0))
                   (mkDisabler ["D2"] ["D2"; "D7"] false)
                   (machine_after
                      (Run (SetLogging (NewAndroidLockScreenDisabler ["D2"; "D7"]) false)
                         one_after_the_other two_online (boot (NewProcessingStats 0)))
                      (boot (NewProcessingStats 0)))
                   _ _ _ _ _)).
  - vm_compute; reflexivity.
  - vm_compute; reflexivity.
  - vm_compute; discriminate.
  - vm_compute; discriminate.
  - vm_compute; reflexivity.
Defined.
(** ** How long an orchestration sleeps *)

Lemma SleepsWithin_weaken {A} (b b' : A -> nat) s s' (p : Prog A) :
  SleepsWithin b' s' p -> (s <= s')%nat -> (forall x, (b' x <= b x)%nat) ->
  SleepsWithin b s p.
Proof.
  intros H; revert s; induction H; intros s0 Hs Hb; constructor; auto.
  - specialize (Hb x); lia.
  - apply IHSleepsWithin; [ lia | exact Hb ].
Qed.

Lemma SleepsWithin_frame {A} (b : A -> nat) s k (p : Prog A) :
  SleepsWithin b s p -> SleepsWithin (fun x => k + b x)%nat (k + s)%nat p.
Proof.
  intros H; induction H; constructor; auto; [ lia | ].
  rewrite <- Nat.add_assoc; exact IHSleepsWithin.
Qed.

Lemma SleepsWithin_bind {A B} (b : A -> nat) (c : B -> nat) s (p : Prog A)
  (f : A -> Prog B) :
  SleepsWithin b s p -> (forall x, SleepsWithin c (b x) (f x)) ->
  SleepsWithin c s (bind p f).
Proof.
  intros Hp Hf; induction Hp; simpl; try (constructor; auto).
  eapply SleepsWithin_weaken; [ apply Hf | assumption | auto ].
Qed.

Lemma SleepsWithin_assoc {A B C} (c : C -> nat) s (p : Prog A) (g : A -> Prog B)
  (f : B -> Prog C) :
  SleepsWithin c s (bind p (fun x => bind (g x) f)) ->
  SleepsWithin c s (bind (bind p g) f).
Proof.
  revert s; induction p as [x | l k IH | l k IH | t k IH | op k IH]; intros s H;
    simpl in *; [ exact H | | | | ]; inversion H; subst; constructor; auto.
Qed.

(** Calling [p], which on its own sleeps within [b], after [s] seconds. *)
Lemma SleepsWithin_call {A B} (b : A -> nat) (c : B -> nat) s (p : Prog A)
  (f : A -> Prog B) :
  SleepsWithin b 0 p -> (forall x, SleepsWithin c (s + b x) (f x)) ->
  SleepsWithin c s (bind p f).
Proof.
  intros Hp Hf.
  apply (@SleepsWithin_bind _ _ (fun x => s + b x)%nat c s p f); [ | exact Hf ].
  eapply SleepsWithin_weaken; [ apply (SleepsWithin_frame s Hp) | lia | auto ].
Qed.

(** Calling [p], which never sleeps. *)
Lemma SleepsWithin_pass {A B} (c : B -> nat) s (p : Prog A) (f : A -> Prog B) :
  SleepsWithin (fun _ => 0%nat) 0 p -> (forall x, SleepsWithin c s (f x)) ->
  SleepsWithin c s (bind p f).
Proof.
  intros Hp Hf; apply (SleepsWithin_call s _ Hp).
  intro x; rewrite Nat.add_0_r; apply Hf.
Qed.

Lemma SleepsWithin_sleep {B} (c : B -> nat) s t (f : unit -> Prog B) :
  SleepsWithin c (s + t) (f tt) -> SleepsWithin c s (bind (sleep t) f).
Proof. intro H; simpl; constructor; exact H. Qed.

Lemma run_sleeps (w : World) {A} (b : A -> nat) s (p : Prog A) :
  SleepsWithin b s p ->
  forall m, (s + slept (since m (trace (after w p m))) <= b (result w p m))%nat.
Proof.
  intro H.
  assert (G : forall m, exists evs, trace (after w p m) = (trace m ++ evs)%list
                                    /\ (s + slept evs <= b (result w p m))%nat).
  { unfold after, result;
      induction H as [s x Hx | s c k Hk IH | s l k Hk IH | s t k Hk IH | s op k Hk IH];
      intro m; simpl.
    - exists []; rewrite app_nil_r; simpl; split; [ reflexivity | lia ].
    - destruct (IH (w (clock m) c)
                  (mkMachine (S (clock m)) (trace m ++ [EvExec c (w (clock m) c)]) (stats m)))
        as (evs & T & F).
      exists (EvExec c (w (clock m) c) :: evs); split; [ | exact F ].
      rewrite T; simpl; rewrite <- app_assoc; reflexivity.
    - destruct (IH (mkMachine (clock m) (trace m ++ [EvPrint l]) (stats m)))
        as (evs & T & F).
      exists (EvPrint l :: evs); split; [ | exact F ].
      rewrite T; simpl; rewrite <- app_assoc; reflexivity.
    - destruct (IH (mkMachine (clock m) (trace m ++ [EvSleep t]) (stats m)))
        as (evs & T & F).
      exists (EvSleep t :: evs); split; [ | simpl; lia ].
      rewrite T; simpl; rewrite <- app_assoc; reflexivity.
    - destruct (IH (mkMachine (clock m) (trace m ++ [EvStat op])
                      (apply_op op (stats m))))
        as (evs & T & F).
      exists (EvStat op :: evs); split; [ | exact F ].
      rewrite T; simpl; rewrite <- app_assoc; reflexivity. }
  intro m; destruct (G m) as (evs & T & F); rewrite T, since_app; exact F.
Qed.

Lemma log_unhurried {B} a message emoji (c : B -> nat) s (f : unit -> Prog B) :
  SleepsWithin c s (f tt) -> SleepsWithin c s (bind (log a message emoji) f).
Proof.
  intro H; unfold log, printf; destruct (negb _); simpl; [ | constructor ]; exact H.
Qed.

Lemma runADBCommand_unhurried {B} a command d (c : B -> nat) s (f : _ -> Prog B) :
  (forall x, SleepsWithin c s (f x)) ->
  SleepsWithin c s (bind (runADBCommand a command d) f).
Proof. intro H; unfold runADBCommand, exec; simpl; constructor; intro r; apply H. Qed.

Lemma log_last_unhurried a message emoji (c : unit -> nat) s :
  (s <= c tt)%nat -> SleepsWithin c s (log a message emoji).
Proof.
  intro H; unfold log, printf; destruct (negb _); repeat constructor; exact H.
Qed.

Lemma runADBCommand_last_unhurried a command d (c : _ -> nat) s :
  (forall x, (s <= c x)%nat) -> SleepsWithin c s (runADBCommand a command d).
Proof. intro H; unfold runADBCommand, exec; simpl; repeat constructor; apply H. Qed.

Create HintDb sleeps.

(** Walks through logging, commands, sleeps, updates and branches, counting
    the seconds slept. *)
Ltac sleeps_step :=
  match goal with
  | |- SleepsWithin _ _ (bind (log _ _ _) _) => apply log_unhurried
  | |- SleepsWithin _ _ (bind (runADBCommand _ _ _) _) =>
      apply runADBCommand_unhurried; intros [[? ?] ?]
  | |- SleepsWithin _ _ (bind (sleep _) _) => apply SleepsWithin_sleep
  | |- SleepsWithin _ _ (log _ _ _) => apply log_last_unhurried
  | |- SleepsWithin _ _ (runADBCommand _ _ _) => apply runADBCommand_last_unhurried; intro
  | |- SleepsWithin _ _ (stat _) => unfold stat; apply SW_Stat
  | |- SleepsWithin _ _ (sleep _) => unfold sleep; apply SW_Sleep
  | |- SleepsWithin _ _ (Ret _) => apply SW_Ret
  | |- SleepsWithin _ _ (match ?x with (_, _) => _ end) => destruct x
  | |- SleepsWithin _ _ (if ?b then _ else _) => destruct b
  | |- SleepsWithin _ _ (match ?x with Some _ => _ | None => _ end) => destruct x
  | |- SleepsWithin _ _ (bind (if ?b then _ else _) _) => destruct b
  | |- SleepsWithin _ _ (bind (match ?x with (_, _) => _ end) _) => destruct x
  | |- SleepsWithin _ _ (bind (match ?x with Some _ => _ | None => _ end) _) => destruct x
  | |- SleepsWithin _ _ (bind (Ret _) _) => cbn [bind]
  | |- SleepsWithin _ _ (bind (bind _ _) _) => apply SleepsWithin_assoc
  | |- SleepsWithin _ _ (bind _ _) =>
      apply SleepsWithin_pass; [ solve [ auto with sleeps ] | intros ]
  | |- SleepsWithin _ _ _ => solve [ auto with sleeps ]
  | |- (_ <= _)%nat => simpl; lia
  end.

Ltac sleeps := cbv zeta; repeat sleeps_step.

Lemma GetDeviceInfo_unhurried a d : SleepsWithin (fun _ => 0%nat) 0 (GetDeviceInfo a d).
Proof. unfold GetDeviceInfo; sleeps. Qed.

Lemma CheckDevicePermissions_unhurried a d :
  SleepsWithin (fun _ => 0%nat) 0 (CheckDevicePermissions a d).
Proof. unfold CheckDevicePermissions; sleeps. Qed.

Lemma check_lockMethods_unhurried a d flag ms :
  SleepsWithin (fun _ => 0%nat) 0 (check_lockMethods a d flag ms).
Proof. induction ms as [| method rest IH]; cbn [check_lockMethods]; sleeps. Qed.

#[local] Hint Resolve check_lockMethods_unhurried : sleeps.

Lemma CheckExistingLockScreen_unhurried a d :
  SleepsWithin (fun _ => 0%nat) 0 (CheckExistingLockScreen a d).
Proof.
  unfold CheckExistingLockScreen; sleeps.
Qed.

Lemma CheckLockScreenStatus_unhurried a d :
  SleepsWithin (fun _ => 0%nat) 0 (CheckLockScreenStatus a d).
Proof. unfold CheckLockScreenStatus; sleeps. Qed.

Lemma RebootDevice_unhurried a d : SleepsWithin (fun _ => 0%nat) 0 (RebootDevice a d).
Proof. unfold RebootDevice; sleeps. Qed.

#[local] Hint Resolve GetDeviceInfo_unhurried CheckDevicePermissions_unhurried
  CheckExistingLockScreen_unhurried CheckLockScreenStatus_unhurried
  RebootDevice_unhurried : sleeps.

Lemma method4_loop_unhurried a d cs n :
  SleepsWithin (fun _ => 0%nat) 0 (method4_loop a d cs n).
Proof. revert n; induction cs as [| c cs IH]; intro n; cbn [method4_loop]; sleeps. Qed.

#[local] Hint Resolve method4_loop_unhurried : sleeps.

Lemma methods_unhurried a d :
  SleepsWithin (fun _ => 0%nat) 0 (disableLockscreenMethod1 a d)
  /\ SleepsWithin (fun _ => 0%nat) 0 (disableLockscreenMethod2 a d)
  /\ SleepsWithin (fun _ => 0%nat) 0 (disableLockscreenMethod3 a d)
  /\ SleepsWithin (fun _ => 0%nat) 0 (disableLockscreenMethod4 a d).
Proof.
  unfold disableLockscreenMethod1, disableLockscreenMethod2, disableLockscreenMethod3,
    disableLockscreenMethod4.
  repeat split; sleeps.
Qed.

Lemma cascade_loop_sleeps a d :
  SleepsWithin (fun ok : bool => if ok then 3 else 4)%nat 0 (cascade_loop (methods a) d).
Proof.
  destruct (methods_unhurried a d) as (H1 & H2 & H3 & H4).
  unfold methods; cbn [cascade_loop]; sleeps.
Qed.

Lemma wait_loop_sleeps a d mw M :
  (M <= max_int)%Z ->
  forall fuel attempt,
    (0 <= attempt)%Z ->
    SleepsWithin (fun ready : bool =>
                    if ready then 15 * Z.to_nat (M - attempt)
                    else 15 * Z.to_nat (M - attempt) + 5)%nat
      5 (wait_loop a d mw M fuel attempt).
Proof.
  intros HM; induction fuel as [| fuel IH]; intros attempt H0; cbn [wait_loop];
    [ constructor; lia | ].
  destruct (attempt <? M)%Z eqn:Hlt; [ | sleeps ].
  apply Z.ltb_lt in Hlt.
  assert (Hw : wrap64 (attempt + 1) = (attempt + 1)%Z).
  { apply wrap64_small; unfold max_int in *; lia. }
  assert (Hn : Z.to_nat (M - attempt) = S (Z.to_nat (M - (attempt + 1)))) by lia.
  assert (Hrec : SleepsWithin (fun ready : bool =>
                                 if ready then 15 * Z.to_nat (M - attempt)
                                 else 15 * Z.to_nat (M - attempt) + 5)%nat
                   20 (wait_loop a d mw M fuel (attempt + 1))).
  { eapply SleepsWithin_weaken;
      [ apply (SleepsWithin_frame 15 (IH (attempt + 1)%Z ltac:(lia))) | lia | ].
    intros [|]; lia. }
  apply runADBCommand_unhurried; intros [[ok out] err].
  apply (@SleepsWithin_bind _ _ (fun _ => 15%nat)).
  - destruct ok; sleeps.
  - intros [|]; [ sleeps | ].
    cbv zeta; rewrite Hw.
    destruct (Z.rem (attempt + 1) 6 =? 0)%Z; sleeps; exact Hrec.
Qed.

Lemma WaitForDeviceReady_sleeps a d :
  SleepsWithin (fun ready : bool => if ready then 895 else 900)%nat 0
    (WaitForDeviceReady a d 5).
Proof.
  unfold WaitForDeviceReady; cbv zeta.
  apply log_unhurried.
  change (wrap64 (5 * 12)) with 60%Z.
  pose proof (@wait_loop_sleeps a d 5 60 ltac:(unfold max_int; lia)
                (S (Z.to_nat 60)) 0%Z ltac:(lia)) as H.
  change (15 * Z.to_nat (60 - 0))%nat with 900%nat in H.
  set (p := wait_loop _ _ _ _ _ _) in *; clearbody p.
  assert (G : forall s, SleepsWithin (fun ready : bool => if ready then 900 else 905)%nat
                          (5 + s) p ->
                        SleepsWithin (fun ready : bool => if ready then 895 else 900)%nat
                          s p).
  { clear H; induction p as [x | c k IHp | l k IHp | t k IHp | op k IHp];
      intros s H; inversion H; subst; constructor; auto;
      first [ destruct x; lia | apply IHp; rewrite Nat.add_assoc; assumption ]. }
  apply G; exact H.
Qed.

Lemma ValidateLockScreenRemoval_sleeps a d :
  SleepsWithin (fun _ => 5%nat) 0 (ValidateLockScreenRemoval a d).
Proof. unfold ValidateLockScreenRemoval; sleeps. Qed.

Lemma orchestration_sleeps a d :
  SleepsWithin (fun _ => 905%nat) 0 (DisableLockscreenOnDeviceAsync a d).
Proof.
  unfold DisableLockscreenOnDeviceAsync; cbv zeta.
  apply log_unhurried.
  apply SleepsWithin_pass; [ apply GetDeviceInfo_unhurried | intros info ].
  apply log_unhurried.
  apply SleepsWithin_pass; [ apply CheckDevicePermissions_unhurried | intros [|] ];
    cbn [negb]; [ | sleeps ].
  apply SleepsWithin_pass;
    [ apply CheckExistingLockScreen_unhurried | intros [[|] lockType] ];
    cbn [negb]; [ | sleeps ].
  apply log_unhurried; apply log_unhurried.
  apply (SleepsWithin_call 0 _ (cascade_loop_sleeps a d)); intros [|]; cbn [negb Nat.add];
    [ | sleeps ].
  apply SleepsWithin_sleep; cbn [Nat.add].
  apply log_unhurried.
  apply SleepsWithin_pass; [ apply RebootDevice_unhurried | intros [|] ];
    cbn [negb]; [ | sleeps ].
  apply log_unhurried.
  apply (SleepsWithin_call 5 _ (WaitForDeviceReady_sleeps a d)); intros [|];
    cbn [negb Nat.add]; [ | sleeps ].
  apply (SleepsWithin_call 900 _ (ValidateLockScreenRemoval_sleeps a d)); intros [|];
    sleeps.
Qed.

(** ** The targets named on the command line *)

Lemma spaceless_snoc field c :
  spaceless field = true -> is_space c = false ->
  spaceless (field ++ String c "") = true.
Proof.
  unfold spaceless; induction field as [| x field IH]; simpl; intros H Hc.
  - rewrite Hc; reflexivity.
  - apply andb_true_iff in H as [Hx H]; rewrite Hx; simpl; apply IH; assumption.
Qed.

Lemma snoc_not_empty field c : field ++ String c "" <> "".
Proof. destruct field; discriminate. Qed.

Lemma Fields_from_tokens s : forall field,
  spaceless field = true ->
  Forall (fun t => t <> "" /\ spaceless t = true) (Fields_from field s).
Proof.
  induction s as [| c s IH]; intros field Hf; simpl.
  - destruct (String.eqb field "") eqn:E; constructor; [ | constructor ].
    split; [ | exact Hf ].
    intro H; rewrite H in E; discriminate.
  - destruct (is_space c) eqn:Hc.
    + destruct (String.eqb field "") eqn:E; [ apply IH; reflexivity | ].
      constructor; [ | apply IH; reflexivity ].
      split; [ | exact Hf ].
      intro H; rewrite H in E; discriminate.
    + apply IH, spaceless_snoc; assumption.
Qed.

Lemma Fields_from_blank s : blank s = true -> Fields_from "" s = [].
Proof.
  unfold blank; induction s as [| c s IH]; simpl; [ reflexivity | ].
  intro H; apply andb_true_iff in H as [Hc H]; rewrite Hc; simpl; apply IH, H.
Qed.

(** X22.  The targets [main] takes from its [-devices] flag are never empty
    and contain no white space; a flag made of white space only names no
    target at all, so that [GetConnectedDevices] then applies no filter and
    returns every online device of the listing. *)
Theorem devices_flag_targets devicesFlag :
  Forall (fun t => t <> "" /\ spaceless t = true) (targetDevices_of devicesFlag)
  /\ (blank devicesFlag = true ->
      targetDevices_of devicesFlag = []
      /\ forall w m,
           succeeded (w (clock m) "adb devices") = true ->
           fst (result w (GetConnectedDevices
                            (NewAndroidLockScreenDisabler (targetDevices_of devicesFlag)))
                  m)
           = listed_online (output_of (w (clock m) "adb devices"))).
Proof.
  split.
  - unfold targetDevices_of; destruct (negb _); [ | constructor ].
    apply Fields_from_tokens; reflexivity.
  - intro Hb.
    assert (E : targetDevices_of devicesFlag = []).
    { unfold targetDevices_of; destruct (negb _); [ | reflexivity ].
      apply Fields_from_blank, Hb. }
    split; [ exact E | ].
    intros w m Hok; rewrite E.
    destruct (@run_GetConnectedDevices (NewAndroidLockScreenDisabler []) w m Hok)
      as (Hres & _).
    rewrite Hres; reflexivity.
Qed.

Lemma devices_flag_targets_witness :
  targetDevices_of " D1  D2 " = ["D1"; "D2"]
  /\ targetDevices_of "   " = []
  /\ fst (result two_online
            (GetConnectedDevices (NewAndroidLockScreenDisabler (targetDevices_of "   ")))
            (boot (NewProcessingStats 0)))
     = ["D1"; "D2"].
Proof.
  split; [ reflexivity | ].
  destruct (proj2 (devices_flag_targets "   ") eq_refl) as [E H].
  split; [ exact E | ].
  rewrite (H two_online (boot (NewProcessingStats 0)) eq_refl).
  vm_compute; reflexivity.
Defined.
(** ** The inspection stops at the first evidence *)

Lemma run_CheckExistingLockScreen_early a d w m :
  let n := clock m in
  let r1 := w n (fullCommandOf "shell dumpsys trust" d) in
  let r2 := w (S n) (fullCommandOf "shell locksettings get-disabled" d) in
  (trust_secure r1 = true ->
   runs_to w (CheckExistingLockScreen a d) m
     (true, "Device has secure lock screen (detected via trust manager)")
     (firstn 1 (inspection_commands d)))
  /\ (trust_secure r1 = false -> succeeded r2 = true -> reports_disabled r2 = false ->
      runs_to w (CheckExistingLockScreen a d) m
        (true, "Device has lock configured (detected via locksettings)")
        (firstn 2 (inspection_commands d))).
Proof.
  cbv zeta.
  unfold trust_secure, reports_disabled, succeeded, output_of, runs_to,
    CheckExistingLockScreen, inspection_commands.
  cbn [firstn].
  run_steps; answer w; cbn [fst snd]; branch w.
  - split; [ intros _; leaf | intros; discriminate ].
  - split; [ intros; discriminate | intros _ ].
    run_steps; answer w; cbn [fst snd].
    intros -> Hd; cbn [andb] in Hd; cbv iota; rewrite Hd; cbn [andb negb]; cbv iota; leaf.
Qed.

(** X23.  [CheckExistingLockScreen] stops at the first heuristic that
    fires: when the trust manager reports the device secure it reports a
    lock after that single command; otherwise, when the lock settings answer
    and do not say the lock is disabled, it reports a lock after two
    commands.  The later heuristics are not consulted. *)
Theorem CheckExistingLockScreen_stops_at_first_evidence a d w m :
  let n := clock m in
  let r1 := w n (fullCommandOf "shell dumpsys trust" d) in
  let r2 := w (S n) (fullCommandOf "shell locksettings get-disabled" d) in
  let asked := commands (since m (trace (after w (CheckExistingLockScreen a d) m))) in
  (trust_secure r1 = true ->
   result w (CheckExistingLockScreen a d) m
   = (true, "Device has secure lock screen (detected via trust manager)")
   /\ asked = [fullCommandOf "shell dumpsys trust" d])
  /\ (trust_secure r1 = false -> succeeded r2 = true -> reports_disabled r2 = false ->
      result w (CheckExistingLockScreen a d) m
      = (true, "Device has lock configured (detected via locksettings)")
      /\ asked = [fullCommandOf "shell dumpsys trust" d;
                  fullCommandOf "shell locksettings get-disabled" d]).
Proof.
  cbv zeta; destruct (run_CheckExistingLockScreen_early a d w m) as [H1 H2].
  cbv zeta in H1, H2; split.
  - intro Ht; destruct (runs_to_result (H1 Ht)) as [Hres Hran].
    split; [ exact Hres | exact (ran_commands Hran) ].
  - intros Ht Hs Hd; destruct (runs_to_result (H2 Ht Hs Hd)) as [Hres Hran].
    split; [ exact Hres | exact (ran_commands Hran) ].
Qed.

Lemma CheckExistingLockScreen_stops_at_first_evidence_witness :
  (result secured_D1 (CheckExistingLockScreen quiet "D1") (boot (NewProcessingStats 1))
   = (true, "Device has secure lock screen (detected via trust manager)")
   /\ commands (since (boot (NewProcessingStats 1))
                  (trace (after secured_D1 (CheckExistingLockScreen quiet "D1")
                            (boot (NewProcessingStats 1)))))
      = [fullCommandOf "shell dumpsys trust" "D1"])
  /\ (result two_online (CheckExistingLockScreen quiet "D1") (boot (NewProcessingStats 1))
      = (true, "Device has lock configured (detected via locksettings)")
      /\ commands (since (boot (NewProcessingStats 1))
                     (trace (after two_online (CheckExistingLockScreen quiet "D1")
                               (boot (NewProcessingStats 1)))))
         = [fullCommandOf "shell dumpsys trust" "D1";
            fullCommandOf "shell locksettings get-disabled" "D1"]).
Proof.
  split.
  - apply (proj1 (CheckExistingLockScreen_stops_at_first_evidence quiet "D1" secured_D1
                    (boot (NewProcessingStats 1)))).
    vm_compute; reflexivity.
  - apply (proj2 (CheckExistingLockScreen_stops_at_first_evidence quiet "D1" two_online
                    (boot (NewProcessingStats 1)))); vm_compute; reflexivity.
Defined.
